(** * Scheduling and synchronisation engine of the content studio

    A shallow embedding of
      - [core/enums.py] (the enumerations used by scheduling),
      - [aspects/content_studio/shared/models/scheduling.py],
      - [core/integrations/later_dev] (client, models, exceptions),
      - [aspects/content_studio/shared/repositories/scheduled_post.py],
      - [aspects/content_studio/shared/services/scheduler_service.py],
    followed by the properties of the post life cycle.

    Python objects become records, [None]-able values become [option],
    the database session, the Late API and the logger become an explicit
    world threaded through a state-and-exception monad. *)

From Stdlib Require Import List String Ascii ZArith Bool Arith Lia.
From Stdlib Require Import Sorting.Sorted Sorting.Permutation.
From Stdlib Require Import Numbers.DecimalString.
Import ListNotations.
Open Scope string_scope.
Open Scope list_scope.

Set Implicit Arguments.

(** ** Base types *)

(** A [uuid.UUID]; only equality and freshness matter. *)
Definition UUID := nat.

(** A timezone-aware [datetime] in UTC, as an instant on the time line,
    counted in microseconds from 1970-01-01T00:00:00Z. *)
Definition datetime := Z.

(** [datetime.min] and [datetime.max] as instants: the first microsecond
    of year 1 and the last one of year 9999. *)
Definition datetime_min : Z := (-62135596800000000)%Z.
Definition datetime_max : Z := 253402300799999999%Z.

(** [timedelta.min] and [timedelta.max] in microseconds: 999999999 days
    back, and one microsecond less than 1000000000 days ahead. *)
Definition timedelta_min : Z := (-86399999913600000000)%Z.
Definition timedelta_max : Z := 86399999999999999999%Z.

(** [str(uuid)]: an injective rendering. *)
Definition str_UUID (u : UUID) : string :=
  NilZero.string_of_uint (Nat.to_uint u).

(** Python truthiness of a [str | None]: [None] and the empty string are
    falsy. *)
Definition truthy (s : option string) : bool :=
  match s with
  | None => false
  | Some s => negb (String.eqb s "")
  end.

(** [repr(s)] of a [str]; a string stands for the sequence of its code
    points, each below 256.  The quote is ['], or the double quote when
    the string holds a ['] and no double quote; the backslash and the
    quote in use are escaped, tab, newline and carriage return are written
    [\t], [\n] and [\r], and every other code point that is not printable
    (below 32, from 127 to 160, and 173) is written [\xhh]. *)
Definition double_quote : ascii := ascii_of_nat 34.

Definition hex_digit (n : nat) : ascii :=
  nth n (list_ascii_of_string "0123456789abcdef") "0"%char.

Definition printable (c : ascii) : bool :=
  let n := nat_of_ascii c in
  (Nat.leb 32 n && Nat.ltb n 127) || (Nat.leb 161 n && negb (Nat.eqb n 173)).

Definition contains (c : ascii) (s : string) : bool :=
  existsb (Ascii.eqb c) (list_ascii_of_string s).

Definition repr_char (quote c : ascii) : string :=
  if Ascii.eqb c "\"%char || Ascii.eqb c quote then String "\" (String c "")
  else if Ascii.eqb c (ascii_of_nat 9) then "\t"
  else if Ascii.eqb c (ascii_of_nat 10) then "\n"
  else if Ascii.eqb c (ascii_of_nat 13) then "\r"
  else if printable c then String c ""
  else
    let n := nat_of_ascii c in
    String "\" (String "x" (String (hex_digit (Nat.div n 16))
                              (String (hex_digit (Nat.modulo n 16)) ""))).

Definition repr_str (s : string) : string :=
  let quote := if contains "'"%char s && negb (contains double_quote s)
               then double_quote else "'"%char in
  String quote
    (String.concat "" (map (repr_char quote) (list_ascii_of_string s))
     ++ String quote "").

(** ** core/enums.py *)

Inductive PlatformType :=
| TIKTOK | YOUTUBE | INSTAGRAM | REDDIT | LINKEDIN | TWITTER
| FACEBOOK | PINTEREST | BLUESKY | THREADS | GOOGLE_BUSINESS.

Definition PlatformType_value (p : PlatformType) : string :=
  match p with
  | TIKTOK => "tiktok" | YOUTUBE => "youtube" | INSTAGRAM => "instagram"
  | REDDIT => "reddit" | LINKEDIN => "linkedin" | TWITTER => "twitter"
  | FACEBOOK => "facebook" | PINTEREST => "pinterest" | BLUESKY => "bluesky"
  | THREADS => "threads" | GOOGLE_BUSINESS => "google_business"
  end.

Inductive ScheduleStatus :=
| DRAFT | PENDING_SYNC | SCHEDULED | PUBLISHING | PUBLISHED | FAILED | CANCELLED.

Definition ScheduleStatus_value (s : ScheduleStatus) : string :=
  match s with
  | DRAFT => "draft" | PENDING_SYNC => "pending_sync" | SCHEDULED => "scheduled"
  | PUBLISHING => "publishing" | PUBLISHED => "published" | FAILED => "failed"
  | CANCELLED => "cancelled"
  end.

Definition ScheduleStatus_eqb (a b : ScheduleStatus) : bool :=
  match a, b with
  | DRAFT, DRAFT | PENDING_SYNC, PENDING_SYNC | SCHEDULED, SCHEDULED
  | PUBLISHING, PUBLISHING | PUBLISHED, PUBLISHED | FAILED, FAILED
  | CANCELLED, CANCELLED => true
  | _, _ => false
  end.

Inductive LatePostStatus :=
| LATE_PENDING | LATE_PROCESSING | LATE_PUBLISHED | LATE_FAILED | LATE_PARTIAL.

(** The member of [LatePostStatus] with a value, if there is one. *)
Definition LatePostStatus_of_value (s : string) : option LatePostStatus :=
  if String.eqb s "pending" then Some LATE_PENDING
  else if String.eqb s "processing" then Some LATE_PROCESSING
  else if String.eqb s "published" then Some LATE_PUBLISHED
  else if String.eqb s "failed" then Some LATE_FAILED
  else if String.eqb s "partial" then Some LATE_PARTIAL
  else None.

Inductive MediaType := IMAGE | VIDEO | GIF | DOCUMENT | THUMBNAIL.

Definition MediaType_value (m : MediaType) : string :=
  match m with
  | IMAGE => "image" | VIDEO => "video" | GIF => "gif"
  | DOCUMENT => "document" | THUMBNAIL => "thumbnail"
  end.

Inductive ScheduleMode := SINGLE_PLATFORM | MULTI_PLATFORM.

(** ** models/scheduling.py *)

Module ConnectedAccount.
Record t := mk {
  id : UUID;
  late_account_id : string;
  platform : PlatformType;
  is_active : bool;
}.
End ConnectedAccount.

Module MediaAttachment.
Record t := mk {
  media_type : MediaType;
  alt_text : option string;
  late_media_url : option string;
}.
End MediaAttachment.

Module ContentLibraryItem.
Record t := mk {
  id : UUID;
  title : option string;
  body : option string;
  hashtags : list string;
  mentions : list string;
  is_deleted : bool;
  media_attachments : list MediaAttachment.t;
}.
End ContentLibraryItem.

(** The JSONB payload [platform_specific_config], kept as its text. *)
Definition Config := string.

(** [ScheduledPost]: the columns of the table, with [id] and [created_at]
    of the mixins. *)
Record ScheduledPost := mkScheduledPost {
  id : UUID;
  created_at : datetime;
  content_library_item_id : UUID;
  connected_account_id : UUID;
  platform : PlatformType;
  scheduled_for : datetime;
  timezone : string;
  status : ScheduleStatus;
  late_status : option LatePostStatus;
  schedule_mode : ScheduleMode;
  batch_id : option string;
  late_post_id : option string;
  platform_post_id : option string;
  platform_post_url : option string;
  published_at : option datetime;
  failed_at : option datetime;
  error_message : option string;
  retry_count : Z;
  platform_specific_config : option Config;
}.

(** Attribute assignments [post.field = value]. *)
Definition set_scheduled_for (v : datetime) (p : ScheduledPost) : ScheduledPost :=
  mkScheduledPost (id p) (created_at p) (content_library_item_id p)
    (connected_account_id p) (platform p) v (timezone p) (status p)
    (late_status p) (schedule_mode p) (batch_id p) (late_post_id p)
    (platform_post_id p) (platform_post_url p) (published_at p) (failed_at p)
    (error_message p) (retry_count p) (platform_specific_config p).

Definition set_timezone (v : string) (p : ScheduledPost) : ScheduledPost :=
  mkScheduledPost (id p) (created_at p) (content_library_item_id p)
    (connected_account_id p) (platform p) (scheduled_for p) v (status p)
    (late_status p) (schedule_mode p) (batch_id p) (late_post_id p)
    (platform_post_id p) (platform_post_url p) (published_at p) (failed_at p)
    (error_message p) (retry_count p) (platform_specific_config p).

Definition set_status (v : ScheduleStatus) (p : ScheduledPost) : ScheduledPost :=
  mkScheduledPost (id p) (created_at p) (content_library_item_id p)
    (connected_account_id p) (platform p) (scheduled_for p) (timezone p) v
    (late_status p) (schedule_mode p) (batch_id p) (late_post_id p)
    (platform_post_id p) (platform_post_url p) (published_at p) (failed_at p)
    (error_message p) (retry_count p) (platform_specific_config p).

Definition set_late_status (v : option LatePostStatus) (p : ScheduledPost)
  : ScheduledPost :=
  mkScheduledPost (id p) (created_at p) (content_library_item_id p)
    (connected_account_id p) (platform p) (scheduled_for p) (timezone p)
    (status p) v (schedule_mode p) (batch_id p) (late_post_id p)
    (platform_post_id p) (platform_post_url p) (published_at p) (failed_at p)
    (error_message p) (retry_count p) (platform_specific_config p).

Definition set_late_post_id (v : option string) (p : ScheduledPost)
  : ScheduledPost :=
  mkScheduledPost (id p) (created_at p) (content_library_item_id p)
    (connected_account_id p) (platform p) (scheduled_for p) (timezone p)
    (status p) (late_status p) (schedule_mode p) (batch_id p) v
    (platform_post_id p) (platform_post_url p) (published_at p) (failed_at p)
    (error_message p) (retry_count p) (platform_specific_config p).

Definition set_platform_post_id (v : option string) (p : ScheduledPost)
  : ScheduledPost :=
  mkScheduledPost (id p) (created_at p) (content_library_item_id p)
    (connected_account_id p) (platform p) (scheduled_for p) (timezone p)
    (status p) (late_status p) (schedule_mode p) (batch_id p) (late_post_id p)
    v (platform_post_url p) (published_at p) (failed_at p)
    (error_message p) (retry_count p) (platform_specific_config p).

Definition set_platform_post_url (v : option string) (p : ScheduledPost)
  : ScheduledPost :=
  mkScheduledPost (id p) (created_at p) (content_library_item_id p)
    (connected_account_id p) (platform p) (scheduled_for p) (timezone p)
    (status p) (late_status p) (schedule_mode p) (batch_id p) (late_post_id p)
    (platform_post_id p) v (published_at p) (failed_at p)
    (error_message p) (retry_count p) (platform_specific_config p).

Definition set_published_at (v : option datetime) (p : ScheduledPost)
  : ScheduledPost :=
  mkScheduledPost (id p) (created_at p) (content_library_item_id p)
    (connected_account_id p) (platform p) (scheduled_for p) (timezone p)
    (status p) (late_status p) (schedule_mode p) (batch_id p) (late_post_id p)
    (platform_post_id p) (platform_post_url p) v (failed_at p)
    (error_message p) (retry_count p) (platform_specific_config p).

Definition set_failed_at (v : option datetime) (p : ScheduledPost)
  : ScheduledPost :=
  mkScheduledPost (id p) (created_at p) (content_library_item_id p)
    (connected_account_id p) (platform p) (scheduled_for p) (timezone p)
    (status p) (late_status p) (schedule_mode p) (batch_id p) (late_post_id p)
    (platform_post_id p) (platform_post_url p) (published_at p) v
    (error_message p) (retry_count p) (platform_specific_config p).

Definition set_error_message (v : option string) (p : ScheduledPost)
  : ScheduledPost :=
  mkScheduledPost (id p) (created_at p) (content_library_item_id p)
    (connected_account_id p) (platform p) (scheduled_for p) (timezone p)
    (status p) (late_status p) (schedule_mode p) (batch_id p) (late_post_id p)
    (platform_post_id p) (platform_post_url p) (published_at p) (failed_at p)
    v (retry_count p) (platform_specific_config p).

Definition set_retry_count (v : Z) (p : ScheduledPost) : ScheduledPost :=
  mkScheduledPost (id p) (created_at p) (content_library_item_id p)
    (connected_account_id p) (platform p) (scheduled_for p) (timezone p)
    (status p) (late_status p) (schedule_mode p) (batch_id p) (late_post_id p)
    (platform_post_id p) (platform_post_url p) (published_at p) (failed_at p)
    (error_message p) v (platform_specific_config p).

(** ** core/integrations/later_dev/models.py *)

Module LateMediaItem.
Record t := mk {
  url : option string;
  type : string;
  alt_text : option string;
}.
End LateMediaItem.

Module LatePlatformTarget.
Record t := mk {
  platform : string;
  account_id : string;
  platform_post_id : option string;
  platform_post_url : option string;
}.
End LatePlatformTarget.

Module LatePost.
Record t := mk {
  id : string;
  status : string;
  platforms : list LatePlatformTarget.t;
}.
End LatePost.

Module LatePostCreate.
Record t := mk {
  content : option string;
  title : option string;
  media_items : list LateMediaItem.t;
  platforms : list LatePlatformTarget.t;
  scheduled_for : option datetime;
  publish_now : bool;
  timezone : option string;
  hashtags : list string;
  mentions : list string;
}.
End LatePostCreate.

Module LatePostUpdate.
Record t := mk {
  scheduled_for : option datetime;
  timezone : option string;
}.
End LatePostUpdate.

(** ** core/integrations/later_dev/exceptions.py and the built-in errors

    [LateApiError] stands for the class and its subclasses: the handlers
    of the service and of the routes catch the base class and read only
    [str(e)], which is the message.  [TypeError] and [OverflowError] are
    caught nowhere in these sources and their message is read nowhere, so
    they carry none. *)
Inductive Exn :=
| ValueError (msg : string)
| LateApiError (message : string)
| TypeError
| OverflowError.

(** ** The world the service runs in *)

(** A request sent to the Late API through [LateApiClient]. *)
Inductive LateCall :=
| create_post_call (post_data : LatePostCreate.t)
| update_post_call (post_id : string) (update_data : LatePostUpdate.t)
| delete_post_call (post_id : string).

(** What a client method does with the answer: it returns the [LatePost]
    parsed from the body ([delete_post] drops it and returns [True]) or
    raises a [LateApiError] with a message. *)
Inductive LateReply :=
| LateOk (late_post : LatePost.t)
| LateErr (message : string).

Inductive LogLevel := INFO | WARNING | ERROR.

Record World := mkWorld {
  (** rows of [scheduled_posts] as the session sees them: every flushed
      change, committed or not *)
  txn : list ScheduledPost;
  (** rows of [scheduled_posts] made durable by [session.commit()] *)
  committed : list ScheduledPost;
  accounts : list ConnectedAccount.t;
  contents : list ContentLibraryItem.t;
  (** [datetime.now(UTC)] *)
  now : datetime;
  (** source of [uuid4()] and of the primary keys *)
  next_uuid : UUID;
  (** [settings.LATER_DEV_API_KEY] *)
  LATER_DEV_API_KEY : option string;
  (** the remote service: its answer to the n-th request *)
  late_api : nat -> LateCall -> LateReply;
  (** the requests sent so far, oldest first *)
  late_calls : list LateCall;
  (** what the logger of the service wrote, oldest first (the client's
      own logger is not followed) *)
  log : list (LogLevel * string);
}.

Definition set_txn (v : list ScheduledPost) (w : World) : World :=
  mkWorld v (committed w) (accounts w) (contents w) (now w) (next_uuid w)
    (LATER_DEV_API_KEY w) (late_api w) (late_calls w) (log w).

Definition set_committed (v : list ScheduledPost) (w : World) : World :=
  mkWorld (txn w) v (accounts w) (contents w) (now w) (next_uuid w)
    (LATER_DEV_API_KEY w) (late_api w) (late_calls w) (log w).

Definition set_next_uuid (v : UUID) (w : World) : World :=
  mkWorld (txn w) (committed w) (accounts w) (contents w) (now w) v
    (LATER_DEV_API_KEY w) (late_api w) (late_calls w) (log w).

Definition set_late_calls (v : list LateCall) (w : World) : World :=
  mkWorld (txn w) (committed w) (accounts w) (contents w) (now w) (next_uuid w)
    (LATER_DEV_API_KEY w) (late_api w) v (log w).

Definition set_log (v : list (LogLevel * string)) (w : World) : World :=
  mkWorld (txn w) (committed w) (accounts w) (contents w) (now w) (next_uuid w)
    (LATER_DEV_API_KEY w) (late_api w) (late_calls w) v.

(** ** A state-and-exception monad

    A computation runs in a world and either returns a value or raises;
    the changes made to the world before a [raise] stay. *)
Inductive Res (A : Type) :=
| Ok (a : A)
| Raise (e : Exn).
Arguments Ok {A} a.
Arguments Raise {A} e.

Definition M (A : Type) := World -> Res A * World.

Definition ret {A} (a : A) : M A := fun w => (Ok a, w).

Definition raise {A} (e : Exn) : M A := fun w => (Raise e, w).

Definition bind {A B} (m : M A) (k : A -> M B) : M B :=
  fun w =>
    match m w with
    | (Ok a, w') => k a w'
    | (Raise e, w') => (Raise e, w')
    end.

Notation "x <- m ;; k" := (bind m (fun x => k))
  (at level 61, m at next level, right associativity).
Notation "m ;;; k" := (bind m (fun _ => k))
  (at level 61, right associativity).

(** [try: body  except LateApiError as e: handler]; the handler is given
    [str(e)], the message of the error.  Every other exception passes. *)
Definition try_except_LateApiError {A} (body : M A) (handler : string -> M A)
  : M A :=
  fun w =>
    match body w with
    | (Raise (LateApiError message), w') => handler message w'
    | r => r
    end.

(** [try: body  finally: cleanup]. *)
Definition try_finally {A} (body : M A) (cleanup : M unit) : M A :=
  fun w =>
    match body w with
    | (r, w') =>
        match cleanup w' with
        | (Ok _, w'') => (r, w'')
        | (Raise e, w'') => (Raise e, w'')
        end
    end.

(** ** The session, the clock, the logger *)

(** Replace the row of the same primary key. *)
Fixpoint replace_row (post : ScheduledPost) (rows : list ScheduledPost)
  : list ScheduledPost :=
  match rows with
  | [] => []
  | r :: rows' =>
      if Nat.eqb (id r) (id post) then post :: replace_row post rows'
      else r :: replace_row post rows'
  end.

(** [await session.flush(); await session.refresh(post)] after attribute
    assignments on a persistent [post]: the changed row is written into
    the open transaction, and the refreshed object holds what was written. *)
Definition session_flush (post : ScheduledPost) : M ScheduledPost :=
  fun w => (Ok post, set_txn (replace_row post (txn w)) w).

(** [session.add(post); await session.flush(); await session.refresh(post)]
    on a new object: the row is inserted into the open transaction.  The
    mixins of the model are not part of the sources read here; the
    primary key is taken fresh and [created_at] from the clock. *)
Definition session_add (mk : UUID -> datetime -> ScheduledPost)
  : M ScheduledPost :=
  fun w =>
    let post := mk (next_uuid w) (now w) in
    (Ok post, set_next_uuid (S (next_uuid w)) (set_txn (txn w ++ [post]) w)).

(** [await session.commit()]. *)
Definition session_commit : M unit :=
  fun w => (Ok tt, set_committed (txn w) w).

Definition datetime_now : M datetime := fun w => (Ok (now w), w).

Definition uuid4 : M UUID :=
  fun w => (Ok (next_uuid w), set_next_uuid (S (next_uuid w)) w).

Definition logger (level : LogLevel) (event : string) : M unit :=
  fun w => (Ok tt, set_log (log w ++ [(level, event)]) w).

(** ** core/integrations/later_dev/client.py *)

Module LateApiClient.

(** [LateApiClient()]: raises [LateAuthenticationError] without a key. *)
Definition new : M unit :=
  fun w =>
    if truthy (LATER_DEV_API_KEY w) then (Ok tt, w)
    else (Raise (LateApiError "Late API key not configured"), w).

(** One request that reaches the remote service: recorded, and answered
    by it. *)
Definition _request (c : LateCall) : M LatePost.t :=
  fun w =>
    let w' := set_late_calls (late_calls w ++ [c]) w in
    match late_api w (List.length (late_calls w)) c with
    | LateOk p => (Ok p, w')
    | LateErr m => (Raise (LateApiError m), w')
    end.

(** [post_data.model_dump(by_alias=True, exclude_none=True)] drops the
    fields that are [None] and keeps [scheduled_for], when it is set, as
    a [datetime] object.  The dict goes to httpx as [json=], which encodes
    it with [json.dumps] while it builds the request: a [datetime] makes
    that raise [TypeError], before anything is sent.  The other fields are
    strings, booleans, lists and dicts of such. *)
Definition create_post (post_data : LatePostCreate.t) : M LatePost.t :=
  match LatePostCreate.scheduled_for post_data with
  | Some _ => raise TypeError
  | None => _request (create_post_call post_data)
  end.

(** As [create_post]: the dict of [update_data] keeps [scheduled_for] as
    a [datetime]. *)
Definition update_post (post_id : string) (update_data : LatePostUpdate.t)
  : M LatePost.t :=
  match LatePostUpdate.scheduled_for update_data with
  | Some _ => raise TypeError
  | None => _request (update_post_call post_id update_data)
  end.

Definition delete_post (post_id : string) : M bool :=
  _ <- _request (delete_post_call post_id) ;;
  ret true.

(** Closes the HTTP connection; nothing the service observes. *)
Definition close : M unit := ret tt.

End LateApiClient.

(** ** repositories/connected_account.py, repositories/content_library.py *)

Module ConnectedAccountRepository.

(** [session.get(ConnectedAccount, account_id)]. *)
Definition get_by_id (account_id : UUID) : M (option ConnectedAccount.t) :=
  fun w =>
    (Ok (find (fun a => Nat.eqb (ConnectedAccount.id a) account_id)
           (accounts w)), w).

End ConnectedAccountRepository.

Module ContentLibraryRepository.

(** The item of that id that is not soft-deleted, with its media. *)
Definition get_by_id_with_media (item_id : UUID)
  : M (option ContentLibraryItem.t) :=
  fun w =>
    (Ok (find (fun c => Nat.eqb (ContentLibraryItem.id c) item_id
                        && negb (ContentLibraryItem.is_deleted c))
           (contents w)), w).

End ContentLibraryRepository.

(** ** repositories/scheduled_post.py *)

(** [ORDER BY created_at ASC]: a stable insertion sort. *)
Fixpoint insert_by_created_at (p : ScheduledPost) (rows : list ScheduledPost)
  : list ScheduledPost :=
  match rows with
  | [] => [p]
  | q :: rows' =>
      if (created_at p <=? created_at q)%Z then p :: q :: rows'
      else q :: insert_by_created_at p rows'
  end.

Definition order_by_created_at (rows : list ScheduledPost)
  : list ScheduledPost :=
  fold_right insert_by_created_at [] rows.

(** [ORDER BY] a column: a stable insertion sort by the comparison
    [leb] (the order SQL leaves open among equal keys is taken to be the
    order of the rows). *)
Fixpoint insert_by (A : Type) (leb : A -> A -> bool) (x : A) (rows : list A)
  : list A :=
  match rows with
  | [] => [x]
  | y :: rows' =>
      if leb x y then x :: y :: rows' else y :: insert_by leb x rows'
  end.

Definition order_by (A : Type) (leb : A -> A -> bool) (rows : list A)
  : list A :=
  fold_right (insert_by leb) [] rows.

(** [ScheduledPost.scheduled_for.asc()]. *)
Definition scheduled_for_asc (p q : ScheduledPost) : bool :=
  (scheduled_for p <=? scheduled_for q)%Z.

(** [ScheduledPost.failed_at.desc()]: PostgreSQL takes NULL for the
    largest value, so rows without [failed_at] come first. *)
Definition failed_at_desc (p q : ScheduledPost) : bool :=
  match failed_at p, failed_at q with
  | None, _ => true
  | Some _, None => false
  | Some a, Some b => (b <=? a)%Z
  end.

Definition PlatformType_eqb (a b : PlatformType) : bool :=
  String.eqb (PlatformType_value a) (PlatformType_value b).

(** The conditions of the [WHERE] clauses. *)
Definition has_status (s : ScheduleStatus) (p : ScheduledPost) : bool :=
  ScheduleStatus_eqb (status p) s.

Definition on_platform (t : PlatformType) (p : ScheduledPost) : bool :=
  PlatformType_eqb (platform p) t.

Definition of_account (account_id : UUID) (p : ScheduledPost) : bool :=
  Nat.eqb (connected_account_id p) account_id.

Definition of_accounts (account_ids : list UUID) (p : ScheduledPost) : bool :=
  existsb (Nat.eqb (connected_account_id p)) account_ids.

Definition not_before (t : datetime) (p : ScheduledPost) : bool :=
  (t <=? scheduled_for p)%Z.

Definition not_after (t : datetime) (p : ScheduledPost) : bool :=
  (scheduled_for p <=? t)%Z.

(** A condition that is only added when its argument is given. *)
Definition when_given (A : Type) (arg : option A)
    (condition : A -> ScheduledPost -> bool) (p : ScheduledPost) : bool :=
  match arg with
  | Some a => condition a p
  | None => true
  end.

(** [timedelta(hours=hours)] in microseconds; [None] where Python raises
    [OverflowError] because the duration is out of the range of
    [timedelta]. *)
Definition timedelta_hours (hours : Z) : option Z :=
  let delta := (hours * 3600000000)%Z in
  if (timedelta_min <=? delta)%Z && (delta <=? timedelta_max)%Z
  then Some delta else None.

(** [t + delta] for a [datetime] and a [timedelta]; [None] where Python
    raises [OverflowError] because the result is out of the range of
    [datetime]. *)
Definition datetime_add (t : datetime) (delta : Z) : option datetime :=
  let r := (t + delta)%Z in
  if (datetime_min <=? r)%Z && (r <=? datetime_max)%Z then Some r else None.

(** [await session.delete(post); await session.flush()]: the row of that
    primary key leaves the open transaction. *)
Definition session_delete (post : ScheduledPost) : M unit :=
  fun w =>
    (Ok tt,
     set_txn (filter (fun r => negb (Nat.eqb (id r) (id post))) (txn w)) w).

Module ScheduledPostRepository.

Definition get_by_id_with_relations (post_id : UUID)
  : M (option ScheduledPost) :=
  fun w => (Ok (find (fun p => Nat.eqb (id p) post_id) (txn w)), w).

Definition get_pending_sync : M (list ScheduledPost) :=
  fun w =>
    (Ok (order_by_created_at
           (filter (fun p => ScheduleStatus_eqb (status p) PENDING_SYNC)
              (txn w))), w).

Definition create (content_library_item_id connected_account_id : UUID)
    (platform : PlatformType) (scheduled_for : datetime)
    (schedule_mode : ScheduleMode) (timezone : string)
    (batch_id : option string) (platform_specific_config : option Config)
  : M ScheduledPost :=
  session_add (fun new_id created =>
    mkScheduledPost new_id created content_library_item_id
      connected_account_id platform scheduled_for timezone DRAFT None
      schedule_mode batch_id None None None None None None 0%Z
      platform_specific_config).

Definition update_status (post : ScheduledPost) (status : ScheduleStatus)
    (late_post_id : option string) (late_status : option LatePostStatus)
    (platform_post_id platform_post_url error_message : option string)
  : M ScheduledPost :=
  let post := set_status status post in
  let post := match late_post_id with
              | Some _ => set_late_post_id late_post_id post
              | None => post
              end in
  let post := match late_status with
              | Some _ => set_late_status late_status post
              | None => post
              end in
  let post := match platform_post_id with
              | Some _ => set_platform_post_id platform_post_id post
              | None => post
              end in
  let post := match platform_post_url with
              | Some _ => set_platform_post_url platform_post_url post
              | None => post
              end in
  utc_now <- datetime_now ;;
  let post := if ScheduleStatus_eqb status PUBLISHED
              then set_published_at (Some utc_now) post
              else post in
  let post := if ScheduleStatus_eqb status FAILED
              then
                let post := set_failed_at (Some utc_now) post in
                let post := set_retry_count (retry_count post + 1)%Z post in
                if truthy error_message
                then set_error_message error_message post
                else post
              else post in
  session_flush post.

Definition reschedule (post : ScheduledPost) (scheduled_for : datetime)
    (timezone : option string) : M ScheduledPost :=
  let post := set_scheduled_for scheduled_for post in
  let post := match timezone with
              | Some tz => if truthy timezone then set_timezone tz post
                           else post
              | None => post
              end in
  let post := if ScheduleStatus_eqb (status post) SCHEDULED
              then set_status PENDING_SYNC post
              else post in
  session_flush post.

Definition cancel (post : ScheduledPost) : M ScheduledPost :=
  session_flush (set_status CANCELLED post).

(** The arguments [status], [platform], [account_id], [from_date] and
    [to_date] are enumeration members, UUIDs and datetimes, which are
    truthy whenever they are given.  [skip] and [limit] are taken
    non-negative (PostgreSQL refuses a negative OFFSET or LIMIT). *)
Definition get_multi (status : option ScheduleStatus)
    (platform : option PlatformType) (account_id : option UUID)
    (from_date to_date : option datetime) (skip limit : nat)
  : M (list ScheduledPost) :=
  fun w =>
    let conditions p :=
      when_given status has_status p
      && when_given platform on_platform p
      && when_given account_id of_account p
      && when_given from_date not_before p
      && when_given to_date not_after p in
    (Ok (firstn limit
           (skipn skip (order_by scheduled_for_asc (filter conditions (txn w))))),
     w).

(** [if account_ids:] is false for [None] and for the empty list. *)
Definition get_calendar_data (from_date to_date : datetime)
    (account_ids : option (list UUID)) : M (list ScheduledPost) :=
  fun w =>
    let in_range p :=
      not_before from_date p && not_after to_date p
      && negb (has_status CANCELLED p) in
    let query := filter in_range (txn w) in
    let query := match account_ids with
                 | Some (account_id :: others) =>
                     filter (of_accounts (account_id :: others)) query
                 | _ => query
                 end in
    (Ok (order_by scheduled_for_asc query), w).

(** [end_time = now + timedelta(hours=hours)] raises [OverflowError]
    when the duration or the sum is out of range. *)
Definition get_upcoming (hours : Z) (limit : nat) : M (list ScheduledPost) :=
  utc_now <- datetime_now ;;
  match timedelta_hours hours with
  | None => raise OverflowError
  | Some delta =>
      match datetime_add utc_now delta with
      | None => raise OverflowError
      | Some end_time =>
          fun w =>
            (Ok (firstn limit
                   (order_by scheduled_for_asc
                      (filter (fun p => not_before utc_now p
                                        && not_after end_time p
                                        && has_status SCHEDULED p)
                         (txn w)))),
             w)
      end
  end.

Definition get_failed (limit : nat) : M (list ScheduledPost) :=
  fun w =>
    (Ok (firstn limit
           (order_by failed_at_desc (filter (has_status FAILED) (txn w)))),
     w).

Definition delete (post : ScheduledPost) : M unit :=
  session_delete post.

(** The dict [{status: count}] of the groups, by its lookup: a status
    without rows has no key. *)
Definition count_by_status : M (ScheduleStatus -> option nat) :=
  fun w =>
    (Ok (fun s =>
           match List.length (filter (has_status s) (txn w)) with
           | O => None
           | n => Some n
           end),
     w).

(** The dict [{platform: count}], over the rows of [status] when one is
    given. *)
Definition count_by_platform (status : option ScheduleStatus)
  : M (PlatformType -> option nat) :=
  fun w =>
    (Ok (fun t =>
           match List.length
                   (filter (on_platform t)
                      (filter (when_given status has_status) (txn w))) with
           | O => None
           | n => Some n
           end),
     w).

End ScheduledPostRepository.

(** ** schemas/scheduler.py *)

Module ScheduleAccountConfig.
Record t := mk {
  connected_account_id : UUID;
  scheduled_for : datetime;
  platform_specific_config : option Config;
}.
End ScheduleAccountConfig.

(** ** services/scheduler_service.py *)

(** The value of a [str | None] known to be set. *)
Definition unwrap (s : option string) : string :=
  match s with
  | Some v => v
  | None => ""
  end.

Module SchedulerService.

(** The response dict carries the fields of the post; the record itself
    is kept. *)
Definition post_to_dict (post : ScheduledPost) : ScheduledPost := post.

Definition platform_target (post : ScheduledPost)
    (account : ConnectedAccount.t) : LatePlatformTarget.t :=
  LatePlatformTarget.mk (PlatformType_value (platform post))
    (ConnectedAccount.late_account_id account) None None.

(** [LateMediaItem(url=..., type=..., alt_text=attachment.alt_text)]:
    the field [alt_text] has the alias [altText] and the model does not
    set [populate_by_name], so the keyword [alt_text] is ignored and the
    field keeps its default [None]. *)
Definition media_item (attachment : MediaAttachment.t) : LateMediaItem.t :=
  LateMediaItem.mk (MediaAttachment.late_media_url attachment)
    (MediaType_value (MediaAttachment.media_type attachment))
    None.

(** [LatePostStatus(late_post.status)]; for a value that no member has,
    the enumeration raises [ValueError] with the [repr] of the value. *)
Definition LatePostStatus_call (value : string) : M LatePostStatus :=
  match LatePostStatus_of_value value with
  | Some s => ret s
  | None =>
      raise (ValueError (repr_str value ++ " is not a valid LatePostStatus"))
  end.

(** [_sync_to_late] returns [None] and changes [post] in place; here the
    changed object is returned, for the callers that go on reading it. *)
Definition _sync_to_late (post : ScheduledPost) : M ScheduledPost :=
  LateApiClient.new ;;;
  try_finally
    (try_except_LateApiError
       (content <- ContentLibraryRepository.get_by_id_with_media
                     (content_library_item_id post) ;;
        account <- ConnectedAccountRepository.get_by_id
                     (connected_account_id post) ;;
        match content, account with
        | Some content, Some account =>
            let media_items :=
              map media_item (ContentLibraryItem.media_attachments content) in
            let post_create :=
              LatePostCreate.mk
                (ContentLibraryItem.body content)
                (ContentLibraryItem.title content)
                media_items
                [platform_target post account]
                (Some (scheduled_for post))
                false
                (Some (timezone post))
                (ContentLibraryItem.hashtags content)
                (ContentLibraryItem.mentions content) in
            late_post <- LateApiClient.create_post post_create ;;
            late_status <- LatePostStatus_call (LatePost.status late_post) ;;
            post <- ScheduledPostRepository.update_status post SCHEDULED
                      (Some (LatePost.id late_post)) (Some late_status)
                      None None None ;;
            session_commit ;;;
            logger INFO "Post synced to Late" ;;;
            ret post
        | _, _ => raise (ValueError "Content or account not found")
        end)
       (fun message =>
          post <- ScheduledPostRepository.update_status post FAILED
                    None None None None (Some message) ;;
          session_commit ;;;
          raise (LateApiError message)))
    LateApiClient.close.

(** Returns the object it changed in place, as [_sync_to_late]. *)
Definition _update_late_schedule (post : ScheduledPost) : M ScheduledPost :=
  if negb (truthy (late_post_id post)) then ret post
  else
    LateApiClient.new ;;;
    try_finally
      (let update_data :=
         LatePostUpdate.mk (Some (scheduled_for post))
           (Some (timezone post)) in
       _ <- LateApiClient.update_post (unwrap (late_post_id post))
              update_data ;;
       post <- ScheduledPostRepository.update_status post SCHEDULED
                 None None None None None ;;
       session_commit ;;;
       ret post)
      LateApiClient.close.

Definition _delete_from_late (post : ScheduledPost) : M unit :=
  if negb (truthy (late_post_id post)) then ret tt
  else
    LateApiClient.new ;;;
    try_finally
      (_ <- LateApiClient.delete_post (unwrap (late_post_id post)) ;;
       ret tt)
      LateApiClient.close.

(** Returns the object it changed in place, as [_sync_to_late]. *)
Definition _publish_via_late (post : ScheduledPost) : M ScheduledPost :=
  LateApiClient.new ;;;
  try_finally
    (content <- ContentLibraryRepository.get_by_id_with_media
                  (content_library_item_id post) ;;
     account <- ConnectedAccountRepository.get_by_id
                  (connected_account_id post) ;;
     match content, account with
     | Some content, Some account =>
         let media_items :=
           map media_item
             (filter (fun a => truthy (MediaAttachment.late_media_url a))
                (ContentLibraryItem.media_attachments content)) in
         let post_create :=
           LatePostCreate.mk
             (ContentLibraryItem.body content)
             (ContentLibraryItem.title content)
             media_items
             [platform_target post account]
             None
             true
             None
             (ContentLibraryItem.hashtags content)
             (ContentLibraryItem.mentions content) in
         late_post <- LateApiClient.create_post post_create ;;
         let platform_data := hd_error (LatePost.platforms late_post) in
         late_status <- LatePostStatus_call (LatePost.status late_post) ;;
         post <- ScheduledPostRepository.update_status post PUBLISHED
                   (Some (LatePost.id late_post)) (Some late_status)
                   (match platform_data with
                    | Some d => LatePlatformTarget.platform_post_id d
                    | None => None
                    end)
                   (match platform_data with
                    | Some d => LatePlatformTarget.platform_post_url d
                    | None => None
                    end)
                   None ;;
         session_commit ;;;
         ret post
     | _, _ => raise (ValueError "Content or account not found")
     end)
    LateApiClient.close.

Definition schedule_single (content_library_item_id connected_account_id : UUID)
    (scheduled_for : datetime) (timezone : string)
    (platform_specific_config : option Config) (sync_immediately : bool)
  : M ScheduledPost :=
  account <- ConnectedAccountRepository.get_by_id connected_account_id ;;
  match account with
  | None =>
      raise (ValueError
               ("Account " ++ str_UUID connected_account_id ++ " not found"))
  | Some account =>
      if negb (ConnectedAccount.is_active account) then
        raise (ValueError
                 ("Account " ++ str_UUID connected_account_id
                  ++ " is not active"))
      else
        content <- ContentLibraryRepository.get_by_id_with_media
                     content_library_item_id ;;
        match content with
        | None =>
            raise (ValueError
                     ("Content " ++ str_UUID content_library_item_id
                      ++ " not found"))
        | Some _ =>
            let status := if sync_immediately then PENDING_SYNC else DRAFT in
            post <- ScheduledPostRepository.create content_library_item_id
                      connected_account_id (ConnectedAccount.platform account)
                      scheduled_for SINGLE_PLATFORM timezone None
                      platform_specific_config ;;
            post <- ScheduledPostRepository.update_status post status
                      None None None None None ;;
            session_commit ;;;
            post <- (if sync_immediately then _sync_to_late post
                     else ret post) ;;
            logger INFO "Single post scheduled" ;;;
            ret (post_to_dict post)
        end
  end.

(** The first loop of [schedule_multi]: one post per entry, appended to
    [posts]. *)
Fixpoint schedule_multi_create (content_library_item_id : UUID)
    (batch_id : string) (timezone : string) (sync_immediately : bool)
    (account_schedules : list ScheduleAccountConfig.t)
    (posts : list ScheduledPost) : M (list ScheduledPost) :=
  match account_schedules with
  | [] => ret posts
  | schedule :: rest =>
      let account_id := ScheduleAccountConfig.connected_account_id schedule in
      account <- ConnectedAccountRepository.get_by_id account_id ;;
      match account with
      | None =>
          raise (ValueError ("Account " ++ str_UUID account_id ++ " not found"))
      | Some account =>
          if negb (ConnectedAccount.is_active account) then
            raise (ValueError
                     ("Account "
                      ++ PlatformType_value (ConnectedAccount.platform account)
                      ++ " is not active"))
          else
            let status := if sync_immediately then PENDING_SYNC else DRAFT in
            post <- ScheduledPostRepository.create content_library_item_id
                      account_id (ConnectedAccount.platform account)
                      (ScheduleAccountConfig.scheduled_for schedule)
                      MULTI_PLATFORM timezone (Some batch_id)
                      (ScheduleAccountConfig.platform_specific_config
                         schedule) ;;
            post <- ScheduledPostRepository.update_status post status
                      None None None None None ;;
            schedule_multi_create content_library_item_id batch_id timezone
              sync_immediately rest (posts ++ [post])
      end
  end.

(** The second loop of [schedule_multi]:
    [for post in posts: await _sync_to_late(session, post)]. *)
Fixpoint schedule_multi_sync (posts : list ScheduledPost)
  : M (list ScheduledPost) :=
  match posts with
  | [] => ret []
  | post :: rest =>
      post <- _sync_to_late post ;;
      rest <- schedule_multi_sync rest ;;
      ret (post :: rest)
  end.

Definition schedule_multi (content_library_item_id : UUID)
    (account_schedules : list ScheduleAccountConfig.t) (timezone : string)
    (sync_immediately : bool) : M (string * list ScheduledPost) :=
  content <- ContentLibraryRepository.get_by_id_with_media
               content_library_item_id ;;
  match content with
  | None =>
      raise (ValueError
               ("Content " ++ str_UUID content_library_item_id ++ " not found"))
  | Some _ =>
      u <- uuid4 ;;
      let batch_id := str_UUID u in
      posts <- schedule_multi_create content_library_item_id batch_id
                 timezone sync_immediately account_schedules [] ;;
      session_commit ;;;
      posts <- (if sync_immediately then schedule_multi_sync posts
                else ret posts) ;;
      logger INFO "Multi-platform posts scheduled" ;;;
      ret (batch_id, map post_to_dict posts)
  end.

Definition reschedule (post_id : UUID) (scheduled_for : datetime)
    (timezone : option string) : M ScheduledPost :=
  post <- ScheduledPostRepository.get_by_id_with_relations post_id ;;
  match post with
  | None => raise (ValueError ("Post " ++ str_UUID post_id ++ " not found"))
  | Some post =>
      if ScheduleStatus_eqb (status post) PUBLISHED
         || ScheduleStatus_eqb (status post) CANCELLED
      then
        raise (ValueError
                 ("Cannot reschedule post with status "
                  ++ ScheduleStatus_value (status post)))
      else
        post <- ScheduledPostRepository.reschedule post scheduled_for
                  timezone ;;
        session_commit ;;;
        post <- (if truthy (late_post_id post)
                 then _update_late_schedule post
                 else ret post) ;;
        logger INFO "Post rescheduled" ;;;
        ret (post_to_dict post)
  end.

Definition cancel (post_id : UUID) : M ScheduledPost :=
  post <- ScheduledPostRepository.get_by_id_with_relations post_id ;;
  match post with
  | None => raise (ValueError ("Post " ++ str_UUID post_id ++ " not found"))
  | Some post =>
      if ScheduleStatus_eqb (status post) PUBLISHED then
        raise (ValueError "Cannot cancel already published post")
      else
        (if truthy (late_post_id post) then _delete_from_late post
         else ret tt) ;;;
        post <- ScheduledPostRepository.cancel post ;;
        session_commit ;;;
        logger INFO "Post cancelled" ;;;
        ret (post_to_dict post)
  end.

Definition publish_now (post_id : UUID) : M ScheduledPost :=
  post <- ScheduledPostRepository.get_by_id_with_relations post_id ;;
  match post with
  | None => raise (ValueError ("Post " ++ str_UUID post_id ++ " not found"))
  | Some post =>
      if ScheduleStatus_eqb (status post) PUBLISHED then
        raise (ValueError "Post already published")
      else
        post <- ScheduledPostRepository.update_status post PUBLISHING
                  None None None None None ;;
        session_commit ;;;
        post <- try_except_LateApiError
                  (_publish_via_late post)
                  (fun message =>
                     post <- ScheduledPostRepository.update_status post FAILED
                               None None None None (Some message) ;;
                     session_commit ;;;
                     raise (LateApiError message)) ;;
        logger INFO "Post published immediately" ;;;
        ret (post_to_dict post)
  end.

Record SyncResponse := mkSyncResponse {
  synced : nat;
  failed : nat;
}.

(** The loop of [sync_pending], with its two counters. *)
Fixpoint sync_pending_loop (posts : list ScheduledPost) (synced failed : nat)
  : M (nat * nat) :=
  match posts with
  | [] => ret (synced, failed)
  | post :: rest =>
      counters <- try_except_LateApiError
                    (_ <- _sync_to_late post ;;
                     ret (S synced, failed))
                    (fun _ =>
                       logger ERROR "Failed to sync post" ;;;
                       ret (synced, S failed)) ;;
      sync_pending_loop rest (fst counters) (snd counters)
  end.

Definition sync_pending : M SyncResponse :=
  posts <- ScheduledPostRepository.get_pending_sync ;;
  counters <- sync_pending_loop posts 0 0 ;;
  logger INFO "Sync complete" ;;;
  ret (mkSyncResponse (fst counters) (snd counters)).

Definition get_calendar_data (from_date to_date : datetime)
    (account_ids : option (list UUID)) : M (list ScheduledPost) :=
  posts <- ScheduledPostRepository.get_calendar_data from_date to_date
             account_ids ;;
  ret (map post_to_dict posts).

Definition get_upcoming (hours : Z) (limit : nat) : M (list ScheduledPost) :=
  posts <- ScheduledPostRepository.get_upcoming hours limit ;;
  ret (map post_to_dict posts).

End SchedulerService.

(** ** core/integrations/later_dev/client.py: what [_request] makes of a
    response

    [LateApiClient._request] above stands for this whole method; here is
    its body after the HTTP exchange. *)

(** A value [response.json()] returns. *)
Module JSON.

#[local] Unset Elimination Schemes.

(** A number is kept as its literal. *)
Inductive t :=
| null
| boolean (b : bool)
| number (literal : string)
| str (s : string)
| array (items : list t)
| object (members : list (string * t)).

#[local] Set Elimination Schemes.

(** The value a dict decoded from [members] holds under [key]: the last
    member of that name. *)
Fixpoint lookup (key : string) (members : list (string * t)) : option t :=
  match members with
  | [] => None
  | (k, v) :: members' =>
      match lookup key members' with
      | Some v' => Some v'
      | None => if String.eqb k key then Some v else None
      end
  end.

End JSON.

Module LateResponse.

(** The body of a response: empty ([response.content] is falsy), bytes
    that [response.json()] decodes to a value, or bytes it cannot
    decode. *)
Inductive Body :=
| no_content
| json (value : JSON.t)
| not_json.

(** A header read with [int()]: absent or empty, a text [int()]
    accepts, or a text it refuses. *)
Inductive IntHeader :=
| no_header
| int_header (n : Z)
| malformed.

Record t := mk {
  status_code : nat;
  body : Body;
  (** [X-RateLimit-Remaining], read by [_log_rate_limits] *)
  rate_limit_remaining : IntHeader;
  (** [Retry-After] *)
  retry_after : IntHeader;
}.

End LateResponse.

(** The exception classes of exceptions.py with the attributes they
    set.  A message taken from the body of a response is whatever value
    the body holds under ["error"]. *)
Inductive LateError :=
| LateAuthenticationError (message : string)
| LateRateLimitError (message : string) (retry_after : option Z)
| LateNotFoundError (resource_type resource_id : string)
| LateValidationError (message : JSON.t)
| LateApiError_base (message : JSON.t) (status_code : nat)
| LateConnectionError (message : string).

(** [e.status_code]. *)
Definition LateError_status_code (e : LateError) : option nat :=
  match e with
  | LateAuthenticationError _ => Some 401
  | LateRateLimitError _ _ => Some 429
  | LateNotFoundError _ _ => Some 404
  | LateValidationError _ => Some 400
  | LateApiError_base _ status_code => Some status_code
  | LateConnectionError _ => None
  end.

(** [e.message]. *)
Definition LateError_message (e : LateError) : JSON.t :=
  match e with
  | LateAuthenticationError m => JSON.str m
  | LateRateLimitError m _ => JSON.str m
  | LateNotFoundError resource_type resource_id =>
      JSON.str (resource_type ++ " not found: " ++ resource_id)
  | LateValidationError m => m
  | LateApiError_base m _ => m
  | LateConnectionError m => JSON.str m
  end.

(** How [_request] ends: with the decoded data, with a Late error, with
    the [ValueError] of [response.json()] or [int()], or with the
    [AttributeError] of [data.get] on a value that is not a dict; the last
    two are not [LateApiError]s. *)
Inductive RequestOutcome :=
| returns (data : JSON.t)
| raises (e : LateError)
| raises_ValueError
| raises_AttributeError.

Module LateApiClientRequest.

(** [response.json() if response.content else default], handed on. *)
Definition json_or (A : Type) (default : A) (decoded : JSON.t -> A)
    (b : LateResponse.Body) (k : A -> RequestOutcome) : RequestOutcome :=
  match b with
  | LateResponse.no_content => k default
  | LateResponse.json value => k (decoded value)
  | LateResponse.not_json => raises_ValueError
  end.

(** [data.get("error", default)] for the [data] of an error response,
    handed on. *)
Definition get_error (data : JSON.t) (default : string)
    (k : JSON.t -> RequestOutcome) : RequestOutcome :=
  match data with
  | JSON.object members =>
      match JSON.lookup "error" members with
      | Some message => k message
      | None => k (JSON.str default)
      end
  | _ => raises_AttributeError
  end.

(** [str(n)] for a status code. *)
Definition str_nat (n : nat) : string :=
  NilZero.string_of_uint (Nat.to_uint n).

(** The part of [_request] that follows [client.request]; [None] stands
    for the [httpx.RequestError] of a failed exchange.  [_log_rate_limits]
    comes first and only writes to the client's logger, unless the header
    it reads is not a number. *)
Definition _request (endpoint : string) (response : option LateResponse.t)
  : RequestOutcome :=
  match response with
  | None => raises (LateConnectionError "Failed to connect to Late API")
  | Some response =>
      let status_code := LateResponse.status_code response in
      let body := LateResponse.body response in
      match LateResponse.rate_limit_remaining response with
      | LateResponse.malformed => raises_ValueError
      | _ =>
      if Nat.eqb status_code 401 then
        json_or None Some body (fun _ =>
          raises (LateAuthenticationError "Invalid or missing API key"))
      else if Nat.eqb status_code 429 then
        match LateResponse.retry_after response with
        | LateResponse.malformed => raises_ValueError
        | LateResponse.no_header =>
            json_or None Some body (fun _ =>
              raises (LateRateLimitError "Rate limit exceeded" None))
        | LateResponse.int_header n =>
            json_or None Some body (fun _ =>
              raises (LateRateLimitError "Rate limit exceeded" (Some n)))
        end
      else if Nat.eqb status_code 404 then
        json_or None Some body (fun _ =>
          raises (LateNotFoundError "Resource" endpoint))
      else if Nat.eqb status_code 400 then
        json_or (JSON.object []) (fun value => value) body (fun data =>
          get_error data "Invalid request" (fun message =>
            raises (LateValidationError message)))
      else if Nat.leb 400 status_code then
        json_or (JSON.object []) (fun value => value) body (fun data =>
          get_error data ("API error: " ++ str_nat status_code)
            (fun message => raises (LateApiError_base message status_code)))
      else if Nat.eqb status_code 204 then
        returns (JSON.object [])
      else
        match body with
        | LateResponse.json value => returns value
        | _ => raises_ValueError
        end
      end
  end.

End LateApiClientRequest.

(** ** facets/scheduler/routes/schedule.py *)

(** What a route hands to the framework: the response body, or the
    [HTTPException] it raised. *)
Inductive HttpResult (A : Type) :=
| Response (body : A)
| HTTPException (status_code : nat) (detail : string).
Arguments Response {A} body.
Arguments HTTPException {A} status_code detail.

Module routes.

(** The handlers every mutating route wraps around its service call:
    [except ValueError] gives 400 with [str(e)], [except LateApiError]
    gives 502 with the message.  Any other exception leaves the route. *)
Definition except_errors (A : Type) (call : M A) : M (HttpResult A) :=
  fun w =>
    match call w with
    | (Ok a, w') => (Ok (Response a), w')
    | (Raise (ValueError msg), w') => (Ok (HTTPException 400 msg), w')
    | (Raise (LateApiError message), w') =>
        (Ok (HTTPException 502 ("Late API error: " ++ message)), w')
    | (Raise e, w') => (Raise e, w')
    end.

(** The route leaves [sync_immediately] at its default. *)
Definition schedule_single (content_library_item_id connected_account_id : UUID)
    (scheduled_for : datetime) (timezone : string)
    (platform_specific_config : option Config)
  : M (HttpResult ScheduledPost) :=
  except_errors
    (SchedulerService.schedule_single content_library_item_id
       connected_account_id scheduled_for timezone platform_specific_config
       true).

Definition schedule_multi (content_library_item_id : UUID)
    (account_schedules : list ScheduleAccountConfig.t) (timezone : string)
  : M (HttpResult (string * list ScheduledPost)) :=
  except_errors
    (SchedulerService.schedule_multi content_library_item_id
       account_schedules timezone true).

Definition get_post (post_id : UUID) : M (HttpResult ScheduledPost) :=
  post <- ScheduledPostRepository.get_by_id_with_relations post_id ;;
  match post with
  | None =>
      ret (HTTPException 404 ("Post " ++ str_UUID post_id ++ " not found"))
  | Some post => ret (Response (SchedulerService.post_to_dict post))
  end.

Definition reschedule_post (post_id : UUID) (scheduled_for : datetime)
    (timezone : option string) : M (HttpResult ScheduledPost) :=
  except_errors (SchedulerService.reschedule post_id scheduled_for timezone).

Definition cancel_post (post_id : UUID) : M (HttpResult ScheduledPost) :=
  except_errors (SchedulerService.cancel post_id).

Definition publish_now (post_id : UUID) : M (HttpResult ScheduledPost) :=
  except_errors (SchedulerService.publish_now post_id).

(** No handler here: what the service raises leaves the route. *)
Definition sync_pending : M (HttpResult SchedulerService.SyncResponse) :=
  result <- SchedulerService.sync_pending ;;
  ret (Response result).

End routes.

(** * Vocabulary of the properties *)

(** The request the remote service is about to receive is answered by
    [r], whatever it asks. *)
Definition next_reply_is (w : World) (r : LateReply) : Prop :=
  forall c, late_api w (List.length (late_calls w)) c = r.

(** The row of a post in a table. *)
Definition row (post_id : UUID) (rows : list ScheduledPost)
  : option ScheduledPost :=
  find (fun p => Nat.eqb (id p) post_id) rows.

(** The content and the account a post refers to can be loaded. *)
Definition loadable (w : World) (post : ScheduledPost) : Prop :=
  (exists c, fst (ContentLibraryRepository.get_by_id_with_media
                    (content_library_item_id post) w) = Ok (Some c)) /\
  (exists a, fst (ConnectedAccountRepository.get_by_id
                    (connected_account_id post) w) = Ok (Some a)).

(** The account and the content the repositories find under a key. *)
Definition account_of (w : World) (account_id : UUID)
  : option ConnectedAccount.t :=
  find (fun a => Nat.eqb (ConnectedAccount.id a) account_id) (accounts w).

Definition content_of (w : World) (item_id : UUID)
  : option ContentLibraryItem.t :=
  find (fun c => Nat.eqb (ContentLibraryItem.id c) item_id
                 && negb (ContentLibraryItem.is_deleted c))
    (contents w).

(** The exception a push ends with: the error of the client without a
    key; with one, [ValueError] when the content or the account of the
    post cannot be loaded, and otherwise the [TypeError] of the request
    body, which carries the [datetime] of [scheduled_for]. *)
Definition push_error (w : World) (post : ScheduledPost) : Exn :=
  if truthy (LATER_DEV_API_KEY w) then
    match content_of w (content_library_item_id post),
          account_of w (connected_account_id post) with
    | Some _, Some _ => TypeError
    | _, _ => ValueError "Content or account not found"
    end
  else LateApiError "Late API key not configured".

(** The exception the update of a remote schedule ends with. *)
Definition update_error (w : World) : Exn :=
  if truthy (LATER_DEV_API_KEY w) then TypeError
  else LateApiError "Late API key not configured".

(** The end of the window of [get_upcoming] can be computed: the
    duration is in the range of [timedelta] and the sum in the range of
    [datetime]. *)
Definition window_in_range (w : World) (hours : Z) : Prop :=
  (timedelta_min <= hours * 3600000000 <= timedelta_max
   /\ datetime_min <= now w + hours * 3600000000 <= datetime_max)%Z.

(** The world keeps its surroundings: tables of accounts and contents,
    clock, key and remote service. *)
Definition same_env (w w' : World) : Prop :=
  accounts w' = accounts w /\ contents w' = contents w /\ now w' = now w
  /\ LATER_DEV_API_KEY w' = LATER_DEV_API_KEY w /\ late_api w' = late_api w.


(** The rows of the session that are in [PENDING_SYNC]. *)
Definition pending_rows (w : World) : list ScheduledPost :=
  filter (fun p => ScheduleStatus_eqb (status p) PENDING_SYNC) (txn w).

(** The account of a batch entry exists and is active. *)
Definition account_ok (w : World) (schedule : ScheduleAccountConfig.t)
  : bool :=
  match find (fun a => Nat.eqb (ConnectedAccount.id a)
                         (ScheduleAccountConfig.connected_account_id schedule))
          (accounts w) with
  | Some a => ConnectedAccount.is_active a
  | None => false
  end.

(** A post of a batch as the first loop of [schedule_multi] leaves it. *)
Definition batch_member (content_id : UUID) (batch : string)
    (sync_immediately : bool) (p : ScheduledPost) : Prop :=
  batch_id p = Some batch
  /\ schedule_mode p = MULTI_PLATFORM
  /\ content_library_item_id p = content_id
  /\ status p = (if sync_immediately then PENDING_SYNC else DRAFT)
  /\ late_post_id p = None.

(** [a] is not scheduled later than [b]. *)
Definition earlier_or_same (a b : ScheduledPost) : Prop :=
  (scheduled_for a <= scheduled_for b)%Z.

(** The rows of a table that carry a status. *)
Definition rows_with_status (s : ScheduleStatus) (rows : list ScheduledPost)
  : list ScheduledPost :=
  filter (has_status s) rows.

(** A count read from a dict of counts: a missing key counts for 0. *)
Definition count_of (A : Type) (counts : A -> option nat) (key : A) : nat :=
  match counts key with
  | Some n => n
  | None => 0
  end.

Definition all_statuses : list ScheduleStatus :=
  [DRAFT; PENDING_SYNC; SCHEDULED; PUBLISHING; PUBLISHED; FAILED; CANCELLED].

Definition all_platforms : list PlatformType :=
  [TIKTOK; YOUTUBE; INSTAGRAM; REDDIT; LINKEDIN; TWITTER; FACEBOOK;
   PINTEREST; BLUESKY; THREADS; GOOGLE_BUSINESS].

(** The sum of a list of numbers. *)
Definition total (counts : list nat) : nat := fold_right Nat.add 0 counts.

(** The primary keys of the rows of the session were all drawn before
    the next one. *)
Definition fresh_keys (w : World) : Prop :=
  Forall (fun r => id r < next_uuid w) (txn w).

(** An optional argument of [update_status] against the column it may
    overwrite. *)
Definition or_old (A : Type) (given old : option A) : option A :=
  match given with
  | Some _ => given
  | None => old
  end.

(** The request [_publish_via_late] builds for a post. *)
Definition publish_request (post : ScheduledPost)
    (content : ContentLibraryItem.t) (account : ConnectedAccount.t)
  : LatePostCreate.t :=
  LatePostCreate.mk
    (ContentLibraryItem.body content) (ContentLibraryItem.title content)
    (map SchedulerService.media_item
       (filter (fun a => truthy (MediaAttachment.late_media_url a))
          (ContentLibraryItem.media_attachments content)))
    [SchedulerService.platform_target post account]
    None true None
    (ContentLibraryItem.hashtags content)
    (ContentLibraryItem.mentions content).

(** The first entry of [late_post.platforms], if there is one. *)
Definition platform_data (late_post : LatePost.t)
  : option LatePlatformTarget.t :=
  hd_error (LatePost.platforms late_post).

(** [platform_data.platform_post_id if platform_data else None], and the
    same for the URL. *)
Definition platform_data_post_id (late_post : LatePost.t) : option string :=
  match platform_data late_post with
  | Some d => LatePlatformTarget.platform_post_id d
  | None => None
  end.

Definition platform_data_post_url (late_post : LatePost.t) : option string :=
  match platform_data late_post with
  | Some d => LatePlatformTarget.platform_post_url d
  | None => None
  end.

(** * Sample data for the concrete runs *)

(** An active TikTok account. *)
Definition sample_account : ConnectedAccount.t :=
  ConnectedAccount.mk 1 "late-acc-1" TIKTOK true.

(** An active YouTube account. *)
Definition sample_account_2 : ConnectedAccount.t :=
  ConnectedAccount.mk 2 "late-acc-2" YOUTUBE true.

(** A Reddit account that is not active. *)
Definition sample_inactive_account : ConnectedAccount.t :=
  ConnectedAccount.mk 3 "late-acc-3" REDDIT false.

(** A content item without media. *)
Definition sample_content : ContentLibraryItem.t :=
  ContentLibraryItem.mk 10 (Some "title") (Some "body") ["tag"] [] false [].

(** A soft-deleted content item. *)
Definition sample_deleted_content : ContentLibraryItem.t :=
  ContentLibraryItem.mk 11 (Some "old") (Some "gone") [] [] true [].

(** A post of [sample_account] on [sample_content]. *)
Definition sample_post (post_id : UUID) (created : datetime)
    (st : ScheduleStatus) (late_id : option string) : ScheduledPost :=
  mkScheduledPost post_id created 10 1 TIKTOK 50%Z "UTC" st None
    SINGLE_PLATFORM None late_id None None None None None 0%Z None.

(** A world over the sample tables, with everything committed. *)
Definition sample_world (rows : list ScheduledPost)
    (api : nat -> LateCall -> LateReply) : World :=
  mkWorld rows rows
    [sample_account; sample_account_2; sample_inactive_account]
    [sample_content; sample_deleted_content]
    7%Z 1000 (Some "key") api [] [].

(** The remote service accepts every request; the post it
    answers the n-th request with has identifier ["ext-n"]. *)
Definition api_accepts : nat -> LateCall -> LateReply :=
  fun n _ => LateOk (LatePost.mk ("ext-" ++ str_UUID n) "pending" []).

(** The remote service rejects every request with [message]. *)
Definition api_rejects (message : string) : nat -> LateCall -> LateReply :=
  fun _ _ => LateErr message.


(** An empty table of posts. *)
Definition empty_world : World := sample_world [] api_accepts.

(** An entry of a batch request. *)
Definition entry (account_id : UUID) (at_time : datetime)
  : ScheduleAccountConfig.t :=
  ScheduleAccountConfig.mk account_id at_time None.


(** A pending post in front of a remote service that rejects every
    request. *)
Definition rejecting_world : World :=
  sample_world [sample_post 100 1%Z PENDING_SYNC None]
    (api_rejects "service unavailable").

(** A pending post that carries the identifier of an earlier push. *)
Definition pushed_post : ScheduledPost :=
  sample_post 100 1%Z PENDING_SYNC (Some "ext-old").

(** The world of [pushed_post]. *)
Definition pushed_world : World := sample_world [pushed_post] api_accepts.

(** A scheduled post with a remote identifier; the remote service rejects
    the delete request. *)
Definition cancel_world : World :=
  sample_world [sample_post 100 1%Z SCHEDULED (Some "ext-1")]
    (api_rejects "Resource not found: /posts/ext-1").

(** A scheduled post with a remote identifier. *)
Definition scheduled_post : ScheduledPost :=
  sample_post 100 1%Z SCHEDULED (Some "ext-1").

(** The world of [scheduled_post]; the remote service accepts. *)
Definition scheduled_world : World :=
  sample_world [scheduled_post] api_accepts.

(** A post that failed once, without remote identifier. *)
Definition failed_post : ScheduledPost :=
  mkScheduledPost 100 1%Z 10 1 TIKTOK 50%Z "UTC" FAILED None
    SINGLE_PLATFORM None None None None None (Some 5%Z)
    (Some "service unavailable") 1%Z None.

(** The world of [failed_post]. *)
Definition failed_world : World := sample_world [failed_post] api_accepts.

(** The same account twice in one batch. *)
Definition repeated_account_batch : list ScheduleAccountConfig.t :=
  [entry 1 50%Z; entry 1 60%Z].

(** A cancelled post. *)
Definition cancelled_post : ScheduledPost :=
  sample_post 100 1%Z CANCELLED None.

(** The remote service publishes what it is sent. *)
Definition api_publishes : nat -> LateCall -> LateReply :=
  fun n _ => LateOk (LatePost.mk ("ext-" ++ str_UUID n) "published" []).

(** A pending post without remote identifier. *)
Definition pending_post : ScheduledPost :=
  sample_post 100 1%Z PENDING_SYNC None.

(** The world of [pending_post]; the remote service accepts. *)
Definition pending_world : World := sample_world [pending_post] api_accepts.

(** The remote service answers with the status of a scheduled post,
    which is not a value of [LatePostStatus]. *)
Definition api_answers_scheduled : nat -> LateCall -> LateReply :=
  fun n _ => LateOk (LatePost.mk ("ext-" ++ str_UUID n) "scheduled" []).

(** [pending_post] in front of that service. *)
Definition unknown_status_world : World :=
  sample_world [pending_post] api_answers_scheduled.

(** Two rows, one of them a draft of the second account. *)
Definition two_rows_world : World :=
  sample_world
    [ pending_post;
      mkScheduledPost 101 2%Z 10 2 YOUTUBE 60%Z "UTC" DRAFT None
        SINGLE_PLATFORM None None None None None None None 0%Z None ]
    api_accepts.

(** [pending_post] in front of a remote service that rejects every
    request. *)
Definition refusing_world : World :=
  sample_world [pending_post] (api_rejects "upstream error").

(** [pending_post] in a deployment without API key. *)
Definition keyless_world : World :=
  mkWorld [pending_post] [pending_post]
    [sample_account] [sample_content] 7%Z 1000 None api_accepts [] [].

(** A pending post whose content was soft-deleted. *)
Definition orphan_post : ScheduledPost :=
  mkScheduledPost 100 1%Z 11 1 TIKTOK 50%Z "UTC" PENDING_SYNC None
    SINGLE_PLATFORM None None None None None None None 0%Z None.

(** The world of [orphan_post]. *)
Definition orphan_world : World := sample_world [orphan_post] api_accepts.

(** A content with two attachments, one of them not uploaded yet. *)
Definition media_content : ContentLibraryItem.t :=
  ContentLibraryItem.mk 12 None (Some "clip") [] [] false
    [ MediaAttachment.mk VIDEO None (Some "https://media/1.mp4");
      MediaAttachment.mk IMAGE (Some "cover") None ].

(** A pending post on [media_content] and its world. *)
Definition media_post : ScheduledPost :=
  mkScheduledPost 100 1%Z 12 1 TIKTOK 50%Z "UTC" PENDING_SYNC None
    SINGLE_PLATFORM None None None None None None None 0%Z None.

Definition media_world : World :=
  mkWorld [media_post] [media_post]
    [sample_account] [media_content] 7%Z 1000 (Some "key") api_accepts [] [].

(** * Properties *)

Lemma ScheduleStatus_eqb_eq (a b : ScheduleStatus) :
  ScheduleStatus_eqb a b = true <-> a = b.
Proof. destruct a, b; simpl; split; intro H; congruence. Qed.

Lemma row_replace_row (post : ScheduledPost) (rows : list ScheduledPost) :
  row (id post) rows <> None ->
  row (id post) (replace_row post rows) = Some post.
Proof.
  unfold row. induction rows as [|r rows IH]; simpl; [congruence|].
  destruct (Nat.eqb (id r) (id post)) eqn:E; simpl.
  - now rewrite Nat.eqb_refl.
  - rewrite E. exact IH.
Qed.

Lemma length_replace_row (post : ScheduledPost) (rows : list ScheduledPost) :
  List.length (replace_row post rows) = List.length rows.
Proof.
  induction rows as [|r rows IH]; simpl; [reflexivity|].
  destruct (Nat.eqb (id r) (id post)); simpl; now rewrite IH.
Qed.

Lemma row_app (post_id : UUID) (rows : list ScheduledPost)
    (post : ScheduledPost) :
  row post_id (rows ++ [post])
  = match row post_id rows with
    | Some r => Some r
    | None => if Nat.eqb (id post) post_id then Some post else None
    end.
Proof.
  unfold row. induction rows as [|r rows IH]; simpl; [reflexivity|].
  now destruct (Nat.eqb (id r) post_id).
Qed.

(** ** The object [update_status] leaves behind *)

Section UpdateStatus.

Variables (st : ScheduleStatus) (lid : option string)
          (ls : option LatePostStatus) (ppid ppurl err : option string).

Lemma update_status_run (post : ScheduledPost) (w : World) :
  exists post',
    ScheduledPostRepository.update_status post st lid ls ppid ppurl err w
    = (Ok post', set_txn (replace_row post' (txn w)) w)
    /\ status post' = st
    /\ id post' = id post
    /\ created_at post' = created_at post
    /\ content_library_item_id post' = content_library_item_id post
    /\ connected_account_id post' = connected_account_id post
    /\ schedule_mode post' = schedule_mode post
    /\ batch_id post' = batch_id post
    /\ scheduled_for post' = scheduled_for post
    /\ late_post_id post'
       = match lid with Some _ => lid | None => late_post_id post end
    /\ retry_count post'
       = (if ScheduleStatus_eqb st FAILED then retry_count post + 1
          else retry_count post)%Z
    /\ error_message post'
       = (if ScheduleStatus_eqb st FAILED && truthy err then err
          else error_message post)
    /\ failed_at post'
       = (if ScheduleStatus_eqb st FAILED then Some (now w)
          else failed_at post).
Proof.
  unfold ScheduledPostRepository.update_status, bind, datetime_now,
    session_flush.
  eexists. split; [reflexivity|].
  destruct lid, ls, ppid, ppurl, st; simpl;
    repeat split; destruct (truthy err); reflexivity.
Qed.

End UpdateStatus.

(** ** The repository's [reschedule] *)

(** What the repository's [reschedule] writes. *)
Lemma reschedule_run :
  forall (post : ScheduledPost) (new_time : datetime) (tz : option string)
         (w : World),
  exists post',
    ScheduledPostRepository.reschedule post new_time tz w
    = (Ok post', set_txn (replace_row post' (txn w)) w)
    /\ scheduled_for post' = new_time
    /\ (timezone post' = timezone post
        \/ (truthy tz = true /\ tz = Some (timezone post')))
    /\ (status post' = status post
        \/ (status post = SCHEDULED /\ status post' = PENDING_SYNC))
    /\ late_post_id post' = late_post_id post
    /\ batch_id post' = batch_id post
    /\ retry_count post' = retry_count post
    /\ error_message post' = error_message post
    /\ failed_at post' = failed_at post
    /\ published_at post' = published_at post
    /\ platform post' = platform post
    /\ schedule_mode post' = schedule_mode post
    /\ platform_specific_config post' = platform_specific_config post
    /\ id post' = id post
    /\ created_at post' = created_at post
    /\ content_library_item_id post' = content_library_item_id post
    /\ connected_account_id post' = connected_account_id post
    /\ late_status post' = late_status post
    /\ platform_post_id post' = platform_post_id post
    /\ platform_post_url post' = platform_post_url post.
Proof.
  intros post new_time tz w.
  unfold ScheduledPostRepository.reschedule, session_flush.
  eexists. split; [reflexivity|].
  destruct tz as [tz|]; simpl.
  - destruct (negb (String.eqb tz "")) eqn:Etz; simpl;
      destruct (status post) eqn:Est; simpl;
      repeat split; auto.
  - destruct (status post) eqn:Est; simpl; repeat split; auto.
Qed.

(** C10 (reschedule frame).  For every post, hence for every post in a
    non-terminal state, the repository's [reschedule] writes one row, the
    post's, and on it changes only: [scheduled_for], set to the new time;
    [timezone], and only when a non-empty one is supplied, to that one;
    [status], and only from [SCHEDULED] to [PENDING_SYNC].  Every other
    column of the row, the committed rows and the rest of the world are
    as before. *)
Theorem repository_reschedule_frame :
  forall (post : ScheduledPost) (new_time : datetime) (tz : option string)
         (w : World),
  exists post',
    ScheduledPostRepository.reschedule post new_time tz w
    = (Ok post', set_txn (replace_row post' (txn w)) w)
    /\ scheduled_for post' = new_time
    /\ (timezone post' = timezone post
        \/ (truthy tz = true /\ tz = Some (timezone post')))
    /\ (status post' = status post
        \/ (status post = SCHEDULED /\ status post' = PENDING_SYNC))
    /\ late_post_id post' = late_post_id post
    /\ batch_id post' = batch_id post
    /\ retry_count post' = retry_count post
    /\ error_message post' = error_message post
    /\ failed_at post' = failed_at post
    /\ published_at post' = published_at post
    /\ platform post' = platform post
    /\ schedule_mode post' = schedule_mode post
    /\ platform_specific_config post' = platform_specific_config post
    /\ id post' = id post
    /\ created_at post' = created_at post
    /\ content_library_item_id post' = content_library_item_id post
    /\ connected_account_id post' = connected_account_id post
    /\ late_status post' = late_status post
    /\ platform_post_id post' = platform_post_id post
    /\ platform_post_url post' = platform_post_url post.
Proof. exact reschedule_run. Qed.

(** ** One push: [_sync_to_late] *)

Lemma same_env_refl (w : World) : same_env w w.
Proof. repeat split. Qed.

Lemma same_env_trans (w1 w2 w3 : World) :
  same_env w1 w2 -> same_env w2 w3 -> same_env w1 w3.
Proof.
  unfold same_env. intros (A1 & B1 & C1 & D1 & E1) (A2 & B2 & C2 & D2 & E2).
  repeat split; congruence.
Qed.

(** What [loadable] says of the two lookups. *)
Lemma loadable_lookups (w : World) (post : ScheduledPost) :
  loadable w post ->
  exists content account,
    content_of w (content_library_item_id post) = Some content
    /\ account_of w (connected_account_id post) = Some account.
Proof.
  intros [[content Hc] [account Ha]].
  unfold ContentLibraryRepository.get_by_id_with_media,
    ConnectedAccountRepository.get_by_id in Hc, Ha.
  simpl in Hc, Ha. injection Hc as Hc. injection Ha as Ha.
  now exists content, account.
Qed.

(** A push, whatever the post and the world: the client is built, the
    content and the account are looked up, and the create request fails
    while its body is encoded.  Nothing is written, nothing is sent. *)
Lemma sync_to_late_run (post : ScheduledPost) (w : World) :
  SchedulerService._sync_to_late post w = (Raise (push_error w post), w).
Proof.
  unfold SchedulerService._sync_to_late, push_error, content_of, account_of,
    bind at 1, LateApiClient.new.
  destruct (truthy (LATER_DEV_API_KEY w)); [|reflexivity].
  unfold try_finally, try_except_LateApiError, bind,
    ContentLibraryRepository.get_by_id_with_media,
    ConnectedAccountRepository.get_by_id.
  destruct (find (fun c => Nat.eqb (ContentLibraryItem.id c)
                             (content_library_item_id post)
                           && negb (ContentLibraryItem.is_deleted c))
              (contents w));
    destruct (find (fun a => Nat.eqb (ConnectedAccount.id a)
                               (connected_account_id post))
                (accounts w));
    reflexivity.
Qed.

Lemma sync_to_late_without_key (post : ScheduledPost) (w : World) :
  truthy (LATER_DEV_API_KEY w) = false ->
  SchedulerService._sync_to_late post w
  = (Raise (LateApiError "Late API key not configured"), w).
Proof.
  intro Hkey. rewrite sync_to_late_run. unfold push_error. now rewrite Hkey.
Qed.



(** [_update_late_schedule]: nothing to do without a remote identifier;
    with one, the update request fails while its body is encoded. *)
Lemma update_late_schedule_run (post : ScheduledPost) (w : World) :
  SchedulerService._update_late_schedule post w
  = (if truthy (late_post_id post) then (Raise (update_error w), w)
     else (Ok post, w)).
Proof.
  unfold SchedulerService._update_late_schedule, update_error.
  destruct (truthy (late_post_id post)); [|reflexivity].
  cbn [negb]. unfold bind at 1, LateApiClient.new.
  destruct (truthy (LATER_DEV_API_KEY w)); reflexivity.
Qed.

(** ** The sweep: [sync_pending] *)

Lemma insert_by_created_at_perm (p : ScheduledPost) (rows : list ScheduledPost) :
  Permutation (insert_by_created_at p rows) (p :: rows).
Proof.
  induction rows as [|q rows IH]; simpl; [apply Permutation_refl|].
  destruct (created_at p <=? created_at q)%Z.
  - apply Permutation_refl.
  - eapply perm_trans; [apply perm_skip, IH | apply perm_swap].
Qed.

Lemma order_by_created_at_perm (rows : list ScheduledPost) :
  Permutation (order_by_created_at rows) rows.
Proof.
  induction rows as [|p rows IH]; simpl; [constructor|].
  eapply perm_trans; [apply insert_by_created_at_perm|].
  now apply perm_skip.
Qed.



(** Without a key every push raises the error of the client, which the
    loop counts. *)
Lemma sync_pending_loop_without_key (posts : list ScheduledPost) :
  forall (w : World) (synced failed : nat),
    truthy (LATER_DEV_API_KEY w) = false ->
    exists w',
      SchedulerService.sync_pending_loop posts synced failed w
      = (Ok (synced, failed + List.length posts), w')
      /\ txn w' = txn w /\ committed w' = committed w
      /\ late_calls w' = late_calls w
      /\ LATER_DEV_API_KEY w' = LATER_DEV_API_KEY w.
Proof.
  induction posts as [|post posts IH]; intros w synced failed Hkey.
  - exists w. simpl. rewrite Nat.add_0_r. repeat split.
  - set (w1 := set_log (log w ++ [(ERROR, "Failed to sync post")]) w).
    destruct (IH w1 synced (S failed) Hkey) as (w' & Hloop & Ht & Hc & Hl & Hk).
    exists w'. split; [|repeat split; assumption].
    cbn [SchedulerService.sync_pending_loop].
    unfold bind at 1, try_except_LateApiError, bind at 1.
    rewrite (@sync_to_late_without_key post w Hkey).
    unfold bind at 1, logger at 1, ret at 1. cbn [fst snd]. fold w1.
    rewrite Hloop. simpl. do 3 f_equal. lia.
Qed.


(** ** C7: the sweep *)



(** ** C6: a push that fails *)

(** C6 (push failure handling), on the code.  The create request of a
    push never reaches the remote service, so no error of the remote
    service is ever handled: with the content and the account of the post
    loaded, [create_post] raises [TypeError] while the request body, which
    carries [scheduled_for] as a [datetime], is encoded (and without an
    API key the client cannot even be built, which raises
    [LateApiError] before the [try]).  Neither reaches the handler that
    would set the post to [FAILED]: the push fails and nothing records it.
    The world after the call is the world before it, so the post keeps
    its status, [retry_count], [error_message] and [failed_at], nothing is
    flushed or committed, and nothing was sent. *)
Theorem push_failure_is_not_recorded :
  forall (post : ScheduledPost) (w : World),
    loadable w post ->
    SchedulerService._sync_to_late post w
    = (Raise (if truthy (LATER_DEV_API_KEY w) then TypeError
              else LateApiError "Late API key not configured"), w).
Proof.
  intros post w Hload.
  destruct (loadable_lookups Hload) as (content & account & Hc & Ha).
  rewrite sync_to_late_run. unfold push_error. now rewrite Hc, Ha.
Qed.

(** C6, a run: a pending post that was never pushed, a key, and a remote
    service that would reject the request if it got one. *)
Lemma push_failure_is_not_recorded_witness :
  SchedulerService._sync_to_late (sample_post 100 1%Z PENDING_SYNC None)
    rejecting_world
  = (Raise TypeError, rejecting_world).
Proof.
  refine (@push_failure_is_not_recorded (sample_post 100 1%Z PENDING_SYNC None)
            rejecting_world _).
  split; eexists; reflexivity.
Defined.

(** ** C2: a push of a post that already has a remote identifier *)

(** C2 (idempotent push).  A push of a post whose [late_post_id] is set
    creates no second remote post: the call raises and issues no request,
    and it writes nothing, so the stored identifier stays.  This is not
    the work of a guard on [late_post_id], which [_sync_to_late] never
    reads: every push ends this way (see [sync_to_late_run]). *)
Theorem second_push_sends_no_create :
  forall (post : ScheduledPost) (w : World),
    truthy (late_post_id post) = true ->
    let r := SchedulerService._sync_to_late post w in
    (exists e, fst r = Raise e)
    /\ late_calls (snd r) = late_calls w
    /\ txn (snd r) = txn w
    /\ committed (snd r) = committed w.
Proof.
  intros post w _. cbv zeta. rewrite sync_to_late_run. cbn [fst snd].
  split; [now eexists | repeat split].
Qed.

(** C2, a run: [pushed_post] carries the identifier of an earlier push. *)
Lemma second_push_sends_no_create_witness :
  let r := SchedulerService._sync_to_late pushed_post pushed_world in
  (exists e, fst r = Raise e)
  /\ late_calls (snd r) = late_calls pushed_world
  /\ txn (snd r) = txn pushed_world
  /\ committed (snd r) = committed pushed_world.
Proof.
  exact (@second_push_sends_no_create pushed_post pushed_world eq_refl).
Defined.

(** ** C3: cancelling when the remote deletion fails *)

(** C3, counterexample.  The delete request fails: [cancel] raises the
    [LateApiError] to its caller, the post stays [SCHEDULED] in the
    session and in the committed rows, and the service logs nothing. *)
Lemma cancel_raises_when_remote_delete_fails :
  let r := SchedulerService.cancel 100 cancel_world in
  fst r = Raise (LateApiError "Resource not found: /posts/ext-1")
  /\ option_map status (row 100 (txn (snd r))) = Some SCHEDULED
  /\ option_map status (row 100 (committed (snd r))) = Some SCHEDULED
  /\ log (snd r) = [].
Proof. vm_compute. repeat split. Qed.

(** C3, as the code has it.  For a post that is not [PUBLISHED] and has a
    remote identifier, when the delete request fails, [cancel] raises the
    [LateApiError] of the client to its caller; the rows of the session
    and the committed rows are untouched, so the post keeps its status,
    and the service writes no log entry.  The one effect is the request
    sent. *)
Theorem cancel_propagates_remote_failure :
  forall (post_id : UUID) (post : ScheduledPost) (w : World) (msg : string),
    row post_id (txn w) = Some post ->
    status post <> PUBLISHED ->
    truthy (late_post_id post) = true ->
    truthy (LATER_DEV_API_KEY w) = true ->
    next_reply_is w (LateErr msg) ->
    exists w',
      SchedulerService.cancel post_id w = (Raise (LateApiError msg), w')
      /\ txn w' = txn w
      /\ committed w' = committed w
      /\ log w' = log w
      /\ late_calls w'
         = late_calls w ++ [delete_post_call (unwrap (late_post_id post))]
      /\ row post_id (txn w') = Some post.
Proof.
  intros post_id post w msg Hrow Hst Hlid Hkey Hreply.
  eexists. split.
  - unfold SchedulerService.cancel, bind at 1,
      ScheduledPostRepository.get_by_id_with_relations.
    unfold row in Hrow. rewrite Hrow.
    assert (E : ScheduleStatus_eqb (status post) PUBLISHED = false)
      by (destruct (status post); simpl; congruence).
    rewrite E, Hlid.
    unfold SchedulerService._delete_from_late, bind, LateApiClient.new,
      try_finally, LateApiClient.delete_post, bind, LateApiClient._request.
    rewrite Hlid. cbn [negb]. cbv beta iota. rewrite Hkey. cbv beta iota.
    rewrite Hreply. reflexivity.
  - simpl. repeat split. exact Hrow.
Qed.

Lemma cancel_propagates_remote_failure_witness :
  exists w',
    SchedulerService.cancel 100 cancel_world
    = (Raise (LateApiError "Resource not found: /posts/ext-1"), w')
    /\ txn w' = txn cancel_world
    /\ committed w' = committed cancel_world
    /\ log w' = log cancel_world
    /\ late_calls w' = late_calls cancel_world ++ [delete_post_call "ext-1"]
    /\ row 100 (txn w') = Some (sample_post 100 1%Z SCHEDULED (Some "ext-1")).
Proof.
  refine (@cancel_propagates_remote_failure 100
            (sample_post 100 1%Z SCHEDULED (Some "ext-1")) cancel_world
            "Resource not found: /posts/ext-1"
            eq_refl _ eq_refl eq_refl (fun _ => eq_refl)).
  simpl. discriminate.
Defined.

(** When the deletion succeeds, or there is nothing to delete, the post
    becomes [CANCELLED] and this is committed. *)
Lemma cancel_sets_cancelled (post_id : UUID) (post : ScheduledPost)
    (w : World) :
  row post_id (txn w) = Some post ->
  status post <> PUBLISHED ->
  (truthy (late_post_id post) = true ->
   truthy (LATER_DEV_API_KEY w) = true
   /\ exists late_post, next_reply_is w (LateOk late_post)) ->
  exists post' w',
    SchedulerService.cancel post_id w = (Ok post', w')
    /\ status post' = CANCELLED
    /\ committed w' = txn w'
    /\ row post_id (committed w') = Some post'.
Proof.
  intros Hrow Hst Hremote.
  assert (Hid : id post = post_id).
  { unfold row in Hrow. apply find_some in Hrow.
    now apply Nat.eqb_eq. }
  assert (E : ScheduleStatus_eqb (status post) PUBLISHED = false)
    by (destruct (status post); simpl; congruence).
  exists (set_status CANCELLED post).
  destruct (truthy (late_post_id post)) eqn:Hlid.
  - destruct Hremote as (Hkey & late_post & Hreply); [reflexivity|].
    eexists. split; [|split; [reflexivity|split]].
    + unfold SchedulerService.cancel, bind at 1,
        ScheduledPostRepository.get_by_id_with_relations.
      unfold row in Hrow. rewrite Hrow. rewrite E, Hlid.
      unfold SchedulerService._delete_from_late, bind, LateApiClient.new,
        try_finally, LateApiClient.delete_post, bind, LateApiClient._request.
      rewrite Hlid. cbn [negb]. cbv beta iota. rewrite Hkey.
      cbv beta iota. rewrite Hreply. reflexivity.
    + reflexivity.
    + simpl. subst post_id.
      change (id post) with (id (set_status CANCELLED post)) at 1.
      apply row_replace_row. simpl. congruence.
  - eexists. split; [|split; [reflexivity|split]].
    + unfold SchedulerService.cancel, bind at 1,
        ScheduledPostRepository.get_by_id_with_relations.
      unfold row in Hrow. rewrite Hrow. rewrite E, Hlid. reflexivity.
    + reflexivity.
    + simpl. subst post_id.
      change (id post) with (id (set_status CANCELLED post)) at 1.
      apply row_replace_row. simpl. congruence.
Qed.

(** ** The service's [reschedule] *)

Lemma reschedule_run_exact (post : ScheduledPost) (new_time : datetime)
    (tz : option string) (w : World) :
  exists post',
    ScheduledPostRepository.reschedule post new_time tz w
    = (Ok post', set_txn (replace_row post' (txn w)) w)
    /\ status post'
       = (if ScheduleStatus_eqb (status post) SCHEDULED then PENDING_SYNC
          else status post)
    /\ timezone post' = (if truthy tz then unwrap tz else timezone post)
    /\ scheduled_for post' = new_time
    /\ late_post_id post' = late_post_id post
    /\ id post' = id post.
Proof.
  unfold ScheduledPostRepository.reschedule, session_flush.
  eexists. split; [reflexivity|].
  destruct tz as [tz|]; simpl.
  - destruct (negb (String.eqb tz "")); simpl;
      destruct (status post) eqn:Est; simpl; repeat split; auto.
  - destruct (status post) eqn:Est; simpl; repeat split; auto.
Qed.

Lemma row_id (post_id : UUID) (post : ScheduledPost)
    (rows : list ScheduledPost) :
  row post_id rows = Some post -> id post = post_id.
Proof.
  unfold row. intro H. apply find_some in H. now apply Nat.eqb_eq.
Qed.

(** [reschedule] on a post it does not refuse: the repository writes the
    new time (and demotes a [SCHEDULED] post), this is committed, and
    then, for a post with a remote identifier, the update of the remote
    schedule raises; without one the call returns the post. *)
Lemma reschedule_service_run (post_id : UUID) (post : ScheduledPost)
    (new_time : datetime) (tz : option string) (w : World) :
  row post_id (txn w) = Some post ->
  status post <> PUBLISHED ->
  status post <> CANCELLED ->
  exists post1,
    let rows := replace_row post1 (txn w) in
    let w1 := set_committed rows (set_txn rows w) in
    SchedulerService.reschedule post_id new_time tz w
    = (if truthy (late_post_id post) then (Raise (update_error w), w1)
       else (Ok post1, set_log (log w ++ [(INFO, "Post rescheduled")]) w1))
    /\ row post_id rows = Some post1
    /\ status post1
       = (if ScheduleStatus_eqb (status post) SCHEDULED then PENDING_SYNC
          else status post)
    /\ timezone post1 = (if truthy tz then unwrap tz else timezone post)
    /\ scheduled_for post1 = new_time
    /\ late_post_id post1 = late_post_id post
    /\ id post1 = id post.
Proof.
  intros Hrow Hpub Hcan.
  pose proof (row_id _ _ Hrow) as Hid.
  destruct (reschedule_run_exact post new_time tz w)
    as (post1 & Hrun & Hst & Htz & Ht & Hl & Hid1).
  exists post1. cbv zeta.
  split; [|split; [|repeat split; assumption]].
  - unfold SchedulerService.reschedule, bind at 1,
      ScheduledPostRepository.get_by_id_with_relations.
    unfold row in Hrow. rewrite Hrow.
    assert (E : ScheduleStatus_eqb (status post) PUBLISHED
                || ScheduleStatus_eqb (status post) CANCELLED = false)
      by (destruct (status post); simpl; congruence).
    rewrite E. unfold bind at 1. rewrite Hrun.
    unfold bind at 1, session_commit at 1.
    cbn [txn set_txn]. rewrite Hl.
    destruct (truthy (late_post_id post)) eqn:Hlid.
    + unfold bind at 1. rewrite update_late_schedule_run, Hl, Hlid.
      reflexivity.
    + reflexivity.
  - subst post_id. rewrite <- Hid1. apply row_replace_row.
    rewrite Hid1, Hrow. discriminate.
Qed.

(** ** C4: rescheduling a scheduled post that has a remote identifier *)

(** C4 (reschedule after schedule), on the code.  Rescheduling a
    [SCHEDULED] post that has a remote identifier demotes the post to
    [PENDING_SYNC] with the new time, commits that, and leaves
    [late_post_id] as it was; but the update of the remote schedule never
    reaches the remote service: [update_post] raises [TypeError] while
    the request body, which carries [scheduled_for] as a [datetime], is
    encoded (without an API key the client cannot be built, which raises
    [LateApiError]).  No request is sent, [reschedule] raises to its
    caller and logs nothing, and the post stays [PENDING_SYNC]. *)
Theorem reschedule_never_reaches_remote_service :
  forall (post_id : UUID) (post : ScheduledPost) (new_time : datetime)
         (tz : option string) (w : World),
    row post_id (txn w) = Some post ->
    status post = SCHEDULED ->
    truthy (late_post_id post) = true ->
    exists post' w',
      SchedulerService.reschedule post_id new_time tz w
      = (Raise (if truthy (LATER_DEV_API_KEY w) then TypeError
                else LateApiError "Late API key not configured"), w')
      /\ row post_id (txn w') = Some post'
      /\ committed w' = txn w'
      /\ status post' = PENDING_SYNC
      /\ scheduled_for post' = new_time
      /\ late_post_id post' = late_post_id post
      /\ late_calls w' = late_calls w
      /\ log w' = log w.
Proof.
  intros post_id post new_time tz w Hrow Hst Hlid.
  assert (Hpub : status post <> PUBLISHED) by congruence.
  assert (Hcan : status post <> CANCELLED) by congruence.
  destruct (@reschedule_service_run post_id post new_time tz w Hrow Hpub Hcan)
    as (post1 & Hrun & Hrow1 & Hst1 & _ & Ht & Hl & _).
  cbv zeta in Hrun. rewrite Hlid in Hrun. rewrite Hst in Hst1.
  exists post1. eexists. split; [exact Hrun|].
  repeat split; assumption.
Qed.

(** C4, a run: [scheduled_post] has the remote identifier ["ext-1"]; the
    remote service would accept an update. *)
Lemma reschedule_never_reaches_remote_service_witness :
  exists post' w',
    SchedulerService.reschedule 100 99%Z None scheduled_world
    = (Raise TypeError, w')
    /\ row 100 (txn w') = Some post'
    /\ committed w' = txn w'
    /\ status post' = PENDING_SYNC
    /\ scheduled_for post' = 99%Z
    /\ late_post_id post' = Some "ext-1"
    /\ late_calls w' = late_calls scheduled_world
    /\ log w' = log scheduled_world.
Proof.
  exact (@reschedule_never_reaches_remote_service 100 scheduled_post 99%Z None
           scheduled_world eq_refl eq_refl eq_refl).
Defined.

(** ** C8: rescheduling a failed post *)

(** C8, counterexample.  A [FAILED] post is rescheduled: the call
    succeeds and the post is still [FAILED]; the sweep that follows
    selects nothing. *)
Lemma reschedule_keeps_failed_post_failed :
  let r := SchedulerService.reschedule 100 99%Z None failed_world in
  status failed_post = FAILED
  /\ (exists post', fst r = Ok post' /\ status post' = FAILED
                    /\ scheduled_for post' = 99%Z)
  /\ option_map status (row 100 (committed (snd r))) = Some FAILED
  /\ fst (ScheduledPostRepository.get_pending_sync (snd r)) = Ok [].
Proof.
  vm_compute. repeat split. eexists. repeat split.
Qed.

(** C8, as the code has it.  Rescheduling a [FAILED] post does not return
    it to [PENDING_SYNC]: the repository's [reschedule] demotes only
    [SCHEDULED] posts and leaves a [FAILED] post [FAILED].  Through the
    service the post gets the new time, this is committed, and the post
    stays [FAILED], so the sweep does not select it.  Without a remote
    identifier the call returns the post; with one, the update of the
    remote schedule raises before a request is sent, and [reschedule]
    raises to its caller. *)
Theorem reschedule_failed_post_never_pending :
  forall (post_id : UUID) (post : ScheduledPost) (new_time : datetime)
         (tz : option string) (w : World),
    row post_id (txn w) = Some post ->
    status post = FAILED ->
    (exists post1,
       fst (ScheduledPostRepository.reschedule post new_time tz w) = Ok post1
       /\ status post1 = FAILED)
    /\ let r := SchedulerService.reschedule post_id new_time tz w in
       exists post',
         row post_id (txn (snd r)) = Some post'
         /\ committed (snd r) = txn (snd r)
         /\ scheduled_for post' = new_time
         /\ status post' = FAILED
         /\ late_calls (snd r) = late_calls w
         /\ fst r
            = (if truthy (late_post_id post)
               then Raise (if truthy (LATER_DEV_API_KEY w) then TypeError
                           else LateApiError "Late API key not configured")
               else Ok post')
         /\ ~ In post' (pending_rows (snd r)).
Proof.
  intros post_id post new_time tz w Hrow Hst.
  assert (Hpub : status post <> PUBLISHED) by congruence.
  assert (Hcan : status post <> CANCELLED) by congruence.
  split.
  - destruct (reschedule_run_exact post new_time tz w)
      as (post1 & Hrun & Hst1 & _).
    exists post1. rewrite Hrun. split; [reflexivity|].
    now rewrite Hst1, Hst.
  - destruct (@reschedule_service_run post_id post new_time tz w Hrow Hpub
                Hcan)
      as (post1 & Hrun & Hrow1 & Hst1 & _ & Ht & _).
    cbv zeta in *. rewrite Hst in Hst1. simpl in Hst1.
    exists post1.
    assert (Hnot : forall rows, ~ In post1
                     (filter (fun p => ScheduleStatus_eqb (status p)
                                         PENDING_SYNC) rows)).
    { intros rows H. apply filter_In in H. destruct H as (_ & H).
      rewrite Hst1 in H. discriminate H. }
    rewrite Hrun.
    destruct (truthy (late_post_id post)); cbn [fst snd];
      repeat split; try assumption; apply Hnot.
Qed.

(** C8, a run: [failed_post] has no remote identifier. *)
Lemma reschedule_failed_post_never_pending_witness :
  (exists post1,
     fst (ScheduledPostRepository.reschedule failed_post 99%Z None
            failed_world) = Ok post1
     /\ status post1 = FAILED)
  /\ let r := SchedulerService.reschedule 100 99%Z None failed_world in
     exists post',
       row 100 (txn (snd r)) = Some post'
       /\ committed (snd r) = txn (snd r)
       /\ scheduled_for post' = 99%Z
       /\ status post' = FAILED
       /\ late_calls (snd r) = late_calls failed_world
       /\ fst r = Ok post'
       /\ ~ In post' (pending_rows (snd r)).
Proof.
  exact (@reschedule_failed_post_never_pending 100 failed_post 99%Z None
           failed_world eq_refl eq_refl).
Defined.

(** ** Creating a batch: [schedule_multi] *)

Lemma In_replace_row_other (p post : ScheduledPost)
    (rows : list ScheduledPost) :
  In p rows -> id p <> id post -> In p (replace_row post rows).
Proof.
  induction rows as [|r rows IH]; simpl; [tauto|].
  intros [->|Hin] Hne.
  - destruct (Nat.eqb (id p) (id post)) eqn:E.
    + apply Nat.eqb_eq in E. contradiction.
    + now left.
  - destruct (Nat.eqb (id r) (id post)); right; now apply IH.
Qed.

Lemma In_replace_row_same (r post : ScheduledPost)
    (rows : list ScheduledPost) :
  In r rows -> id r = id post -> In post (replace_row post rows).
Proof.
  induction rows as [|q rows IH]; simpl; [tauto|].
  intros [->|Hin] Heq.
  - rewrite Heq, Nat.eqb_refl. now left.
  - destruct (Nat.eqb (id q) (id post)); [now left | right; now apply IH].
Qed.

Section Batch.

Variables (content_id : UUID) (batch : string) (tz : string)
          (sync_immediately : bool).

(** The first loop over a prefix of valid entries: it creates one post
    per entry, flushes them into the session and goes on with the rest;
    nothing is committed, nothing is sent. *)
Lemma schedule_multi_create_prefix (oks : list ScheduleAccountConfig.t) :
  forall (rest : list ScheduleAccountConfig.t) (posts : list ScheduledPost)
         (w : World),
    forallb (account_ok w) oks = true ->
    exists created w',
      SchedulerService.schedule_multi_create content_id batch tz
        sync_immediately (oks ++ rest) posts w
      = SchedulerService.schedule_multi_create content_id batch tz
          sync_immediately rest (posts ++ created) w'
      /\ Forall (batch_member content_id batch sync_immediately) created
      /\ map connected_account_id created
         = map ScheduleAccountConfig.connected_account_id oks
      /\ Forall (fun p => In p (txn w') /\ next_uuid w <= id p < next_uuid w')
           created
      /\ (forall p, In p (txn w) -> id p < next_uuid w -> In p (txn w'))
      /\ next_uuid w <= next_uuid w'
      /\ List.length (txn w') = List.length (txn w) + List.length oks
      /\ committed w' = committed w
      /\ late_calls w' = late_calls w
      /\ log w' = log w
      /\ same_env w w'.
Proof.
  induction oks as [|schedule oks IH]; intros rest posts w Hok.
  - exists [], w. rewrite app_nil_r. simpl.
    repeat split; auto using same_env_refl.
  - simpl in Hok. apply andb_true_iff in Hok. destruct Hok as [Hs Hoks].
    unfold account_ok in Hs.
    destruct (find (fun a => Nat.eqb (ConnectedAccount.id a)
                       (ScheduleAccountConfig.connected_account_id schedule))
                (accounts w)) as [account|] eqn:Hacc; [|discriminate].
    set (post0 :=
           mkScheduledPost (next_uuid w) (now w) content_id
             (ScheduleAccountConfig.connected_account_id schedule)
             (ConnectedAccount.platform account)
             (ScheduleAccountConfig.scheduled_for schedule) tz DRAFT None
             MULTI_PLATFORM (Some batch) None None None None None None 0%Z
             (ScheduleAccountConfig.platform_specific_config schedule)).
    set (w1 := set_next_uuid (S (next_uuid w))
                 (set_txn (txn w ++ [post0]) w)).
    destruct (update_status_run
                (if sync_immediately then PENDING_SYNC else DRAFT)
                None None None None None post0 w1)
      as (post1 & Hrun & Hst & Hid & _ & Hci & Hai & Hmode & Hb & _ & Hl & _).
    set (w2 := set_txn (replace_row post1 (txn w1)) w1) in *.
    assert (Hok2 : forallb (account_ok w2) oks = true) by exact Hoks.
    destruct (IH rest (posts ++ [post1]) w2 Hok2)
      as (created & w' & Hloop & Hmem & Hacc' & Hin & Hkeep & Hnext
          & Hlen & Hcom & Hcalls & Hlog & Henv).
    exists (post1 :: created), w'.
    split; [|split; [|split; [|split; [|split; [|split; [|split]]]]]].
    + simpl. unfold bind at 1, ConnectedAccountRepository.get_by_id.
      rewrite Hacc. rewrite Hs. cbn [negb]. cbv beta iota.
      unfold bind at 1, ScheduledPostRepository.create, session_add.
      fold post0. fold w1. unfold bind at 1. rewrite Hrun. fold w2.
      rewrite Hloop. now rewrite <- app_assoc.
    + constructor; [|exact Hmem].
      unfold batch_member. rewrite Hst, Hmode, Hb, Hci, Hl.
      repeat split.
    + simpl. now rewrite Hacc', Hai.
    + constructor.
      * split.
        -- apply Hkeep.
           ++ unfold w2. cbn [txn set_txn].
              apply In_replace_row_same with (r := post0);
                [|now rewrite Hid].
              unfold w1. cbn [txn set_txn set_next_uuid].
              apply in_or_app. right. now left.
           ++ rewrite Hid. simpl. lia.
        -- rewrite Hid. simpl. simpl in Hnext. lia.
      * eapply Forall_impl; [|exact Hin].
        intros p (Hp & Hlo & Hhi). split; [exact Hp|].
        simpl in Hlo. lia.
    + intros p Hp Hlt. apply Hkeep.
      * unfold w2. cbn [txn set_txn].
        apply In_replace_row_other.
        -- unfold w1. cbn [txn set_txn set_next_uuid].
           apply in_or_app. now left.
        -- rewrite Hid. simpl. lia.
      * simpl. lia.
    + simpl in Hnext. lia.
    + rewrite Hlen. unfold w2. cbn [txn set_txn].
      rewrite length_replace_row. unfold w1. cbn [txn set_txn set_next_uuid].
      rewrite length_app. simpl. lia.
    + split; [now rewrite Hcom|]. split; [now rewrite Hcalls|].
      split; [now rewrite Hlog|].
      eapply same_env_trans; [|exact Henv]. repeat split.
Qed.

(** The first loop stops at the first entry whose account is missing or
    inactive, with a [ValueError]. *)
Lemma schedule_multi_create_stops (bad : ScheduleAccountConfig.t)
    (rest : list ScheduleAccountConfig.t) (posts : list ScheduledPost)
    (w : World) :
  account_ok w bad = false ->
  exists msg,
    SchedulerService.schedule_multi_create content_id batch tz
      sync_immediately (bad :: rest) posts w
    = (Raise (ValueError msg), w).
Proof.
  unfold account_ok. intro Hbad. simpl.
  unfold bind at 1, ConnectedAccountRepository.get_by_id.
  destruct (find (fun a => Nat.eqb (ConnectedAccount.id a)
                     (ScheduleAccountConfig.connected_account_id bad))
              (accounts w)) as [account|].
  - rewrite Hbad. eexists. reflexivity.
  - eexists. reflexivity.
Qed.

End Batch.

(** ** C5: a batch with an invalid later account *)

(** C5, counterexample.  The second account of the batch is inactive:
    [schedule_multi] raises before its commit.  The post created for the
    first account was flushed into the session (one uncommitted row), but
    no row is committed: the table holds no partial batch. *)
Lemma partial_batch_is_not_committed :
  let r := SchedulerService.schedule_multi 10 [entry 1 50%Z; entry 3 60%Z]
             "UTC" true empty_world in
  fst r = Raise (ValueError "Account reddit is not active")
  /\ List.length (txn (snd r)) = 1
  /\ committed (snd r) = []
  /\ late_calls (snd r) = [].
Proof. vm_compute. repeat split. Qed.

(** C5, as the code has it.  When the content exists, the accounts of
    the first entries are valid and a later account is missing or
    inactive, [schedule_multi] raises [ValueError] before its one commit:
    the posts created for the earlier accounts have been flushed into
    the open transaction of the session, one row each, but the committed
    rows are as before the call, and nothing is sent to the remote
    service.  [schedule_multi] neither commits nor rolls back this
    transaction. *)
Theorem schedule_multi_failure_commits_nothing :
  forall (content_id : UUID) (oks : list ScheduleAccountConfig.t)
         (bad : ScheduleAccountConfig.t) (rest : list ScheduleAccountConfig.t)
         (tz : string) (sync_immediately : bool) (w : World),
    (exists c, fst (ContentLibraryRepository.get_by_id_with_media
                      content_id w) = Ok (Some c)) ->
    forallb (account_ok w) oks = true ->
    account_ok w bad = false ->
    let r := SchedulerService.schedule_multi content_id (oks ++ bad :: rest)
               tz sync_immediately w in
    (exists msg, fst r = Raise (ValueError msg))
    /\ committed (snd r) = committed w
    /\ late_calls (snd r) = late_calls w
    /\ List.length (txn (snd r)) = List.length (txn w) + List.length oks
    /\ exists created,
         map connected_account_id created
         = map ScheduleAccountConfig.connected_account_id oks
         /\ Forall (fun p => In p (txn (snd r))
                             /\ content_library_item_id p = content_id)
              created.
Proof.
  intros content_id oks bad rest tz sync_immediately w [c Hc] Hoks Hbad.
  unfold ContentLibraryRepository.get_by_id_with_media in Hc.
  simpl in Hc. injection Hc as Hc.
  set (w0 := set_next_uuid (S (next_uuid w)) w).
  destruct (schedule_multi_create_prefix content_id
              (str_UUID (next_uuid w)) tz sync_immediately oks
              (bad :: rest) [] w0 Hoks)
    as (created & w' & Hloop & Hmem & Hacc & Hin & _ & _ & Hlen & Hcom
        & Hcalls & _ & Henv).
  assert (Hbad' : account_ok w' bad = false).
  { unfold account_ok in *. destruct Henv as (A & _).
    rewrite A. exact Hbad. }
  destruct (@schedule_multi_create_stops content_id (str_UUID (next_uuid w))
              tz sync_immediately bad rest ([] ++ created) w' Hbad')
    as (msg & Hstop).
  assert (Hrun :
    SchedulerService.schedule_multi content_id (oks ++ bad :: rest) tz
      sync_immediately w = (Raise (ValueError msg), w')).
  { unfold SchedulerService.schedule_multi, bind at 1,
      ContentLibraryRepository.get_by_id_with_media.
    rewrite Hc. unfold bind at 1, uuid4. fold w0.
    unfold bind at 1. rewrite Hloop, Hstop. reflexivity. }
  cbv zeta. rewrite Hrun. cbn [fst snd].
  split; [now exists msg|]. split; [exact Hcom|]. split; [exact Hcalls|].
  split; [exact Hlen|].
  exists created. split; [exact Hacc|].
  rewrite Forall_forall in *. intros p Hp. split.
  - now apply Hin.
  - now apply Hmem.
Qed.

Lemma schedule_multi_failure_commits_nothing_witness :
  let r := SchedulerService.schedule_multi 10
             ([entry 1 50%Z] ++ entry 3 60%Z :: [entry 2 70%Z])
             "UTC" true empty_world in
  (exists msg, fst r = Raise (ValueError msg))
  /\ committed (snd r) = committed empty_world
  /\ late_calls (snd r) = late_calls empty_world
  /\ List.length (txn (snd r))
     = List.length (txn empty_world) + List.length [entry 1 50%Z]
  /\ exists created,
       map connected_account_id created
       = map ScheduleAccountConfig.connected_account_id [entry 1 50%Z]
       /\ Forall (fun p => In p (txn (snd r))
                           /\ content_library_item_id p = 10)
            created.
Proof.
  exact (@schedule_multi_failure_commits_nothing 10 [entry 1 50%Z]
           (entry 3 60%Z) [entry 2 70%Z] "UTC" true empty_world
           (ex_intro _ sample_content eq_refl) eq_refl eq_refl).
Defined.

(** ** C9: the batch columns *)

(** Flushing a row that was just added, in a table with fresh keys,
    changes that row only. *)
Lemma replace_row_app_last (post q : ScheduledPost)
    (rows : list ScheduledPost) :
  Forall (fun r => id r < id post) rows ->
  id q = id post ->
  replace_row post (rows ++ [q]) = rows ++ [post].
Proof.
  intros Hfresh Hq.
  induction Hfresh as [|r rows Hr _ IH]; simpl.
  - now rewrite Hq, Nat.eqb_refl.
  - assert (E : Nat.eqb (id r) (id post) = false)
      by (apply Nat.eqb_neq; lia).
    now rewrite E, IH.
Qed.

(** The first half of [schedule_single]: the row is created, set to its
    first status and committed. *)
Lemma schedule_single_creates (content_id account_id : UUID)
    (at_time : datetime) (tz : string) (config : option Config)
    (sync_immediately : bool) (w : World) (account : ConnectedAccount.t)
    (content : ContentLibraryItem.t) :
  account_of w account_id = Some account ->
  ConnectedAccount.is_active account = true ->
  content_of w content_id = Some content ->
  exists post1 w3,
    SchedulerService.schedule_single content_id account_id at_time tz config
      sync_immediately w
    = (post <- (if sync_immediately
                then SchedulerService._sync_to_late post1
                else ret post1) ;;
       logger INFO "Single post scheduled" ;;;
       ret (SchedulerService.post_to_dict post)) w3
    /\ post1
       = mkScheduledPost (next_uuid w) (now w) content_id account_id
           (ConnectedAccount.platform account) at_time tz
           (if sync_immediately then PENDING_SYNC else DRAFT) None
           SINGLE_PLATFORM None None None None None None None 0%Z config
    /\ row (next_uuid w) (txn w3) = Some post1
    /\ committed w3 = txn w3
    /\ late_calls w3 = late_calls w
    /\ log w3 = log w
    /\ same_env w w3
    /\ (fresh_keys w -> txn w3 = txn w ++ [post1]).
Proof.
  unfold account_of, content_of. intros Ha Hact Hc.
  set (post0 :=
         mkScheduledPost (next_uuid w) (now w) content_id account_id
           (ConnectedAccount.platform account) at_time tz DRAFT None
           SINGLE_PLATFORM None None None None None None None 0%Z config).
  set (post1 :=
         mkScheduledPost (next_uuid w) (now w) content_id account_id
           (ConnectedAccount.platform account) at_time tz
           (if sync_immediately then PENDING_SYNC else DRAFT) None
           SINGLE_PLATFORM None None None None None None None 0%Z config).
  exists post1,
    (set_committed (replace_row post1 (txn w ++ [post0]))
       (set_txn (replace_row post1 (txn w ++ [post0]))
          (set_next_uuid (S (next_uuid w)) (set_txn (txn w ++ [post0]) w)))).
  split; [|split; [reflexivity|]].
  - unfold SchedulerService.schedule_single, bind at 1,
      ConnectedAccountRepository.get_by_id.
    rewrite Ha, Hact. cbn [negb]. cbv beta iota.
    unfold bind at 1, ContentLibraryRepository.get_by_id_with_media.
    rewrite Hc.
    unfold bind at 1, ScheduledPostRepository.create, session_add.
    unfold bind at 1, ScheduledPostRepository.update_status, bind at 1,
      datetime_now, session_flush.
    unfold bind at 1, session_commit at 1.
    subst post0 post1. destruct sync_immediately; reflexivity.
  - cbn [txn committed late_calls log set_committed set_txn set_next_uuid].
    split; [|split; [reflexivity|split; [reflexivity|split;
      [reflexivity|split; [repeat split|]]]]].
    + change (next_uuid w) with (id post1) at 1.
      apply row_replace_row. rewrite row_app. cbn [id post0 post1].
      rewrite Nat.eqb_refl. now destruct (row (next_uuid w) (txn w)).
    + intro Hfresh. apply replace_row_app_last; [exact Hfresh|reflexivity].
Qed.

(** The rows [schedule_single] adds to the session, whatever its
    outcome. *)
Lemma schedule_single_rows (content_id account_id : UUID)
    (at_time : datetime) (tz : string) (config : option Config)
    (sync_immediately : bool) (w : World) :
  fresh_keys w ->
  exists created,
    txn (snd (SchedulerService.schedule_single content_id account_id at_time
                tz config sync_immediately w))
    = txn w ++ created
    /\ List.length created
       = match account_of w account_id, content_of w content_id with
         | Some account, Some _ =>
             if ConnectedAccount.is_active account then 1 else 0
         | _, _ => 0
         end
    /\ Forall (fun p => batch_id p = None
                        /\ schedule_mode p = SINGLE_PLATFORM) created.
Proof.
  intro Hfresh.
  destruct (account_of w account_id) as [account|] eqn:Ha.
  - destruct (ConnectedAccount.is_active account) eqn:Hact.
    + destruct (content_of w content_id) as [content|] eqn:Hc.
      * destruct (@schedule_single_creates content_id account_id at_time tz
                    config sync_immediately w account content Ha Hact Hc)
          as (post1 & w3 & Hrun & Hpost1 & _ & _ & _ & _ & _ & Htxn).
        exists [post1]. rewrite Hrun. split; [|split].
        -- rewrite <- (Htxn Hfresh). unfold bind at 1.
           destruct sync_immediately.
           ++ now rewrite sync_to_late_run.
           ++ reflexivity.
        -- reflexivity.
        -- constructor; [|constructor]. now rewrite Hpost1.
      * exists []. rewrite app_nil_r. split;
        [|split; [simpl; try destruct (content_of w content_id); reflexivity
                 |constructor]].
        unfold SchedulerService.schedule_single, bind at 1,
          ConnectedAccountRepository.get_by_id.
        unfold account_of in Ha. rewrite Ha, Hact. cbn [negb]. cbv beta iota.
        unfold bind at 1, ContentLibraryRepository.get_by_id_with_media.
        unfold content_of in Hc. now rewrite Hc.
    + exists []. rewrite app_nil_r. split;
        [|split; [simpl; try destruct (content_of w content_id); reflexivity
                 |constructor]].
      unfold SchedulerService.schedule_single, bind at 1,
        ConnectedAccountRepository.get_by_id.
      unfold account_of in Ha. now rewrite Ha, Hact.
  - exists []. rewrite app_nil_r. split;
        [|split; [simpl; try destruct (content_of w content_id); reflexivity
                 |constructor]].
    unfold SchedulerService.schedule_single, bind at 1,
      ConnectedAccountRepository.get_by_id.
    unfold account_of in Ha. now rewrite Ha.
Qed.

(** The second loop of [schedule_multi] stops at its first post. *)
Lemma schedule_multi_sync_run (posts : list ScheduledPost) (w : World) :
  SchedulerService.schedule_multi_sync posts w
  = match posts with
    | [] => (Ok [], w)
    | post :: _ => (Raise (push_error w post), w)
    end.
Proof.
  destruct posts as [|post posts]; [reflexivity|].
  cbn [SchedulerService.schedule_multi_sync]. unfold bind at 1.
  now rewrite sync_to_late_run.
Qed.

Section BatchRows.

Variables (content_id : UUID) (batch : string) (tz : string)
          (sync_immediately : bool).

(** The first loop of [schedule_multi] over any list: it adds one row per
    entry up to the first entry it refuses. *)
Lemma schedule_multi_create_rows (schedules : list ScheduleAccountConfig.t) :
  forall (posts : list ScheduledPost) (w : World),
    fresh_keys w ->
    exists created r w',
      SchedulerService.schedule_multi_create content_id batch tz
        sync_immediately schedules posts w = (r, w')
      /\ txn w' = txn w ++ created
      /\ Forall (batch_member content_id batch sync_immediately) created
      /\ map connected_account_id created
         = firstn (List.length created)
             (map ScheduleAccountConfig.connected_account_id schedules)
      /\ committed w' = committed w
      /\ ((r = Ok (posts ++ created)
           /\ List.length created = List.length schedules)
          \/ exists msg, r = Raise (ValueError msg))
      /\ (forallb (account_ok w) schedules = true ->
          r = Ok (posts ++ created))
      /\ late_calls w' = late_calls w
      /\ same_env w w'.
Proof.
  induction schedules as [|schedule schedules IH]; intros posts w Hfresh.
  - exists [], (Ok posts), w. rewrite !app_nil_r.
    repeat split; auto using same_env_refl.
  - destruct (find (fun a => Nat.eqb (ConnectedAccount.id a)
                       (ScheduleAccountConfig.connected_account_id schedule))
                (accounts w)) as [account|] eqn:Hacc.
    + destruct (ConnectedAccount.is_active account) eqn:Hact.
      * set (post0 :=
               mkScheduledPost (next_uuid w) (now w) content_id
                 (ScheduleAccountConfig.connected_account_id schedule)
                 (ConnectedAccount.platform account)
                 (ScheduleAccountConfig.scheduled_for schedule) tz DRAFT None
                 MULTI_PLATFORM (Some batch) None None None None None None 0%Z
                 (ScheduleAccountConfig.platform_specific_config schedule)).
        set (w1 := set_next_uuid (S (next_uuid w))
                     (set_txn (txn w ++ [post0]) w)).
        destruct (update_status_run
                    (if sync_immediately then PENDING_SYNC else DRAFT)
                    None None None None None post0 w1)
          as (post1 & Hrun & Hst & Hid & _ & Hci & Hai & Hmode & Hb & _ & Hl
              & _).
        set (w2 := set_txn (replace_row post1 (txn w1)) w1) in *.
        assert (Htxn2 : txn w2 = txn w ++ [post1]).
        { unfold w2, w1. cbn [txn set_txn set_next_uuid].
          apply replace_row_app_last; [|now rewrite Hid].
          rewrite Hid. exact Hfresh. }
        assert (Hfresh2 : fresh_keys w2).
        { unfold fresh_keys. rewrite Htxn2.
          apply Forall_app. split.
          - eapply Forall_impl; [|exact Hfresh].
            intros r Hr. simpl in *. lia.
          - constructor; [|constructor]. rewrite Hid. simpl. lia. }
        destruct (IH (posts ++ [post1]) w2 Hfresh2)
          as (created & r & w' & Hloop & Htxn & Hmem & Hmap & Hcom & Hres
              & Hall & Hcalls & Henv).
        exists (post1 :: created), r, w'.
        split; [|split; [|split; [|split; [|split; [|split; [|split]]]]]].
        -- cbn [SchedulerService.schedule_multi_create].
           unfold bind at 1, ConnectedAccountRepository.get_by_id.
           rewrite Hacc, Hact. cbn [negb]. cbv beta iota.
           unfold bind at 1, ScheduledPostRepository.create, session_add.
           fold post0. fold w1. unfold bind at 1. rewrite Hrun. fold w2.
           exact Hloop.
        -- rewrite Htxn, Htxn2. now rewrite <- app_assoc.
        -- constructor; [|exact Hmem].
           unfold batch_member. rewrite Hst, Hmode, Hb, Hci, Hl.
           repeat split.
        -- simpl. now rewrite Hmap, Hai.
        -- exact Hcom.
        -- destruct Hres as [(-> & Hlen) | (msg & ->)].
           ++ left. rewrite <- app_assoc. simpl. split; [reflexivity|lia].
           ++ right. now exists msg.
        -- intro Hok. simpl in Hok. apply andb_true_iff in Hok.
           destruct Hok as (_ & Hok). rewrite (Hall Hok).
           now rewrite <- app_assoc.
        -- split; [exact Hcalls|].
           eapply same_env_trans; [|exact Henv]. repeat split.
      * exists [], (Raise (ValueError
                             ("Account "
                              ++ PlatformType_value
                                   (ConnectedAccount.platform account)
                              ++ " is not active"))), w.
        rewrite app_nil_r.
        split; [|split; [reflexivity|split; [constructor|split;
          [reflexivity|split; [reflexivity|split; [|split]]]]]].
        -- cbn [SchedulerService.schedule_multi_create].
           unfold bind at 1, ConnectedAccountRepository.get_by_id.
           now rewrite Hacc, Hact.
        -- right. now eexists.
        -- intro Hok. simpl in Hok. unfold account_ok at 1 in Hok.
           rewrite Hacc, Hact in Hok. discriminate Hok.
        -- split; [reflexivity|apply same_env_refl].
    + exists [], (Raise (ValueError
                           ("Account "
                            ++ str_UUID (ScheduleAccountConfig.connected_account_id
                                           schedule)
                            ++ " not found"))), w.
      rewrite app_nil_r.
      split; [|split; [reflexivity|split; [constructor|split;
        [reflexivity|split; [reflexivity|split; [|split]]]]]].
      * cbn [SchedulerService.schedule_multi_create].
        unfold bind at 1, ConnectedAccountRepository.get_by_id.
        now rewrite Hacc.
      * right. now eexists.
      * intro Hok. simpl in Hok. unfold account_ok at 1 in Hok.
        rewrite Hacc in Hok. discriminate Hok.
      * split; [reflexivity|apply same_env_refl].
Qed.

End BatchRows.

(** The rows [schedule_multi] adds to the session, whatever its
    outcome. *)
Lemma schedule_multi_rows (content_id : UUID)
    (schedules : list ScheduleAccountConfig.t) (tz : string)
    (sync_immediately : bool) (w : World) :
  fresh_keys w ->
  exists created,
    txn (snd (SchedulerService.schedule_multi content_id schedules tz
                sync_immediately w))
    = txn w ++ created
    /\ Forall (batch_member content_id (str_UUID (next_uuid w))
                 sync_immediately) created
    /\ map connected_account_id created
       = firstn (List.length created)
           (map ScheduleAccountConfig.connected_account_id schedules)
    /\ (content_of w content_id <> None ->
        forallb (account_ok w) schedules = true ->
        List.length created = List.length schedules
        /\ committed (snd (SchedulerService.schedule_multi content_id
                             schedules tz sync_immediately w))
           = txn w ++ created).
Proof.
  intro Hfresh.
  destruct (content_of w content_id) as [content|] eqn:Hc.
  - set (w0 := set_next_uuid (S (next_uuid w)) w).
    assert (Hfresh0 : fresh_keys w0).
    { unfold fresh_keys, w0. cbn [txn next_uuid set_next_uuid].
      eapply Forall_impl; [|exact Hfresh]. intros r Hr. simpl in Hr. lia. }
    destruct (@schedule_multi_create_rows content_id (str_UUID (next_uuid w))
                tz sync_immediately schedules [] w0 Hfresh0)
      as (created & r & w' & Hloop & Htxn & Hmem & Hmap & Hcom & Hres & Hall
          & _ & _).
    assert (Hstart :
      SchedulerService.schedule_multi content_id schedules tz
        sync_immediately w
      = (posts <- SchedulerService.schedule_multi_create content_id
                    (str_UUID (next_uuid w)) tz sync_immediately schedules [] ;;
         session_commit ;;;
         posts <- (if sync_immediately
                   then SchedulerService.schedule_multi_sync posts
                   else ret posts) ;;
         logger INFO "Multi-platform posts scheduled" ;;;
         ret (str_UUID (next_uuid w), map SchedulerService.post_to_dict posts))
          w0).
    { unfold SchedulerService.schedule_multi, bind at 1,
        ContentLibraryRepository.get_by_id_with_media.
      unfold content_of in Hc. rewrite Hc. reflexivity. }
    assert (Hend :
      exists res wf,
        SchedulerService.schedule_multi content_id schedules tz
          sync_immediately w = (res, wf)
        /\ ((r = Ok created /\ txn wf = txn w' /\ committed wf = txn w')
            \/ ((exists msg, r = Raise (ValueError msg)) /\ wf = w'))).
    { rewrite Hstart. unfold bind at 1. rewrite Hloop.
      destruct Hres as [(-> & _) | (msg & ->)].
      - unfold bind at 1, session_commit at 1. unfold bind at 1.
        destruct sync_immediately.
        + rewrite schedule_multi_sync_run. cbn [app].
          destruct created; do 2 eexists;
            (split; [reflexivity|]); left; repeat split.
        + do 2 eexists. split; [reflexivity|]. left. repeat split.
      - do 2 eexists. split; [reflexivity|]. right.
        split; [now exists msg | reflexivity]. }
    destruct Hend as (res & wf & Hrun & Hend). rewrite Hrun. cbn [snd].
    exists created. split; [|split; [exact Hmem|split; [exact Hmap|]]].
    + destruct Hend as [(_ & -> & _) | (_ & ->)]; exact Htxn.
    + intros _ Hok. specialize (Hall Hok). subst r.
      destruct Hres as [(_ & Hlen) | (msg & Hr)]; [|discriminate Hr].
      split; [exact Hlen|].
      destruct Hend as [(_ & _ & ->) | ((msg & Hr) & _)];
        [exact Htxn | discriminate Hr].
  - exists []. rewrite app_nil_r.
    split; [|split; [constructor|split; [reflexivity|]]].
    + unfold SchedulerService.schedule_multi, bind at 1,
        ContentLibraryRepository.get_by_id_with_media.
      unfold content_of in Hc. now rewrite Hc.
    + intros H. now destruct H.
Qed.

(** C9, counterexample.  One [schedule_multi] call whose list names the
    same account twice creates two posts that share the batch identifier
    and the account: the accounts of a batch are not pairwise distinct. *)
Lemma batch_with_repeated_account :
  let r := SchedulerService.schedule_multi 10 repeated_account_batch "UTC"
             false empty_world in
  exists b p1 p2,
    fst r = Ok (b, [p1; p2])
    /\ batch_id p1 = Some b /\ batch_id p2 = Some b
    /\ id p1 <> id p2
    /\ connected_account_id p1 = connected_account_id p2
    /\ ~ NoDup (map connected_account_id [p1; p2])
    /\ committed (snd r) = [p1; p2].
Proof.
  vm_compute. do 3 eexists. split; [reflexivity|].
  repeat split; try discriminate.
  intro H. inversion H as [|? ? Hnot]; subst. apply Hnot. now left.
Qed.

(** C9, as the code has it.  In a session whose primary keys are fresh,
    the rows a call adds to the session are a suffix of its table,
    whatever the outcome of the call (a call that raises after it
    created rows leaves them there).  [schedule_single] adds one row when
    the account exists and is active and the content exists, and none
    otherwise; the row has no [batch_id] and mode [SINGLE_PLATFORM].  The rows one
    [schedule_multi] call adds all have the batch identifier of that call
    (a fresh token), mode [MULTI_PLATFORM] and the content of the call;
    their accounts are, in order, the accounts of the entries the call
    got to: all of them when the content exists and every account exists
    and is active, and then the whole batch is committed.  The accounts
    of a batch are pairwise distinct exactly when the supplied accounts
    are: nothing removes or rejects a repeated account. *)
Theorem batch_columns :
  forall (w : World) (content_id account_id : UUID) (at_time : datetime)
         (tz : string) (config : option Config) (sync_immediately : bool)
         (v : World) (batch_content_id : UUID)
         (account_schedules : list ScheduleAccountConfig.t)
         (batch_tz : string) (batch_sync : bool),
    fresh_keys w ->
    fresh_keys v ->
    let single := SchedulerService.schedule_single content_id account_id
                    at_time tz config sync_immediately w in
    let multi := SchedulerService.schedule_multi batch_content_id
                   account_schedules batch_tz batch_sync v in
    let supplied := map ScheduleAccountConfig.connected_account_id
                      account_schedules in
    (exists created,
        txn (snd single) = txn w ++ created
        /\ List.length created
           = match account_of w account_id, content_of w content_id with
             | Some account, Some _ =>
                 if ConnectedAccount.is_active account then 1 else 0
             | _, _ => 0
             end
        /\ Forall (fun p => batch_id p = None
                            /\ schedule_mode p = SINGLE_PLATFORM) created)
    /\ (exists created,
          txn (snd multi) = txn v ++ created
          /\ Forall (fun p => batch_id p = Some (str_UUID (next_uuid v))
                              /\ schedule_mode p = MULTI_PLATFORM
                              /\ content_library_item_id p = batch_content_id)
               created
          /\ map connected_account_id created
             = firstn (List.length created) supplied
          /\ (content_of v batch_content_id <> None ->
              forallb (account_ok v) account_schedules = true ->
              map connected_account_id created = supplied
              /\ committed (snd multi) = txn v ++ created
              /\ (NoDup (map connected_account_id created)
                  <-> NoDup supplied))).
Proof.
  intros w content_id account_id at_time tz config sync_immediately v
    batch_content_id account_schedules batch_tz batch_sync Hw Hv.
  cbv zeta. split.
  - now apply schedule_single_rows.
  - destruct (@schedule_multi_rows batch_content_id account_schedules batch_tz
                batch_sync v Hv)
      as (created & Htxn & Hmem & Hmap & Hvalid).
    exists created. split; [exact Htxn|]. split; [|split; [exact Hmap|]].
    + eapply Forall_impl; [|exact Hmem].
      intros p (Hb & Hm & Hc & _). auto.
    + intros Hc Hok. destruct (Hvalid Hc Hok) as (Hlen & Hcom).
      assert (Hall : map connected_account_id created
                     = map ScheduleAccountConfig.connected_account_id
                         account_schedules).
      { rewrite Hmap, Hlen, <- (length_map
                                   ScheduleAccountConfig.connected_account_id).
        apply firstn_all. }
      split; [exact Hall|]. split; [exact Hcom|]. now rewrite Hall.
Qed.

(** C9, a run of each, with immediate synchronisation: both calls raise
    after they committed their rows. *)
Lemma batch_columns_witness :
  let single := SchedulerService.schedule_single 10 1 50%Z "UTC" None true
                  empty_world in
  let multi := SchedulerService.schedule_multi 10
                 [entry 1 50%Z; entry 2 60%Z] "UTC" true empty_world in
  let supplied := map ScheduleAccountConfig.connected_account_id
                    [entry 1 50%Z; entry 2 60%Z] in
  (exists created,
      txn (snd single) = txn empty_world ++ created
      /\ List.length created = 1
      /\ Forall (fun p => batch_id p = None
                          /\ schedule_mode p = SINGLE_PLATFORM) created)
  /\ (exists created,
        txn (snd multi) = txn empty_world ++ created
        /\ Forall (fun p => batch_id p = Some (str_UUID (next_uuid empty_world))
                            /\ schedule_mode p = MULTI_PLATFORM
                            /\ content_library_item_id p = 10)
             created
        /\ map connected_account_id created
           = firstn (List.length created) supplied
        /\ (content_of empty_world 10 <> None ->
            forallb (account_ok empty_world) [entry 1 50%Z; entry 2 60%Z]
            = true ->
            map connected_account_id created = supplied
            /\ committed (snd multi) = txn empty_world ++ created
            /\ (NoDup (map connected_account_id created)
                <-> NoDup supplied))).
Proof.
  refine (@batch_columns empty_world 10 1 50%Z "UTC" None true
            empty_world 10 [entry 1 50%Z; entry 2 60%Z] "UTC" true _ _);
    constructor.
Defined.

(** ** C1: terminal states *)

(** [reschedule] refuses a post that is [PUBLISHED] or [CANCELLED] and
    changes nothing. *)
Lemma reschedule_rejects_terminal (post_id : UUID) (post : ScheduledPost)
    (new_time : datetime) (tz : option string) (w : World) :
  row post_id (txn w) = Some post ->
  status post = PUBLISHED \/ status post = CANCELLED ->
  exists msg,
    SchedulerService.reschedule post_id new_time tz w
    = (Raise (ValueError msg), w).
Proof.
  intros Hrow Hst.
  unfold SchedulerService.reschedule, bind at 1,
    ScheduledPostRepository.get_by_id_with_relations.
  unfold row in Hrow. rewrite Hrow.
  destruct Hst as [-> | ->]; simpl; eexists; reflexivity.
Qed.

(** [cancel] refuses a [PUBLISHED] post and changes nothing. *)
Lemma cancel_rejects_published (post_id : UUID) (post : ScheduledPost)
    (w : World) :
  row post_id (txn w) = Some post ->
  status post = PUBLISHED ->
  SchedulerService.cancel post_id w
  = (Raise (ValueError "Cannot cancel already published post"), w).
Proof.
  intros Hrow Hst.
  unfold SchedulerService.cancel, bind at 1,
    ScheduledPostRepository.get_by_id_with_relations.
  unfold row in Hrow. rewrite Hrow, Hst. reflexivity.
Qed.

(** [publish_now] refuses a [PUBLISHED] post and changes nothing. *)
Lemma publish_now_rejects_published (post_id : UUID) (post : ScheduledPost)
    (w : World) :
  row post_id (txn w) = Some post ->
  status post = PUBLISHED ->
  SchedulerService.publish_now post_id w
  = (Raise (ValueError "Post already published"), w).
Proof.
  intros Hrow Hst.
  unfold SchedulerService.publish_now, bind at 1,
    ScheduledPostRepository.get_by_id_with_relations.
  unfold row in Hrow. rewrite Hrow, Hst. reflexivity.
Qed.

(** [cancel] on a [CANCELLED] post is not refused, and leaves the post
    [CANCELLED] whatever the remote service answers. *)
Lemma cancel_keeps_cancelled (post_id : UUID) (post : ScheduledPost)
    (w : World) :
  row post_id (txn w) = Some post ->
  status post = CANCELLED ->
  exists post',
    row post_id (txn (snd (SchedulerService.cancel post_id w))) = Some post'
    /\ status post' = CANCELLED.
Proof.
  intros Hrow Hst.
  pose proof (row_id _ _ Hrow) as Hid.
  assert (Hset : row post_id (replace_row (set_status CANCELLED post) (txn w))
                 = Some (set_status CANCELLED post)).
  { subst post_id.
    change (id post) with (id (set_status CANCELLED post)) at 1.
    apply row_replace_row. simpl. congruence. }
  unfold SchedulerService.cancel, bind at 1,
    ScheduledPostRepository.get_by_id_with_relations.
  pose proof Hrow as Hrow'. unfold row in Hrow'. rewrite Hrow', Hst.
  cbn [ScheduleStatus_eqb]. cbv beta iota.
  destruct (truthy (late_post_id post)) eqn:Hlid.
  - unfold bind at 1, SchedulerService._delete_from_late.
    rewrite Hlid. cbn [negb]. cbv beta iota.
    unfold bind at 1, LateApiClient.new.
    destruct (truthy (LATER_DEV_API_KEY w)).
    + unfold try_finally, bind at 1, LateApiClient.delete_post, bind at 1,
        LateApiClient._request.
      destruct (late_api w (List.length (late_calls w))
                  (delete_post_call (unwrap (late_post_id post)))).
      * exists (set_status CANCELLED post). split; [exact Hset|reflexivity].
      * exists post. split; [exact Hrow|exact Hst].
    + exists post. split; [exact Hrow|exact Hst].
  - exists (set_status CANCELLED post). split; [exact Hset|reflexivity].
Qed.

(** C1 (terminal immutability), on the code.  [publish_now] refuses only
    [PUBLISHED] posts, so a [CANCELLED] post is not immutable: the call
    sets it to [PUBLISHING] and commits that; when the remote service
    publishes, the post ends [PUBLISHED] with a remote identifier, and
    when it rejects the request, the post ends [FAILED]. *)
Theorem publish_now_changes_cancelled_post :
  let accepted := SchedulerService.publish_now 100
                    (sample_world [cancelled_post] api_publishes) in
  let rejected := SchedulerService.publish_now 100
                    (sample_world [cancelled_post] (api_rejects "rejected")) in
  status cancelled_post = CANCELLED
  /\ (exists post', fst accepted = Ok post' /\ status post' = PUBLISHED
                    /\ late_post_id post' = Some "ext-0")
  /\ option_map status (row 100 (committed (snd accepted))) = Some PUBLISHED
  /\ fst rejected = Raise (LateApiError "rejected")
  /\ option_map status (row 100 (committed (snd rejected))) = Some FAILED.
Proof.
  vm_compute. repeat split. eexists. repeat split.
Qed.

(** * Further properties *)

(** ** [ORDER BY], [LIMIT] and [OFFSET] *)

Section OrderBy.

Variables (A : Type) (leb : A -> A -> bool).

Lemma insert_by_perm (x : A) (rows : list A) :
  Permutation (insert_by leb x rows) (x :: rows).
Proof.
  induction rows as [|y rows IH]; simpl; [apply Permutation_refl|].
  destruct (leb x y); [apply Permutation_refl|].
  eapply perm_trans; [apply perm_skip, IH | apply perm_swap].
Qed.

Lemma order_by_perm (rows : list A) : Permutation (order_by leb rows) rows.
Proof.
  induction rows as [|x rows IH]; simpl; [constructor|].
  eapply perm_trans; [apply insert_by_perm | now apply perm_skip].
Qed.

Lemma order_by_In (x : A) (rows : list A) :
  In x (order_by leb rows) <-> In x rows.
Proof.
  split; apply Permutation_in;
    [apply order_by_perm | apply Permutation_sym, order_by_perm].
Qed.

Lemma order_by_length (rows : list A) :
  List.length (order_by leb rows) = List.length rows.
Proof. apply Permutation_length, order_by_perm. Qed.

Hypothesis leb_total : forall a b, leb a b = false -> leb b a = true.

Lemma insert_by_sorted (x : A) (rows : list A) :
  Sorted (fun a b => leb a b = true) rows ->
  Sorted (fun a b => leb a b = true) (insert_by leb x rows).
Proof.
  induction rows as [|y rows IH]; simpl; intro Hs.
  - repeat constructor.
  - destruct (leb x y) eqn:E.
    + constructor; [assumption|]. now constructor.
    + inversion Hs as [|? ? Hs' Hhd]; subst.
      constructor; [now apply IH|].
      destruct rows as [|z rows]; simpl.
      * constructor. now apply leb_total.
      * destruct (leb x z); constructor;
          [now apply leb_total | now inversion Hhd].
Qed.

Lemma order_by_sorted (rows : list A) :
  Sorted (fun a b => leb a b = true) (order_by leb rows).
Proof.
  induction rows as [|x rows IH]; simpl; [constructor|].
  now apply insert_by_sorted.
Qed.

End OrderBy.

Section Pages.

Variables (A : Type) (R : A -> A -> Prop).

Lemma Sorted_skipn (n : nat) (rows : list A) :
  Sorted R rows -> Sorted R (skipn n rows).
Proof.
  revert rows. induction n as [|n IH]; intros rows Hs; [exact Hs|].
  destruct rows as [|x rows]; [exact Hs|].
  simpl. apply IH. now inversion Hs.
Qed.

Lemma Sorted_firstn (n : nat) (rows : list A) :
  Sorted R rows -> Sorted R (firstn n rows).
Proof.
  revert rows. induction n as [|n IH]; intros rows Hs; [constructor|].
  destruct rows as [|x rows]; [constructor|].
  simpl. inversion Hs as [|? ? Hs' Hhd]; subst.
  constructor; [now apply IH|].
  destruct n, rows; simpl; constructor. now inversion Hhd.
Qed.

Lemma In_firstn (n : nat) (x : A) (rows : list A) :
  In x (firstn n rows) -> In x rows.
Proof.
  intro H. rewrite <- (firstn_skipn n rows). apply in_or_app. now left.
Qed.

Lemma In_skipn (n : nat) (x : A) (rows : list A) :
  In x (skipn n rows) -> In x rows.
Proof.
  intro H. rewrite <- (firstn_skipn n rows). apply in_or_app. now right.
Qed.

(** In a sorted list under a transitive order, what [firstn] keeps comes
    before what it leaves. *)
Lemma firstn_before_rest (n : nat) (rows : list A) :
  (forall a b c, R a b -> R b c -> R a c) ->
  Sorted R rows ->
  forall x y, In x (firstn n rows) -> In y (skipn n rows) -> R x y.
Proof.
  intros Htrans Hs. apply Sorted_StronglySorted in Hs; [|exact Htrans].
  revert rows Hs. induction n as [|n IH]; intros rows Hs x y Hx Hy;
    [contradiction|].
  destruct rows as [|r rows]; [contradiction|].
  simpl in Hx, Hy. inversion Hs as [|? ? Hs' Hall]; subst.
  destruct Hx as [<-|Hx].
  - rewrite Forall_forall in Hall. apply Hall. eapply In_skipn, Hy.
  - now apply (IH rows).
Qed.

End Pages.

Lemma scheduled_for_asc_total (a b : ScheduledPost) :
  scheduled_for_asc a b = false -> scheduled_for_asc b a = true.
Proof. unfold scheduled_for_asc. lia. Qed.

Lemma scheduled_for_asc_sorted (rows : list ScheduledPost) :
  Sorted earlier_or_same (order_by scheduled_for_asc rows).
Proof.
  eapply Sorted_ind with (P := Sorted earlier_or_same);
    [constructor | | apply order_by_sorted, scheduled_for_asc_total].
  intros a l _ IH Hhd. constructor; [exact IH|].
  destruct Hhd; constructor. unfold scheduled_for_asc in *.
  unfold earlier_or_same. lia.
Qed.

Lemma failed_at_desc_total (a b : ScheduledPost) :
  failed_at_desc a b = false -> failed_at_desc b a = true.
Proof.
  unfold failed_at_desc.
  destruct (failed_at a), (failed_at b); try discriminate; try reflexivity.
  lia.
Qed.

Lemma has_status_eq (s : ScheduleStatus) (p : ScheduledPost) :
  has_status s p = true <-> status p = s.
Proof. apply ScheduleStatus_eqb_eq. Qed.

Lemma PlatformType_eqb_eq (a b : PlatformType) :
  PlatformType_eqb a b = true <-> a = b.
Proof.
  split; [|intros ->; unfold PlatformType_eqb; apply String.eqb_refl].
  destruct a, b; vm_compute; congruence.
Qed.

(** ** The calendar query *)

(** What the calendar query returns. *)
Lemma calendar_data_rows_sorted :
  forall (from_date to_date : datetime) (account_ids : option (list UUID))
         (w : World),
  exists posts,
    ScheduledPostRepository.get_calendar_data from_date to_date account_ids w
    = (Ok posts, w)
    /\ (forall p,
          In p posts
          <-> In p (txn w)
              /\ (from_date <= scheduled_for p <= to_date)%Z
              /\ status p <> CANCELLED
              /\ (forall ids, account_ids = Some ids -> ids <> [] ->
                              In (connected_account_id p) ids))
    /\ Sorted earlier_or_same posts.
Proof.
  intros from_date to_date account_ids w.
  eexists. split; [reflexivity|]. split; [|apply scheduled_for_asc_sorted].
  intro p. rewrite order_by_In.
  assert (Hrange :
    forall q, In q (filter (fun p => not_before from_date p
                                     && not_after to_date p
                                     && negb (has_status CANCELLED p))
                      (txn w))
              <-> In q (txn w)
                  /\ (from_date <= scheduled_for q <= to_date)%Z
                  /\ status q <> CANCELLED).
  { intro q. rewrite filter_In, !andb_true_iff, negb_true_iff.
    unfold not_before, not_after.
    rewrite <- not_true_iff_false, has_status_eq, !Z.leb_le. tauto. }
  destruct account_ids as [[|account_id ids]|].
  - rewrite Hrange. split; [|tauto].
    intros (Hin & Hr & Hst).
    split; [exact Hin | split; [exact Hr | split; [exact Hst|]]].
    intros ids0 Heq Hne. injection Heq as <-. now destruct Hne.
  - rewrite filter_In, Hrange. unfold of_accounts.
    rewrite existsb_exists. split.
    + intros ((Hin & Hr & Hst) & x & Hx & Heq).
      apply Nat.eqb_eq in Heq. subst x.
      split; [exact Hin | split; [exact Hr | split; [exact Hst|]]].
      intros ids0 Hids _. now injection Hids as <-.
    + intros (Hin & Hr & Hst & Hacc). split; [auto|].
      exists (connected_account_id p). split; [|apply Nat.eqb_refl].
      apply Hacc; [reflexivity|discriminate].
  - rewrite Hrange. split; [|tauto].
    intros (Hin & Hr & Hst).
    split; [exact Hin | split; [exact Hr | split; [exact Hst|]]].
    discriminate.
Qed.

Lemma calendar_data_rows (from_date to_date : datetime)
    (account_ids : option (list UUID)) (w : World) :
  exists posts,
    ScheduledPostRepository.get_calendar_data from_date to_date account_ids w
    = (Ok posts, w)
    /\ (forall p, In p posts -> status p <> CANCELLED).
Proof.
  destruct (calendar_data_rows_sorted from_date to_date account_ids w)
    as (posts & Hrun & Hiff & _).
  exists posts. split; [exact Hrun|]. intros p Hp. now apply Hiff in Hp.
Qed.

(** X1.  [get_calendar_data] returns exactly the rows of the session
    whose [scheduled_for] lies in the closed range, that are not
    [CANCELLED] and, when a non-empty list of accounts is given, whose
    account is in the list, its first entry included ([None] and the
    empty list both mean no filter); they come ordered by
    [scheduled_for], earliest first, and the world is left as it was. *)
Theorem calendar_data_contents :
  forall (from_date to_date : datetime) (account_ids : option (list UUID))
         (w : World),
  exists posts,
    ScheduledPostRepository.get_calendar_data from_date to_date account_ids w
    = (Ok posts, w)
    /\ (forall p,
          In p posts
          <-> In p (txn w)
              /\ (from_date <= scheduled_for p <= to_date)%Z
              /\ status p <> CANCELLED
              /\ (forall ids, account_ids = Some ids -> ids <> [] ->
                              In (connected_account_id p) ids))
    /\ Sorted earlier_or_same posts.
Proof. exact calendar_data_rows_sorted. Qed.

(** A run: one account asked for, and the row of that account comes
    back. *)
Example calendar_data_of_one_account :
  fst (ScheduledPostRepository.get_calendar_data 0%Z 100%Z (Some [2])
         two_rows_world)
  = Ok [mkScheduledPost 101 2%Z 10 2 YOUTUBE 60%Z "UTC" DRAFT None
          SINGLE_PLATFORM None None None None None None None 0%Z None].
Proof. reflexivity. Qed.

(** ** Upcoming and failed posts, filtered lists *)

(** X2.  [get_upcoming] computes the end of its window as
    [now + timedelta(hours=hours)].  When that can be computed, it returns
    at most [limit] posts, all [SCHEDULED] and due between now and the
    end of the window, earliest first; the posts it returns are the
    earliest of the qualifying rows: no qualifying row that was left out
    is due before a returned one; with a negative number of hours it
    returns nothing.  When the duration or the sum is out of range, it
    raises [OverflowError]. *)
Theorem upcoming_are_the_earliest_scheduled :
  forall (hours : Z) (limit : nat) (w : World),
    (window_in_range w hours ->
     exists posts,
       ScheduledPostRepository.get_upcoming hours limit w = (Ok posts, w)
       /\ List.length posts <= limit
       /\ Forall (fun p => In p (txn w)
                           /\ status p = SCHEDULED
                           /\ (now w <= scheduled_for p
                               <= now w + hours * 3600000000)%Z)
            posts
       /\ Sorted earlier_or_same posts
       /\ (forall p r,
             In p posts ->
             In r (txn w) -> status r = SCHEDULED ->
             (now w <= scheduled_for r <= now w + hours * 3600000000)%Z ->
             ~ In r posts ->
             (scheduled_for p <= scheduled_for r)%Z)
       /\ ((hours < 0)%Z -> posts = []))
    /\ (~ window_in_range w hours ->
        ScheduledPostRepository.get_upcoming hours limit w
        = (Raise OverflowError, w)).
Proof.
  intros hours limit w.
  assert (Hdelta :
    timedelta_hours hours
    = if (timedelta_min <=? hours * 3600000000)%Z
         && (hours * 3600000000 <=? timedelta_max)%Z
      then Some (hours * 3600000000)%Z else None) by reflexivity.
  assert (Hadd :
    datetime_add (now w) (hours * 3600000000)
    = if (datetime_min <=? now w + hours * 3600000000)%Z
         && (now w + hours * 3600000000 <=? datetime_max)%Z
      then Some (now w + hours * 3600000000)%Z else None) by reflexivity.
  assert (Hrun :
    ScheduledPostRepository.get_upcoming hours limit w
    = match timedelta_hours hours with
      | None => (Raise OverflowError, w)
      | Some delta =>
          match datetime_add (now w) delta with
          | None => (Raise OverflowError, w)
          | Some end_time =>
              (Ok (firstn limit
                     (order_by scheduled_for_asc
                        (filter (fun p => not_before (now w) p
                                          && not_after end_time p
                                          && has_status SCHEDULED p)
                           (txn w)))), w)
          end
      end).
  { unfold ScheduledPostRepository.get_upcoming, bind, datetime_now.
    destruct (timedelta_hours hours) as [delta|]; [|reflexivity].
    destruct (datetime_add (now w) delta); reflexivity. }
  split.
  - intros ((Hd1 & Hd2) & (Hs1 & Hs2)).
    rewrite Hrun, Hdelta.
    rewrite (proj2 (Z.leb_le _ _) Hd1), (proj2 (Z.leb_le _ _) Hd2).
    cbn [andb]. rewrite Hadd.
    rewrite (proj2 (Z.leb_le _ _) Hs1), (proj2 (Z.leb_le _ _) Hs2).
    cbn [andb].
    set (due := fun p => not_before (now w) p
                         && not_after (now w + hours * 3600000000)%Z p
                         && has_status SCHEDULED p).
    assert (Hdue : forall q, In q (filter due (txn w))
                             <-> In q (txn w) /\ status q = SCHEDULED
                                 /\ (now w <= scheduled_for q
                                     <= now w + hours * 3600000000)%Z).
    { intro q. unfold due. rewrite filter_In, !andb_true_iff.
      unfold not_before, not_after.
      rewrite has_status_eq, !Z.leb_le. tauto. }
    exists (firstn limit (order_by scheduled_for_asc (filter due (txn w)))).
    split; [reflexivity|]. split; [apply firstn_le_length|].
    split; [|split; [|split]].
    + apply Forall_forall. intros p Hp.
      apply In_firstn, order_by_In in Hp. now apply Hdue.
    + apply Sorted_firstn, scheduled_for_asc_sorted.
    + intros p r Hp Hr Hst Hwin Hnot.
      apply (firstn_before_rest (R := earlier_or_same) limit
               (rows := order_by scheduled_for_asc (filter due (txn w)))).
      * unfold earlier_or_same. intros; lia.
      * apply scheduled_for_asc_sorted.
      * exact Hp.
      * assert (Hin : In r (order_by scheduled_for_asc (filter due (txn w))))
          by (apply order_by_In, Hdue; auto).
        rewrite <- (firstn_skipn limit) in Hin.
        apply in_app_or in Hin. destruct Hin; [contradiction|assumption].
    + intro Hneg.
      assert (Hnone : filter due (txn w) = []).
      { destruct (filter due (txn w)) as [|q l] eqn:E; [reflexivity|].
        pose proof (proj1 (Hdue q) (or_introl eq_refl)) as Hq. lia. }
      rewrite Hnone. simpl. now rewrite firstn_nil.
  - intro Hout. rewrite Hrun, Hdelta.
    destruct ((timedelta_min <=? hours * 3600000000)%Z
              && (hours * 3600000000 <=? timedelta_max)%Z) eqn:Ed;
      [|reflexivity].
    rewrite Hadd.
    destruct ((datetime_min <=? now w + hours * 3600000000)%Z
              && (now w + hours * 3600000000 <=? datetime_max)%Z) eqn:Es;
      [|reflexivity].
    exfalso. apply Hout.
    apply andb_true_iff in Ed, Es. rewrite !Z.leb_le in Ed, Es.
    unfold window_in_range. tauto.
Qed.

(** Runs of [get_upcoming]: a day ahead, and a number of hours that
    [timedelta] refuses. *)
Example upcoming_runs :
  fst (ScheduledPostRepository.get_upcoming 24 10
         (sample_world [sample_post 100 1%Z SCHEDULED (Some "ext-1")]
            api_accepts))
  = Ok [sample_post 100 1%Z SCHEDULED (Some "ext-1")]
  /\ fst (ScheduledPostRepository.get_upcoming 24000000000 10 empty_world)
     = Raise OverflowError.
Proof. split; reflexivity. Qed.

(** X3.  [get_failed] returns at most [limit] posts, all of them
    [FAILED] rows of the session, ordered by [failed_at] descending: among
    the posts that have a [failed_at], the most recent failure comes
    first. *)
Theorem failed_posts_latest_first :
  forall (limit : nat) (w : World),
  exists posts,
    ScheduledPostRepository.get_failed limit w = (Ok posts, w)
    /\ List.length posts <= limit
    /\ Forall (fun p => In p (txn w) /\ status p = FAILED) posts
    /\ Sorted (fun a b => failed_at_desc a b = true) posts
    /\ (List.length (rows_with_status FAILED (txn w)) <= limit ->
        Permutation posts (rows_with_status FAILED (txn w))).
Proof.
  intros limit w.
  eexists. split; [reflexivity|]. split; [apply firstn_le_length|].
  split; [|split].
  - apply Forall_forall. intros p Hp.
    apply In_firstn, order_by_In, filter_In in Hp.
    now rewrite has_status_eq in Hp.
  - apply Sorted_firstn, order_by_sorted, failed_at_desc_total.
  - intro Hlen. rewrite firstn_all2.
    + apply order_by_perm.
    + now rewrite order_by_length.
Qed.

(** X4.  [get_multi]: every post it returns is a row of the session that
    meets each filter that was given; the posts are ordered by
    [scheduled_for] and there are at most [limit] of them. *)
Theorem get_multi_respects_filters :
  forall (status_filter : option ScheduleStatus)
         (platform_filter : option PlatformType)
         (account_filter : option UUID) (from_date to_date : option datetime)
         (skip limit : nat) (w : World),
  exists posts,
    ScheduledPostRepository.get_multi status_filter platform_filter
      account_filter from_date to_date skip limit w = (Ok posts, w)
    /\ List.length posts <= limit
    /\ Sorted earlier_or_same posts
    /\ Forall (fun p =>
                 In p (txn w)
                 /\ (forall s, status_filter = Some s -> status p = s)
                 /\ (forall t, platform_filter = Some t -> platform p = t)
                 /\ (forall a, account_filter = Some a ->
                               connected_account_id p = a)
                 /\ (forall d, from_date = Some d ->
                               (d <= scheduled_for p)%Z)
                 /\ (forall d, to_date = Some d ->
                               (scheduled_for p <= d)%Z))
         posts.
Proof.
  intros status_filter platform_filter account_filter from_date to_date
    skip limit w.
  eexists. split; [reflexivity|]. split; [apply firstn_le_length|].
  split; [apply Sorted_firstn, Sorted_skipn, scheduled_for_asc_sorted|].
  apply Forall_forall. intros p Hp.
  apply In_firstn, In_skipn, order_by_In, filter_In in Hp.
  destruct Hp as (Hin & Hcond). rewrite !andb_true_iff in Hcond.
  destruct Hcond as ((((Hs & Ht) & Ha) & Hf) & Hto).
  split; [exact Hin|]. repeat split.
  - intros s ->. now apply has_status_eq.
  - intros t ->. now apply PlatformType_eqb_eq.
  - intros a ->. now apply Nat.eqb_eq.
  - intros d ->. now apply Z.leb_le.
  - intros d ->. now apply Z.leb_le.
Qed.

(** ** Counting *)

Lemma length_by_status (rows : list ScheduledPost) :
  total (map (fun s => List.length (rows_with_status s rows)) all_statuses)
  = List.length rows.
Proof.
  induction rows as [|r rows IH]; [reflexivity|].
  simpl in *. unfold rows_with_status, has_status in *. simpl.
  destruct (status r); simpl; lia.
Qed.

(** X5.  [count_by_status] has a key exactly for the statuses that occur
    in the table; the count under a key is the number of rows with that
    status, and the counts add up to the number of rows. *)
Theorem count_by_status_adds_up :
  forall (w : World),
  exists counts,
    ScheduledPostRepository.count_by_status w = (Ok counts, w)
    /\ (forall s, counts s = None
                  <-> forall p, In p (txn w) -> status p <> s)
    /\ (forall s n, counts s = Some n ->
                    n = List.length (rows_with_status s (txn w)) /\ 0 < n)
    /\ total (map (count_of counts) all_statuses) = List.length (txn w).
Proof.
  intro w. eexists. split; [reflexivity|].
  assert (Hcount : forall s,
            count_of (fun s =>
                        match List.length (filter (has_status s) (txn w)) with
                        | O => None
                        | S n => Some (S n)
                        end) s
            = List.length (rows_with_status s (txn w))).
  { intro s. unfold count_of, rows_with_status.
    now destruct (List.length (filter (has_status s) (txn w))). }
  split; [|split].
  - intro s.
    destruct (filter (has_status s) (txn w)) as [|q l] eqn:E; simpl.
    + split; [|reflexivity]. intros _ p Hp Hs.
      assert (Hq : In p (filter (has_status s) (txn w)))
        by (apply filter_In; split; [exact Hp|now apply has_status_eq]).
      now rewrite E in Hq.
    + split; [discriminate|]. intro Hnone. exfalso.
      assert (Hq : In q (filter (has_status s) (txn w)))
        by (rewrite E; now left).
      apply filter_In in Hq. destruct Hq as (Hq & Hs).
      apply has_status_eq in Hs. now apply (Hnone q).
  - intros s n. unfold rows_with_status.
    destruct (List.length (filter (has_status s) (txn w)));
      [discriminate|].
    intro H. injection H as <-. split; [reflexivity|lia].
  - rewrite <- length_by_status.
    unfold all_statuses. simpl map. now rewrite !Hcount.
Qed.

Lemma length_by_platform (rows : list ScheduledPost) :
  total (map (fun t => List.length (filter (on_platform t) rows))
           all_platforms)
  = List.length rows.
Proof.
  induction rows as [|r rows IH]; [reflexivity|].
  simpl in *. unfold on_platform in *.
  destruct (platform r);
    repeat match goal with
           | |- context [PlatformType_eqb ?a ?b] =>
               let v := eval vm_compute in (PlatformType_eqb a b) in
               change (PlatformType_eqb a b) with v
           end;
    simpl; lia.
Qed.

(** X6.  [count_by_platform] agrees with [count_by_status]: for a given
    status, the counts per platform add up to the count of that status;
    without a status they add up to the number of rows. *)
Theorem count_by_platform_adds_up :
  forall (status_filter : option ScheduleStatus) (w : World),
  exists per_platform per_status,
    ScheduledPostRepository.count_by_platform status_filter w
    = (Ok per_platform, w)
    /\ ScheduledPostRepository.count_by_status w = (Ok per_status, w)
    /\ total (map (count_of per_platform) all_platforms)
       = match status_filter with
         | Some s => count_of per_status s
         | None => List.length (txn w)
         end.
Proof.
  intros status_filter w. do 2 eexists.
  split; [reflexivity|]. split; [reflexivity|].
  assert (Hcount : forall rows t,
            count_of (fun t =>
                        match List.length (filter (on_platform t) rows) with
                        | O => None
                        | S n => Some (S n)
                        end) t
            = List.length (filter (on_platform t) rows)).
  { intros rows t. unfold count_of.
    now destruct (List.length (filter (on_platform t) rows)). }
  unfold all_platforms. simpl map. rewrite !Hcount.
  pose proof (length_by_platform
                (filter (when_given status_filter has_status) (txn w))) as H.
  unfold all_platforms in H. simpl map in H. rewrite H.
  destruct status_filter as [s|].
  - change (filter (when_given (Some s) has_status) (txn w))
      with (filter (has_status s) (txn w)).
    unfold count_of.
    now destruct (List.length (filter (has_status s) (txn w))).
  - clear. induction (txn w) as [|r rows IH]; simpl; [reflexivity|].
    now rewrite IH.
Qed.

(** ** Inserting, looking up and deleting rows *)

Lemma row_fresh (w : World) (post_id : UUID) :
  fresh_keys w -> next_uuid w <= post_id -> row post_id (txn w) = None.
Proof.
  unfold fresh_keys, row. intros Hfresh Hle.
  induction (txn w) as [|r rows IH]; simpl; [reflexivity|].
  inversion Hfresh as [|? ? Hr Hrows]; subst.
  destruct (Nat.eqb (id r) post_id) eqn:E; [|now apply IH].
  apply Nat.eqb_eq in E. lia.
Qed.

Lemma row_delete (post_id deleted : UUID) (rows : list ScheduledPost) :
  row post_id (filter (fun r => negb (Nat.eqb (id r) deleted)) rows)
  = if Nat.eqb post_id deleted then None else row post_id rows.
Proof.
  unfold row. induction rows as [|r rows IH]; simpl.
  - now destruct (Nat.eqb post_id deleted).
  - destruct (Nat.eqb (id r) deleted) eqn:Ed; simpl.
    + rewrite IH. destruct (Nat.eqb post_id deleted) eqn:Ep; [reflexivity|].
      destruct (Nat.eqb (id r) post_id) eqn:Er; [|reflexivity].
      apply Nat.eqb_eq in Ed, Er. apply Nat.eqb_neq in Ep. congruence.
    + destruct (Nat.eqb (id r) post_id) eqn:Er.
      * destruct (Nat.eqb post_id deleted) eqn:Ep; [|reflexivity].
        apply Nat.eqb_eq in Er, Ep. apply Nat.eqb_neq in Ed. congruence.
      * exact IH.
Qed.

(** X7.  Insert and lookup.  In a session whose primary keys are fresh,
    [create] followed by a lookup of the new post's [id] finds the post
    just created; the post is a [DRAFT] with [retry_count] 0, no remote
    identifier and no error, and carries the arguments of [create]; the
    lookup of every other key is as before, nothing is committed, and
    the primary keys stay fresh. *)
Theorem create_then_lookup :
  forall (content_id account_id : UUID) (t : PlatformType)
         (at_time : datetime) (mode : ScheduleMode) (tz : string)
         (batch : option string) (config : option Config) (w : World),
    fresh_keys w ->
    exists post w',
      ScheduledPostRepository.create content_id account_id t at_time mode tz
        batch config w = (Ok post, w')
      /\ ScheduledPostRepository.get_by_id_with_relations (id post) w'
         = (Ok (Some post), w')
      /\ status post = DRAFT
      /\ retry_count post = 0%Z
      /\ late_post_id post = None
      /\ error_message post = None
      /\ (content_library_item_id post, connected_account_id post,
          platform post, scheduled_for post, schedule_mode post,
          timezone post, batch_id post, platform_specific_config post)
         = (content_id, account_id, t, at_time, mode, tz, batch, config)
      /\ (forall i, i <> id post -> row i (txn w') = row i (txn w))
      /\ committed w' = committed w
      /\ fresh_keys w'.
Proof.
  intros content_id account_id t at_time mode tz batch config w Hfresh.
  do 2 eexists. split; [reflexivity|].
  split; [|repeat split].
  - unfold ScheduledPostRepository.get_by_id_with_relations.
    cbn [txn set_txn set_next_uuid id].
    change (find (fun p => Nat.eqb (id p) (next_uuid w)) ?l)
      with (row (next_uuid w) l).
    rewrite row_app, (row_fresh Hfresh) by lia.
    cbn [id]. now rewrite Nat.eqb_refl.
  - intros i Hi. cbn [txn set_txn set_next_uuid id] in *.
    rewrite row_app. cbn [id].
    destruct (row i (txn w)); [reflexivity|].
    destruct (Nat.eqb (next_uuid w) i) eqn:E; [|reflexivity].
    apply Nat.eqb_eq in E. congruence.
  - unfold fresh_keys in *. cbn [txn set_txn set_next_uuid next_uuid].
    apply Forall_app. split.
    + eapply Forall_impl; [|exact Hfresh]. simpl. intros; lia.
    + constructor; [simpl; lia|constructor].
Qed.

Lemma create_then_lookup_witness :
  exists post w',
    ScheduledPostRepository.create 10 2 YOUTUBE 80%Z SINGLE_PLATFORM "UTC"
      None None two_rows_world = (Ok post, w')
    /\ ScheduledPostRepository.get_by_id_with_relations (id post) w'
       = (Ok (Some post), w')
    /\ status post = DRAFT
    /\ retry_count post = 0%Z
    /\ late_post_id post = None
    /\ error_message post = None
    /\ (content_library_item_id post, connected_account_id post,
        platform post, scheduled_for post, schedule_mode post,
        timezone post, batch_id post, platform_specific_config post)
       = (10, 2, YOUTUBE, 80%Z, SINGLE_PLATFORM, "UTC", None, None)
    /\ (forall i, i <> id post -> row i (txn w') = row i (txn two_rows_world))
    /\ committed w' = committed two_rows_world
    /\ fresh_keys w'.
Proof.
  apply (@create_then_lookup 10 2 YOUTUBE 80%Z SINGLE_PLATFORM "UTC" None
           None two_rows_world).
  repeat constructor; simpl; lia.
Defined.

(** X8.  Delete and lookup.  After [delete], a lookup of the deleted
    post's [id] finds nothing, the lookup of every other key is as
    before, and the deletion is only flushed: the committed rows are
    unchanged until the next commit. *)
Theorem delete_then_lookup :
  forall (post : ScheduledPost) (w : World),
  exists w',
    ScheduledPostRepository.delete post w = (Ok tt, w')
    /\ ScheduledPostRepository.get_by_id_with_relations (id post) w'
       = (Ok None, w')
    /\ (forall i, i <> id post -> row i (txn w') = row i (txn w))
    /\ (forall r, In r (txn w') <-> In r (txn w) /\ id r <> id post)
    /\ committed w' = committed w.
Proof.
  intros post w. eexists. split; [reflexivity|].
  split; [|split; [|split; [|reflexivity]]].
  - unfold ScheduledPostRepository.get_by_id_with_relations.
    cbn [txn set_txn].
    change (find (fun p => Nat.eqb (id p) (id post)) ?l)
      with (row (id post) l).
    now rewrite row_delete, Nat.eqb_refl.
  - intros i Hi. cbn [txn set_txn]. rewrite row_delete.
    apply Nat.eqb_neq in Hi. now rewrite Hi.
  - intro r. cbn [txn set_txn]. rewrite filter_In, negb_true_iff.
    now rewrite Nat.eqb_neq.
Qed.

(** ** One push, continued *)

(** Every column after [update_status]. *)
Lemma update_status_columns (st : ScheduleStatus) (lid : option string)
    (ls : option LatePostStatus) (ppid ppurl err : option string)
    (post : ScheduledPost) (w : World) :
  exists post',
    ScheduledPostRepository.update_status post st lid ls ppid ppurl err w
    = (Ok post', set_txn (replace_row post' (txn w)) w)
    /\ status post' = st
    /\ late_post_id post' = or_old lid (late_post_id post)
    /\ late_status post' = or_old ls (late_status post)
    /\ platform_post_id post' = or_old ppid (platform_post_id post)
    /\ platform_post_url post' = or_old ppurl (platform_post_url post)
    /\ published_at post'
       = (if ScheduleStatus_eqb st PUBLISHED then Some (now w)
          else published_at post)
    /\ failed_at post'
       = (if ScheduleStatus_eqb st FAILED then Some (now w)
          else failed_at post)
    /\ retry_count post'
       = (if ScheduleStatus_eqb st FAILED then retry_count post + 1
          else retry_count post)%Z
    /\ error_message post'
       = (if ScheduleStatus_eqb st FAILED && truthy err then err
          else error_message post)
    /\ (id post', created_at post', content_library_item_id post',
        connected_account_id post', platform post', scheduled_for post',
        timezone post', schedule_mode post', batch_id post',
        platform_specific_config post')
       = (id post, created_at post, content_library_item_id post,
          connected_account_id post, platform post, scheduled_for post,
          timezone post, schedule_mode post, batch_id post,
          platform_specific_config post).
Proof.
  unfold ScheduledPostRepository.update_status, bind, datetime_now,
    session_flush.
  eexists. split; [reflexivity|].
  destruct lid, ls, ppid, ppurl, st; simpl;
    repeat split; destruct (truthy err); reflexivity.
Qed.

(** The posts of the sample worlds can be loaded. *)
Lemma sample_world_loadable (rows : list ScheduledPost)
    (api : nat -> LateCall -> LateReply) (post_id : UUID) (created : datetime)
    (st : ScheduleStatus) (late_id : option string) :
  loadable (sample_world rows api) (sample_post post_id created st late_id).
Proof. split; eexists; reflexivity. Defined.

(** X9.  A push never succeeds.  For every post and every world,
    [_sync_to_late] raises and leaves the world as it was: no row is
    written, nothing is committed, no request is sent and nothing is
    logged.  Without an API key it raises the [LateApiError] of the
    client; with one, [ValueError] when the content (missing or
    soft-deleted) or the account of the post cannot be loaded, and
    otherwise the [TypeError] of encoding the request body. *)
Theorem push_never_succeeds :
  forall (post : ScheduledPost) (w : World),
    SchedulerService._sync_to_late post w
    = (Raise
         (if truthy (LATER_DEV_API_KEY w) then
            match content_of w (content_library_item_id post),
                  account_of w (connected_account_id post) with
            | Some _, Some _ => TypeError
            | _, _ => ValueError "Content or account not found"
            end
          else LateApiError "Late API key not configured"),
       w).
Proof. exact sync_to_late_run. Qed.

(** X22.  The update of a remote schedule never happens.
    [_update_late_schedule] returns at once for a post without remote
    identifier; for any other post it raises and leaves the world as it
    was, so it never sends a request and never sets the post back to
    [SCHEDULED]: with an API key the error is the [TypeError] of encoding
    the request body, without one the [LateApiError] of the client. *)
Theorem remote_schedule_is_never_updated :
  forall (post : ScheduledPost) (w : World),
    SchedulerService._update_late_schedule post w
    = (if truthy (late_post_id post)
       then (Raise (if truthy (LATER_DEV_API_KEY w) then TypeError
                    else LateApiError "Late API key not configured"), w)
       else (Ok post, w)).
Proof. exact update_late_schedule_run. Qed.

(** ** Scheduling one post: [schedule_single] *)

(** X11.  Fail fast.  When the account does not exist or is not active,
    or the content does not exist (or is soft-deleted), [schedule_single]
    raises [ValueError] and does nothing else: no row is created, nothing
    is committed, nothing is sent to the remote service or logged. *)
Theorem schedule_single_rejects_invalid_target :
  forall (content_id account_id : UUID) (at_time : datetime) (tz : string)
         (config : option Config) (sync_immediately : bool) (w : World),
    match account_of w account_id with
    | Some account => ConnectedAccount.is_active account
    | None => false
    end = false
    \/ content_of w content_id = None ->
    exists msg,
      SchedulerService.schedule_single content_id account_id at_time tz config
        sync_immediately w = (Raise (ValueError msg), w).
Proof.
  intros content_id account_id at_time tz config sync_immediately w H.
  unfold SchedulerService.schedule_single, bind at 1,
    ConnectedAccountRepository.get_by_id.
  unfold account_of, content_of in H.
  destruct (find (fun a => Nat.eqb (ConnectedAccount.id a) account_id)
              (accounts w)) as [account|]; [|eexists; reflexivity].
  destruct (ConnectedAccount.is_active account); [|eexists; reflexivity].
  destruct H as [H|H]; [discriminate|].
  cbn [negb]. cbv beta iota.
  unfold bind at 1, ContentLibraryRepository.get_by_id_with_media.
  rewrite H. eexists. reflexivity.
Qed.

Lemma schedule_single_rejects_invalid_target_witness :
  exists msg,
    SchedulerService.schedule_single 10 3 50%Z "UTC" None true empty_world
    = (Raise (ValueError msg), empty_world).
Proof.
  exact (@schedule_single_rejects_invalid_target 10 3 50%Z "UTC" None true
           empty_world (or_introl eq_refl)).
Defined.

(** X12.  Immediate synchronisation, which is what the route asks for.
    For an active account and an existing content, [schedule_single]
    creates the post, sets it to [PENDING_SYNC] and commits it; the push
    that follows raises before a request is sent, and so does
    [schedule_single]: [TypeError] with an API key (the route passes it
    on), [LateApiError] without one (the route answers 502).  The post
    stays committed in [PENDING_SYNC] without remote identifier, where
    the sweep selects it. *)
Theorem schedule_single_immediate_sync_raises :
  forall (content_id account_id : UUID) (at_time : datetime) (tz : string)
         (config : option Config) (w : World) (account : ConnectedAccount.t)
         (content : ContentLibraryItem.t),
    account_of w account_id = Some account ->
    ConnectedAccount.is_active account = true ->
    content_of w content_id = Some content ->
    exists post w',
      SchedulerService.schedule_single content_id account_id at_time tz config
        true w
      = (Raise (if truthy (LATER_DEV_API_KEY w) then TypeError
                else LateApiError "Late API key not configured"), w')
      /\ routes.schedule_single content_id account_id at_time tz config w
         = (if truthy (LATER_DEV_API_KEY w) then (Raise TypeError, w')
            else (Ok (HTTPException 502
                        "Late API error: Late API key not configured"), w'))
      /\ row (id post) (committed w') = Some post
      /\ status post = PENDING_SYNC
      /\ late_post_id post = None
      /\ (content_library_item_id post, connected_account_id post,
          platform post, scheduled_for post, timezone post,
          schedule_mode post, batch_id post, platform_specific_config post,
          retry_count post)
         = (content_id, account_id, ConnectedAccount.platform account,
            at_time, tz, SINGLE_PLATFORM, None, config, 0%Z)
      /\ late_calls w' = late_calls w
      /\ In post (pending_rows w').
Proof.
  intros content_id account_id at_time tz config w account content
    Ha Hact Hc.
  destruct (@schedule_single_creates content_id account_id at_time tz config
              true w account content Ha Hact Hc)
    as (post1 & w3 & Hrun & Hpost1 & Hrow & Hcom & Hcalls & Hlog & Henv & _).
  destruct Henv as (Eacc & Econt & _ & Ekey & _).
  assert (Herr : push_error w3 post1
                 = (if truthy (LATER_DEV_API_KEY w) then TypeError
                    else LateApiError "Late API key not configured")).
  { unfold push_error, content_of, account_of. rewrite Ekey, Econt, Eacc.
    rewrite Hpost1. cbn [content_library_item_id connected_account_id].
    unfold content_of in Hc. unfold account_of in Ha. now rewrite Hc, Ha. }
  assert (Hfull :
    SchedulerService.schedule_single content_id account_id at_time tz config
      true w
    = (Raise (if truthy (LATER_DEV_API_KEY w) then TypeError
              else LateApiError "Late API key not configured"), w3)).
  { rewrite Hrun. unfold bind at 1. now rewrite sync_to_late_run, Herr. }
  exists post1, w3. split; [exact Hfull|].
  split; [|split; [|split; [|split; [|split; [|split]]]]].
  - unfold routes.schedule_single, routes.except_errors. rewrite Hfull.
    now destruct (truthy (LATER_DEV_API_KEY w)).
  - rewrite Hcom.
    replace (id post1) with (next_uuid w) by (now rewrite Hpost1).
    exact Hrow.
  - now rewrite Hpost1.
  - now rewrite Hpost1.
  - now rewrite Hpost1.
  - exact Hcalls.
  - unfold pending_rows. apply filter_In. split.
    + unfold row in Hrow. apply find_some in Hrow. tauto.
    + now rewrite Hpost1.
Qed.

Lemma schedule_single_immediate_sync_raises_witness :
  exists post w',
    SchedulerService.schedule_single 10 1 50%Z "UTC" None true empty_world
    = (Raise TypeError, w')
    /\ routes.schedule_single 10 1 50%Z "UTC" None empty_world
       = (Raise TypeError, w')
    /\ row (id post) (committed w') = Some post
    /\ status post = PENDING_SYNC
    /\ late_post_id post = None
    /\ (content_library_item_id post, connected_account_id post,
        platform post, scheduled_for post, timezone post,
        schedule_mode post, batch_id post, platform_specific_config post,
        retry_count post)
       = (10, 1, TIKTOK, 50%Z, "UTC", SINGLE_PLATFORM, None, None, 0%Z)
    /\ late_calls w' = late_calls empty_world
    /\ In post (pending_rows w').
Proof.
  exact (@schedule_single_immediate_sync_raises 10 1 50%Z "UTC" None
           empty_world sample_account sample_content eq_refl eq_refl eq_refl).
Defined.

(** X13.  Deferred synchronisation.  With [sync_immediately] false,
    [schedule_single] for an active account and an existing content
    returns a committed [DRAFT] and sends nothing to the remote service;
    the sweep does not select the post. *)
Theorem schedule_single_deferred_is_draft :
  forall (content_id account_id : UUID) (at_time : datetime) (tz : string)
         (config : option Config) (w : World) (account : ConnectedAccount.t)
         (content : ContentLibraryItem.t),
    account_of w account_id = Some account ->
    ConnectedAccount.is_active account = true ->
    content_of w content_id = Some content ->
    exists post w',
      SchedulerService.schedule_single content_id account_id at_time tz config
        false w = (Ok post, w')
      /\ status post = DRAFT
      /\ late_post_id post = None
      /\ platform post = ConnectedAccount.platform account
      /\ row (id post) (committed w') = Some post
      /\ late_calls w' = late_calls w
      /\ ~ In post (pending_rows w').
Proof.
  intros content_id account_id at_time tz config w account content
    Ha Hact Hc.
  destruct (@schedule_single_creates content_id account_id at_time tz config
              false w account content Ha Hact Hc)
    as (post1 & w3 & Hrun & Hpost1 & Hrow & Hcom & Hcalls & Hlog & Henv & _).
  rewrite Hrun. clear Hrun. subst post1.
  do 2 eexists. split; [reflexivity|].
  repeat split.
  - cbn [committed set_log]. rewrite Hcom. exact Hrow.
  - exact Hcalls.
  - unfold pending_rows. rewrite filter_In. intros (_ & H). discriminate H.
Qed.

Lemma schedule_single_deferred_is_draft_witness :
  exists post w',
    SchedulerService.schedule_single 10 1 50%Z "UTC" None false empty_world
    = (Ok post, w')
    /\ status post = DRAFT
    /\ late_post_id post = None
    /\ platform post = TIKTOK
    /\ row (id post) (committed w') = Some post
    /\ late_calls w' = late_calls empty_world
    /\ ~ In post (pending_rows w').
Proof.
  exact (@schedule_single_deferred_is_draft 10 1 50%Z "UTC" None empty_world
           sample_account sample_content eq_refl eq_refl eq_refl).
Defined.

(** ** Publishing at once: [publish_now] *)

(** [publish_now] on a post that is not [PUBLISHED], whose content and
    account can be loaded, with a key: by the answer of the remote
    service. *)
Lemma publish_now_cases (post_id : UUID) (post : ScheduledPost) (w : World)
    (content : ContentLibraryItem.t) (account : ConnectedAccount.t) :
  row post_id (txn w) = Some post ->
  status post <> PUBLISHED ->
  content_of w (content_library_item_id post) = Some content ->
  account_of w (connected_account_id post) = Some account ->
  truthy (LATER_DEV_API_KEY w) = true ->
  let call := create_post_call (publish_request post content account) in
  let r := SchedulerService.publish_now post_id w in
  late_calls (snd r) = late_calls w ++ [call]
  /\ committed (snd r) = txn (snd r)
  /\ exists post',
       row post_id (txn (snd r)) = Some post'
       /\ match late_api w (List.length (late_calls w)) call with
          | LateErr msg =>
              fst r = Raise (LateApiError msg)
              /\ status post' = FAILED
              /\ retry_count post' = (retry_count post + 1)%Z
              /\ failed_at post' = Some (now w)
              /\ error_message post'
                 = (if truthy (Some msg) then Some msg
                    else error_message post)
              /\ late_post_id post' = late_post_id post
              /\ published_at post' = published_at post
          | LateOk late_post =>
              match LatePostStatus_of_value (LatePost.status late_post) with
              | None =>
                  fst r
                  = Raise (ValueError
                             (repr_str (LatePost.status late_post)
                              ++ " is not a valid LatePostStatus"))
                  /\ post' = set_status PUBLISHING post
              | Some ls =>
                  fst r = Ok post'
                  /\ status post' = PUBLISHED
                  /\ published_at post' = Some (now w)
                  /\ late_post_id post' = Some (LatePost.id late_post)
                  /\ late_status post' = Some ls
                  /\ platform_post_id post'
                     = or_old (platform_data_post_id late_post)
                         (platform_post_id post)
                  /\ platform_post_url post'
                     = or_old (platform_data_post_url late_post)
                         (platform_post_url post)
                  /\ retry_count post' = retry_count post
                  /\ error_message post' = error_message post
              end
          end.
Proof.
  intros Hrow Hpub Hc Ha Hkey.
  pose proof (row_id _ _ Hrow) as Hid.
  assert (E : ScheduleStatus_eqb (status post) PUBLISHED = false)
    by (destruct (status post); simpl; congruence).
  set (post1 := set_status PUBLISHING post).
  set (T1 := replace_row post1 (txn w)).
  set (w2 := set_committed T1 (set_txn T1 w)).
  set (call := create_post_call (publish_request post content account)).
  set (w3 := set_late_calls (late_calls w ++ [call]) w2).
  assert (Hrow1 : row post_id T1 = Some post1).
  { subst post_id. change (id post) with (id post1).
    apply row_replace_row. change (id post1) with (id post).
    rewrite Hrow. discriminate. }
  assert (Hrow2 : forall post2, id post2 = id post1 ->
                                row post_id (replace_row post2 T1) = Some post2).
  { intros post2 Hid2. subst post_id.
    change (id post) with (id post1). rewrite <- Hid2.
    apply row_replace_row. rewrite Hid2. change (id post1) with (id post).
    rewrite Hrow1. discriminate. }
  assert (Hstart :
    SchedulerService.publish_now post_id w
    = (post <- try_except_LateApiError
                 (SchedulerService._publish_via_late post1)
                 (fun message =>
                    post <- ScheduledPostRepository.update_status post1 FAILED
                              None None None None (Some message) ;;
                    session_commit ;;;
                    raise (LateApiError message)) ;;
       logger INFO "Post published immediately" ;;;
       ret (SchedulerService.post_to_dict post)) w2).
  { unfold SchedulerService.publish_now, bind at 1,
      ScheduledPostRepository.get_by_id_with_relations.
    unfold row in Hrow. rewrite Hrow, E. reflexivity. }
  assert (Hpublish :
    SchedulerService._publish_via_late post1 w2
    = match late_api w (List.length (late_calls w)) call with
      | LateErr msg => (Raise (LateApiError msg), w3)
      | LateOk late_post =>
          (late_status <- SchedulerService.LatePostStatus_call
                            (LatePost.status late_post) ;;
           post <- ScheduledPostRepository.update_status post1 PUBLISHED
                     (Some (LatePost.id late_post)) (Some late_status)
                     (platform_data_post_id late_post)
                     (platform_data_post_url late_post) None ;;
           session_commit ;;;
           ret post) w3
      end).
  { unfold SchedulerService._publish_via_late, bind at 1, LateApiClient.new.
    change (LATER_DEV_API_KEY w2) with (LATER_DEV_API_KEY w). rewrite Hkey.
    cbv beta iota.
    unfold try_finally, bind at 1,
      ContentLibraryRepository.get_by_id_with_media.
    unfold content_of in Hc. change (contents w2) with (contents w).
    change (content_library_item_id post1)
      with (content_library_item_id post).
    rewrite Hc.
    unfold bind at 1, ConnectedAccountRepository.get_by_id.
    unfold account_of in Ha. change (accounts w2) with (accounts w).
    change (connected_account_id post1) with (connected_account_id post).
    rewrite Ha.
    unfold bind at 1, LateApiClient.create_post.
    cbn [LatePostCreate.scheduled_for]. unfold LateApiClient._request.
    change (late_api w2) with (late_api w).
    change (late_calls w2) with (late_calls w).
    fold (publish_request post1 content account).
    change (publish_request post1 content account)
      with (publish_request post content account).
    fold call. fold w3.
    destruct (late_api w (List.length (late_calls w)) call)
      as [late_post|msg]; [|reflexivity].
    unfold platform_data_post_id, platform_data_post_url, platform_data.
    unfold bind, session_commit, ret, LateApiClient.close.
    destruct (SchedulerService.LatePostStatus_call
                (LatePost.status late_post) w3) as [[ls|e] w4];
      [|reflexivity].
    destruct (ScheduledPostRepository.update_status post1 PUBLISHED
                (Some (LatePost.id late_post)) (Some ls) _ _ None w4)
      as [[p|e] w5]; reflexivity. }
  cbv zeta.
  destruct (late_api w (List.length (late_calls w)) call)
    as [late_post|msg] eqn:Ereply.
  - destruct (LatePostStatus_of_value (LatePost.status late_post))
      as [ls|] eqn:Els.
    + destruct (update_status_columns PUBLISHED
                  (Some (LatePost.id late_post)) (Some ls)
                  (platform_data_post_id late_post)
                  (platform_data_post_url late_post) None post1 w3)
        as (post2 & Hrun & Hst & Hl & Hls & Hpp & Hpu & Hpa & _ & Hr & He
            & Hcols).
      assert (Hsteps :
        SchedulerService.publish_now post_id w
        = (Ok post2,
           set_log (log w ++ [(INFO, "Post published immediately")])
             (set_committed (replace_row post2 T1)
                (set_txn (replace_row post2 T1) w3)))).
      { rewrite Hstart. unfold bind at 1, try_except_LateApiError.
        rewrite Hpublish.
        unfold bind at 1, SchedulerService.LatePostStatus_call.
        rewrite Els. unfold ret at 1.
        unfold bind at 1. rewrite Hrun. reflexivity. }
      rewrite Hsteps.
      split; [reflexivity|]. split; [reflexivity|].
      exists post2. split.
      * apply Hrow2. now injection Hcols.
      * repeat split; assumption.
    + assert (Hsteps :
        SchedulerService.publish_now post_id w
        = (Raise (ValueError (repr_str (LatePost.status late_post)
                              ++ " is not a valid LatePostStatus")), w3)).
      { rewrite Hstart. unfold bind at 1, try_except_LateApiError.
        rewrite Hpublish.
        unfold bind at 1, SchedulerService.LatePostStatus_call.
        rewrite Els. reflexivity. }
      rewrite Hsteps.
      split; [reflexivity|]. split; [reflexivity|].
      exists post1. split; [exact Hrow1|]. split; reflexivity.
  - destruct (update_status_columns FAILED None None None None
                (Some msg) post1 w3)
      as (post2 & Hrun & Hst & Hl & _ & _ & _ & Hpa & Hf & Hr & He & Hcols).
    assert (Hsteps :
      SchedulerService.publish_now post_id w
      = (Raise (LateApiError msg),
         set_committed (replace_row post2 T1)
           (set_txn (replace_row post2 T1) w3))).
    { rewrite Hstart. unfold bind at 1, try_except_LateApiError.
      rewrite Hpublish.
      unfold bind at 1. rewrite Hrun. reflexivity. }
    rewrite Hsteps.
    split; [reflexivity|]. split; [reflexivity|].
    exists post2. split.
    + apply Hrow2. now injection Hcols.
    + repeat split; assumption.
Qed.

(** X14.  [publish_now] on a post that is not [PUBLISHED], when the
    remote service accepts the request: the call returns the post, now
    [PUBLISHED] with [published_at] set to the current time, the remote
    identifier and status stored, and the platform's post id and URL
    taken from the first platform entry of the answer when it has them;
    [retry_count] and [error_message] are untouched and the row is
    committed. *)
Theorem publish_now_success :
  forall (post_id : UUID) (post : ScheduledPost) (w : World)
         (late_post : LatePost.t) (ls : LatePostStatus),
    row post_id (txn w) = Some post ->
    status post <> PUBLISHED ->
    loadable w post ->
    truthy (LATER_DEV_API_KEY w) = true ->
    next_reply_is w (LateOk late_post) ->
    LatePostStatus_of_value (LatePost.status late_post) = Some ls ->
    exists post' w',
      SchedulerService.publish_now post_id w = (Ok post', w')
      /\ status post' = PUBLISHED
      /\ published_at post' = Some (now w)
      /\ late_post_id post' = Some (LatePost.id late_post)
      /\ late_status post' = Some ls
      /\ platform_post_id post'
         = or_old (platform_data_post_id late_post) (platform_post_id post)
      /\ platform_post_url post'
         = or_old (platform_data_post_url late_post) (platform_post_url post)
      /\ retry_count post' = retry_count post
      /\ error_message post' = error_message post
      /\ row post_id (committed w') = Some post'.
Proof.
  intros post_id post w late_post ls Hrow Hpub Hload Hkey Hreply Hls.
  destruct (loadable_lookups Hload) as (content & account & Hc & Ha).
  pose proof (@publish_now_cases post_id post w content account Hrow Hpub
                Hc Ha Hkey) as H.
  cbv zeta in H. rewrite Hreply, Hls in H.
  destruct (SchedulerService.publish_now post_id w) as [r w'].
  cbn [fst snd] in H.
  destruct H as (_ & Hcom & post' & Hrow' & -> & H).
  exists post', w'. split; [reflexivity|].
  rewrite Hcom. tauto.
Qed.

Lemma publish_now_success_witness :
  exists post' w',
    SchedulerService.publish_now 100 pending_world = (Ok post', w')
    /\ status post' = PUBLISHED
    /\ published_at post' = Some 7%Z
    /\ late_post_id post' = Some "ext-0"
    /\ late_status post' = Some LATE_PENDING
    /\ platform_post_id post' = None
    /\ platform_post_url post' = None
    /\ retry_count post' = 0%Z
    /\ error_message post' = None
    /\ row 100 (committed w') = Some post'.
Proof.
  refine (@publish_now_success 100 pending_post pending_world
            (LatePost.mk "ext-0" "pending" []) LATE_PENDING
            eq_refl _ (sample_world_loadable _ _ _ _ _ _) eq_refl
            (fun _ => eq_refl) eq_refl).
  discriminate.
Defined.

(** X15.  [publish_now] when the remote service rejects the request:
    the post, set to [PUBLISHING] by the call, ends [FAILED] with
    [retry_count] one higher, [failed_at] set and no [published_at]
    written; this is committed and the [LateApiError] is raised again to
    the caller. *)
Theorem publish_now_failure :
  forall (post_id : UUID) (post : ScheduledPost) (w : World) (msg : string),
    row post_id (txn w) = Some post ->
    status post <> PUBLISHED ->
    loadable w post ->
    truthy (LATER_DEV_API_KEY w) = true ->
    next_reply_is w (LateErr msg) ->
    exists post' w',
      SchedulerService.publish_now post_id w = (Raise (LateApiError msg), w')
      /\ row post_id (committed w') = Some post'
      /\ status post' = FAILED
      /\ retry_count post' = (retry_count post + 1)%Z
      /\ failed_at post' = Some (now w)
      /\ error_message post'
         = (if String.eqb msg "" then error_message post else Some msg)
      /\ late_post_id post' = late_post_id post
      /\ published_at post' = published_at post.
Proof.
  intros post_id post w msg Hrow Hpub Hload Hkey Hreply.
  destruct (loadable_lookups Hload) as (content & account & Hc & Ha).
  pose proof (@publish_now_cases post_id post w content account Hrow Hpub
                Hc Ha Hkey) as H.
  cbv zeta in H. rewrite Hreply in H.
  destruct (SchedulerService.publish_now post_id w) as [r w'].
  cbn [fst snd] in H.
  destruct H as (_ & Hcom & post' & Hrow' & -> & Hst & Hr & Hf & He & Hl
                 & Hp).
  exists post', w'. split; [reflexivity|].
  rewrite Hcom. repeat split; try assumption.
  rewrite He. simpl. now destruct (String.eqb msg "").
Qed.

Lemma publish_now_failure_witness :
  exists post' w',
    SchedulerService.publish_now 100 refusing_world
    = (Raise (LateApiError "upstream error"), w')
    /\ row 100 (committed w') = Some post'
    /\ status post' = FAILED
    /\ retry_count post' = 1%Z
    /\ failed_at post' = Some 7%Z
    /\ error_message post' = Some "upstream error"
    /\ late_post_id post' = None
    /\ published_at post' = None.
Proof.
  refine (@publish_now_failure 100 pending_post refusing_world
            "upstream error" eq_refl _ (sample_world_loadable _ _ _ _ _ _)
            eq_refl (fun _ => eq_refl)).
  discriminate.
Defined.

(** X16.  What [publish_now] sends.  Whatever the remote service answers,
    [publish_now] on a post that is not [PUBLISHED] sends exactly one
    create request; it has the immediate-publish flag and neither a
    scheduled time nor a timezone, it targets the post's platform and
    the account's remote identifier, and it never carries a media item
    without URL: its media are the attachments that have a
    [late_media_url], in order. *)
Theorem publish_now_request :
  forall (post_id : UUID) (post : ScheduledPost) (w : World)
         (content : ContentLibraryItem.t) (account : ConnectedAccount.t),
    row post_id (txn w) = Some post ->
    status post <> PUBLISHED ->
    content_of w (content_library_item_id post) = Some content ->
    account_of w (connected_account_id post) = Some account ->
    truthy (LATER_DEV_API_KEY w) = true ->
    exists request,
      late_calls (snd (SchedulerService.publish_now post_id w))
      = late_calls w ++ [create_post_call request]
      /\ LatePostCreate.publish_now request = true
      /\ LatePostCreate.scheduled_for request = None
      /\ LatePostCreate.timezone request = None
      /\ map (fun t => (LatePlatformTarget.platform t,
                        LatePlatformTarget.account_id t))
           (LatePostCreate.platforms request)
         = [(PlatformType_value (platform post),
             ConnectedAccount.late_account_id account)]
      /\ Forall (fun m => truthy (LateMediaItem.url m) = true)
           (LatePostCreate.media_items request)
      /\ map LateMediaItem.url (LatePostCreate.media_items request)
         = filter truthy
             (map MediaAttachment.late_media_url
                (ContentLibraryItem.media_attachments content)).
Proof.
  intros post_id post w content account Hrow Hpub Hc Ha Hkey.
  destruct (@publish_now_cases post_id post w content account Hrow Hpub
              Hc Ha Hkey) as (Hcalls & _).
  exists (publish_request post content account).
  split; [exact Hcalls|]. repeat split.
  - cbn [publish_request LatePostCreate.media_items].
    induction (ContentLibraryItem.media_attachments content) as [|a l IH];
      simpl; [constructor|].
    destruct (truthy (MediaAttachment.late_media_url a)) eqn:E; simpl;
      [constructor; assumption | assumption].
  - cbn [publish_request LatePostCreate.media_items].
    induction (ContentLibraryItem.media_attachments content) as [|a l IH];
      simpl; [reflexivity|].
    destruct (truthy (MediaAttachment.late_media_url a)) eqn:E; simpl;
      now rewrite IH.
Qed.

Lemma publish_now_request_witness :
  exists request,
    late_calls (snd (SchedulerService.publish_now 100 media_world))
    = late_calls media_world ++ [create_post_call request]
    /\ LatePostCreate.publish_now request = true
    /\ LatePostCreate.scheduled_for request = None
    /\ LatePostCreate.timezone request = None
    /\ map (fun t => (LatePlatformTarget.platform t,
                      LatePlatformTarget.account_id t))
         (LatePostCreate.platforms request)
       = [("tiktok", "late-acc-1")]
    /\ Forall (fun m => truthy (LateMediaItem.url m) = true)
         (LatePostCreate.media_items request)
    /\ map LateMediaItem.url (LatePostCreate.media_items request)
       = [Some "https://media/1.mp4"].
Proof.
  refine (@publish_now_request 100 media_post media_world media_content
            sample_account eq_refl _ eq_refl eq_refl eq_refl).
  discriminate.
Defined.

(** X17.  [publish_now] commits [PUBLISHING] before it looks at the
    content: when the content of the post is missing or soft-deleted, or
    its account is missing, the call raises [ValueError], sends nothing,
    and leaves the post committed in [PUBLISHING]. *)
Theorem publish_now_without_content_stays_publishing :
  forall (post_id : UUID) (post : ScheduledPost) (w : World),
    row post_id (txn w) = Some post ->
    status post <> PUBLISHED ->
    truthy (LATER_DEV_API_KEY w) = true ->
    content_of w (content_library_item_id post) = None
    \/ account_of w (connected_account_id post) = None ->
    exists w',
      SchedulerService.publish_now post_id w
      = (Raise (ValueError "Content or account not found"), w')
      /\ row post_id (committed w') = Some (set_status PUBLISHING post)
      /\ late_calls w' = late_calls w.
Proof.
  intros post_id post w Hrow Hpub Hkey Hmissing.
  pose proof (row_id _ _ Hrow) as Hid.
  assert (E : ScheduleStatus_eqb (status post) PUBLISHED = false)
    by (destruct (status post); simpl; congruence).
  eexists. split; [|split].
  - unfold SchedulerService.publish_now, bind at 1,
      ScheduledPostRepository.get_by_id_with_relations.
    unfold row in Hrow. rewrite Hrow, E.
    unfold bind at 1, ScheduledPostRepository.update_status, bind at 1,
      datetime_now, session_flush.
    cbn [ScheduleStatus_eqb]. cbv beta iota.
    unfold bind at 1, session_commit at 1. cbv beta iota.
    unfold bind at 1, try_except_LateApiError,
      SchedulerService._publish_via_late, bind at 1, LateApiClient.new.
    cbn [LATER_DEV_API_KEY set_committed set_txn]. rewrite Hkey.
    cbv beta iota.
    unfold try_finally, bind at 1,
      ContentLibraryRepository.get_by_id_with_media,
      ConnectedAccountRepository.get_by_id, bind at 1.
    cbn [contents accounts set_committed set_txn content_library_item_id
           connected_account_id set_status].
    unfold content_of, account_of in Hmissing.
    destruct Hmissing as [H|H]; rewrite H.
    + reflexivity.
    + destruct (find _ (contents w)); reflexivity.
  - cbn [committed set_committed]. subst post_id.
    change (id post) with (id (set_status PUBLISHING post)) at 1.
    apply row_replace_row. cbn [id set_status]. rewrite Hrow. discriminate.
  - reflexivity.
Qed.

Lemma publish_now_without_content_stays_publishing_witness :
  exists w',
    SchedulerService.publish_now 100 orphan_world
    = (Raise (ValueError "Content or account not found"), w')
    /\ row 100 (committed w') = Some (set_status PUBLISHING orphan_post)
    /\ late_calls w' = late_calls orphan_world.
Proof.
  refine (@publish_now_without_content_stays_publishing 100 orphan_post
            orphan_world eq_refl _ eq_refl (or_introl eq_refl)).
  discriminate.
Defined.

(** X10.  [publish_now] when the remote service accepts the request but
    answers with a status that [LatePostStatus] does not know: the call
    raises the [ValueError] of the enumeration after the request was
    sent, so the remote service has published, while locally the post is
    left committed in [PUBLISHING], without remote identifier, and is not
    marked [FAILED]; the route answers 400 with the message of the
    enumeration. *)
Theorem publish_now_with_unknown_remote_status :
  forall (post_id : UUID) (post : ScheduledPost) (w : World)
         (late_post : LatePost.t),
    row post_id (txn w) = Some post ->
    status post <> PUBLISHED ->
    loadable w post ->
    truthy (LATER_DEV_API_KEY w) = true ->
    next_reply_is w (LateOk late_post) ->
    LatePostStatus_of_value (LatePost.status late_post) = None ->
    let message := (repr_str (LatePost.status late_post)
                    ++ " is not a valid LatePostStatus")%string in
    exists w',
      SchedulerService.publish_now post_id w
      = (Raise (ValueError message), w')
      /\ routes.publish_now post_id w = (Ok (HTTPException 400 message), w')
      /\ row post_id (committed w') = Some (set_status PUBLISHING post)
      /\ List.length (late_calls w') = S (List.length (late_calls w)).
Proof.
  intros post_id post w late_post Hrow Hpub Hload Hkey Hreply Hls.
  destruct (loadable_lookups Hload) as (content & account & Hc & Ha).
  pose proof (@publish_now_cases post_id post w content account Hrow Hpub
                Hc Ha Hkey) as H.
  cbv zeta in *. rewrite Hreply, Hls in H.
  unfold routes.publish_now, routes.except_errors.
  destruct (SchedulerService.publish_now post_id w) as [r w'].
  cbn [fst snd] in H.
  destruct H as (Hcalls & Hcom & post' & Hrow' & -> & ->).
  exists w'. split; [reflexivity|]. split; [reflexivity|].
  split; [now rewrite Hcom|].
  rewrite Hcalls, length_app. simpl. lia.
Qed.

Lemma publish_now_with_unknown_remote_status_witness :
  exists w',
    SchedulerService.publish_now 100 unknown_status_world
    = (Raise (ValueError "'scheduled' is not a valid LatePostStatus"), w')
    /\ routes.publish_now 100 unknown_status_world
       = (Ok (HTTPException 400 "'scheduled' is not a valid LatePostStatus"),
          w')
    /\ row 100 (committed w') = Some (set_status PUBLISHING pending_post)
    /\ List.length (late_calls w')
       = S (List.length (late_calls unknown_status_world)).
Proof.
  refine (@publish_now_with_unknown_remote_status 100 pending_post
            unknown_status_world (LatePost.mk "ext-0" "scheduled" [])
            eq_refl _ (sample_world_loadable _ _ _ _ _ _) eq_refl
            (fun _ => eq_refl) eq_refl).
  discriminate.
Defined.

(** ** Unknown posts, published posts, cancelled posts *)

Lemma service_unknown_post (post_id : UUID) (w : World) :
  row post_id (txn w) = None ->
  let not_found := ValueError ("Post " ++ str_UUID post_id ++ " not found") in
  (forall new_time tz,
     SchedulerService.reschedule post_id new_time tz w = (Raise not_found, w))
  /\ SchedulerService.cancel post_id w = (Raise not_found, w)
  /\ SchedulerService.publish_now post_id w = (Raise not_found, w).
Proof.
  unfold row. intro Hrow. cbv zeta.
  unfold SchedulerService.reschedule, SchedulerService.cancel,
    SchedulerService.publish_now, bind,
    ScheduledPostRepository.get_by_id_with_relations.
  rewrite Hrow. repeat split.
Qed.

(** X18.  For a post id that is not in the table, [reschedule], [cancel]
    and [publish_now] raise [ValueError] ("Post ... not found") and leave
    the world as it was: no row is written, nothing is committed, sent or
    logged. *)
Theorem operations_on_unknown_post :
  forall (post_id : UUID) (w : World),
    row post_id (txn w) = None ->
    let not_found :=
      ValueError ("Post " ++ str_UUID post_id ++ " not found") in
    (forall new_time tz,
       SchedulerService.reschedule post_id new_time tz w
       = (Raise not_found, w))
    /\ SchedulerService.cancel post_id w = (Raise not_found, w)
    /\ SchedulerService.publish_now post_id w = (Raise not_found, w).
Proof. exact service_unknown_post. Qed.

Lemma operations_on_unknown_post_witness :
  (forall new_time tz,
     SchedulerService.reschedule 5 new_time tz pending_world
     = (Raise (ValueError "Post 5 not found"), pending_world))
  /\ SchedulerService.cancel 5 pending_world
     = (Raise (ValueError "Post 5 not found"), pending_world)
  /\ SchedulerService.publish_now 5 pending_world
     = (Raise (ValueError "Post 5 not found"), pending_world).
Proof.
  exact (@operations_on_unknown_post 5 pending_world eq_refl).
Defined.

(** X19.  The routes answer an unknown post id differently: the read
    route [get_post] answers 404, while the mutating routes for
    reschedule, cancel and publish turn the service's [ValueError] into
    400; none of them changes the world. *)
Theorem routes_on_unknown_post :
  forall (post_id : UUID) (w : World),
    row post_id (txn w) = None ->
    let detail := ("Post " ++ str_UUID post_id ++ " not found")%string in
    routes.get_post post_id w = (Ok (HTTPException 404 detail), w)
    /\ (forall new_time tz,
          routes.reschedule_post post_id new_time tz w
          = (Ok (HTTPException 400 detail), w))
    /\ routes.cancel_post post_id w = (Ok (HTTPException 400 detail), w)
    /\ routes.publish_now post_id w = (Ok (HTTPException 400 detail), w).
Proof.
  intros post_id w Hrow.
  destruct (service_unknown_post post_id w Hrow) as (Hr & Hc & Hp).
  cbv zeta in *.
  unfold routes.reschedule_post, routes.cancel_post, routes.publish_now,
    routes.except_errors.
  rewrite Hc, Hp. repeat split.
  - unfold routes.get_post, bind,
      ScheduledPostRepository.get_by_id_with_relations.
    unfold row in Hrow. now rewrite Hrow.
  - intros new_time tz. now rewrite Hr.
Qed.

Lemma routes_on_unknown_post_witness :
  routes.get_post 5 pending_world
  = (Ok (HTTPException 404 "Post 5 not found"), pending_world)
  /\ (forall new_time tz,
        routes.reschedule_post 5 new_time tz pending_world
        = (Ok (HTTPException 400 "Post 5 not found"), pending_world))
  /\ routes.cancel_post 5 pending_world
     = (Ok (HTTPException 400 "Post 5 not found"), pending_world)
  /\ routes.publish_now 5 pending_world
     = (Ok (HTTPException 400 "Post 5 not found"), pending_world).
Proof.
  exact (@routes_on_unknown_post 5 pending_world eq_refl).
Defined.

(** X20.  A [PUBLISHED] post is closed to every operation: [reschedule],
    [cancel] and [publish_now] each raise [ValueError] and leave the
    world, and so the post, as it was; the routes answer 400. *)
Theorem published_post_is_closed :
  forall (post_id : UUID) (post : ScheduledPost) (w : World),
    row post_id (txn w) = Some post ->
    status post = PUBLISHED ->
    (forall new_time tz,
       SchedulerService.reschedule post_id new_time tz w
       = (Raise (ValueError "Cannot reschedule post with status published"),
          w))
    /\ SchedulerService.cancel post_id w
       = (Raise (ValueError "Cannot cancel already published post"), w)
    /\ SchedulerService.publish_now post_id w
       = (Raise (ValueError "Post already published"), w)
    /\ routes.cancel_post post_id w
       = (Ok (HTTPException 400 "Cannot cancel already published post"), w)
    /\ routes.publish_now post_id w
       = (Ok (HTTPException 400 "Post already published"), w).
Proof.
  intros post_id post w Hrow Hst.
  pose proof (@cancel_rejects_published post_id post w Hrow Hst) as Hc.
  pose proof (@publish_now_rejects_published post_id post w Hrow Hst) as Hp.
  unfold routes.cancel_post, routes.publish_now, routes.except_errors.
  rewrite Hc, Hp. repeat split.
  intros new_time tz.
  unfold SchedulerService.reschedule, bind at 1,
    ScheduledPostRepository.get_by_id_with_relations.
  unfold row in Hrow. now rewrite Hrow, Hst.
Qed.

Lemma published_post_is_closed_witness :
  let w := sample_world [sample_post 100 1%Z PUBLISHED (Some "ext-1")]
             api_accepts in
  (forall new_time tz,
     SchedulerService.reschedule 100 new_time tz w
     = (Raise (ValueError "Cannot reschedule post with status published"),
        w))
  /\ SchedulerService.cancel 100 w
     = (Raise (ValueError "Cannot cancel already published post"), w)
  /\ SchedulerService.publish_now 100 w
     = (Raise (ValueError "Post already published"), w)
  /\ routes.cancel_post 100 w
     = (Ok (HTTPException 400 "Cannot cancel already published post"), w)
  /\ routes.publish_now 100 w
     = (Ok (HTTPException 400 "Post already published"), w).
Proof.
  exact (@published_post_is_closed 100
           (sample_post 100 1%Z PUBLISHED (Some "ext-1"))
           (sample_world [sample_post 100 1%Z PUBLISHED (Some "ext-1")]
              api_accepts)
           eq_refl eq_refl).
Defined.

(** X21.  [cancel] on a post that is not [PUBLISHED], when there is
    nothing to delete remotely or the remote deletion succeeds: the call
    returns the post with status [CANCELLED], and the row is committed;
    afterwards the calendar does not show the post and the sweep does
    not select it. *)
Theorem cancel_success :
  forall (post_id : UUID) (post : ScheduledPost) (w : World),
    row post_id (txn w) = Some post ->
    status post <> PUBLISHED ->
    (truthy (late_post_id post) = true ->
     truthy (LATER_DEV_API_KEY w) = true
     /\ exists late_post, next_reply_is w (LateOk late_post)) ->
    exists post' w',
      SchedulerService.cancel post_id w = (Ok post', w')
      /\ status post' = CANCELLED
      /\ row post_id (committed w') = Some post'
      /\ (forall from_date to_date account_ids posts,
            fst (ScheduledPostRepository.get_calendar_data from_date to_date
                   account_ids w') = Ok posts ->
            ~ In post' posts)
      /\ ~ In post' (pending_rows w').
Proof.
  intros post_id post w Hrow Hst Hremote.
  destruct (@cancel_sets_cancelled post_id post w Hrow Hst Hremote)
    as (post' & w' & Hrun & Hst' & Hcom & Hrow').
  exists post', w'. split; [exact Hrun|]. split; [exact Hst'|].
  split; [exact Hrow'|]. split.
  - intros from_date to_date account_ids posts Hposts Hin.
    destruct (calendar_data_rows from_date to_date account_ids w')
      as (posts' & Hrun' & Hiff).
    rewrite Hrun' in Hposts. injection Hposts as <-.
    apply Hiff in Hin. tauto.
  - unfold pending_rows. rewrite filter_In, Hst'. intros (_ & H).
    discriminate H.
Qed.

Lemma cancel_success_witness :
  exists post' w',
    SchedulerService.cancel 100 pending_world = (Ok post', w')
    /\ status post' = CANCELLED
    /\ row 100 (committed w') = Some post'
    /\ (forall from_date to_date account_ids posts,
          fst (ScheduledPostRepository.get_calendar_data from_date to_date
                 account_ids w') = Ok posts ->
          ~ In post' posts)
    /\ ~ In post' (pending_rows w').
Proof.
  refine (@cancel_success 100 pending_post pending_world eq_refl _ _).
  - discriminate.
  - discriminate.
Defined.

(** ** The sweep, continued *)

(** X23.  The sweep without an API key.  Every selected post is counted
    as failed, but none is touched: the rows of the session and the
    committed rows are as before (the posts stay [PENDING_SYNC] with
    their [retry_count]), and no request is sent. *)
Theorem sweep_without_key_counts_failures_only :
  forall (w : World),
    truthy (LATER_DEV_API_KEY w) = false ->
    exists w',
      SchedulerService.sync_pending w
      = (Ok (SchedulerService.mkSyncResponse 0
               (List.length (pending_rows w))), w')
      /\ txn w' = txn w
      /\ committed w' = committed w
      /\ late_calls w' = late_calls w.
Proof.
  intros w Hkey.
  destruct (@sync_pending_loop_without_key
              (order_by_created_at (pending_rows w)) w 0 0 Hkey)
    as (w1 & Hloop & Ht & Hc & Hl & _).
  eexists. split; [|split; [|split]].
  - unfold SchedulerService.sync_pending, bind at 1,
      ScheduledPostRepository.get_pending_sync.
    fold (pending_rows w). unfold bind at 1. rewrite Hloop.
    unfold bind, logger, ret. cbn [fst snd].
    rewrite (Permutation_length (order_by_created_at_perm (pending_rows w))).
    reflexivity.
  - exact Ht.
  - exact Hc.
  - exact Hl.
Qed.

Lemma sweep_without_key_counts_failures_only_witness :
  exists w',
    SchedulerService.sync_pending keyless_world
    = (Ok (SchedulerService.mkSyncResponse 0
             (List.length (pending_rows keyless_world))), w')
    /\ txn w' = txn keyless_world
    /\ committed w' = committed keyless_world
    /\ late_calls w' = late_calls keyless_world.
Proof.
  exact (@sweep_without_key_counts_failures_only keyless_world eq_refl).
Defined.

(** X24.  A missing API key is handled differently by the two paths.
    A push ([_sync_to_late]) raises the client's error before its [try]
    and leaves the post and the world untouched, while [publish_now]
    builds the client inside its [try]: the post, not [PUBLISHED]
    before, is set to [PUBLISHING], then to [FAILED] with [retry_count]
    one higher and the error recorded, and this is committed.  Neither
    sends a request. *)
Theorem missing_key_push_and_publish :
  forall (post_id : UUID) (post : ScheduledPost) (w : World),
    row post_id (txn w) = Some post ->
    status post <> PUBLISHED ->
    truthy (LATER_DEV_API_KEY w) = false ->
    let no_key := LateApiError "Late API key not configured" in
    SchedulerService._sync_to_late post w = (Raise no_key, w)
    /\ exists post' w',
         SchedulerService.publish_now post_id w = (Raise no_key, w')
         /\ row post_id (committed w') = Some post'
         /\ status post' = FAILED
         /\ retry_count post' = (retry_count post + 1)%Z
         /\ error_message post' = Some "Late API key not configured"
         /\ late_calls w' = late_calls w.
Proof.
  intros post_id post w Hrow Hpub Hkey. cbv zeta.
  split; [exact (@sync_to_late_without_key post w Hkey)|].
  pose proof (row_id _ _ Hrow) as Hid.
  assert (E : ScheduleStatus_eqb (status post) PUBLISHED = false)
    by (destruct (status post); simpl; congruence).
  set (post1 := set_status PUBLISHING post).
  set (T1 := replace_row post1 (txn w)).
  set (w2 := set_committed T1 (set_txn T1 w)).
  destruct (update_status_columns FAILED None None None None
              (Some "Late API key not configured") post1 w2)
    as (post2 & Hrun & Hst & _ & _ & _ & _ & _ & _ & Hr & He & Hcols).
  set (T2 := replace_row post2 T1).
  exists post2, (set_committed T2 (set_txn T2 w2)).
  split; [|split; [|split; [|split; [|split]]]].
  - unfold SchedulerService.publish_now, bind at 1,
      ScheduledPostRepository.get_by_id_with_relations.
    unfold row in Hrow. rewrite Hrow, E.
    unfold bind at 1, ScheduledPostRepository.update_status at 1, bind at 1,
      datetime_now at 1, session_flush at 1.
    cbn [ScheduleStatus_eqb]. cbv beta iota.
    unfold bind at 1, session_commit at 1. cbv beta iota.
    fold post1. cbn [txn set_txn]. fold T1. fold w2.
    unfold bind at 1, try_except_LateApiError,
      SchedulerService._publish_via_late, bind at 1, LateApiClient.new.
    change (LATER_DEV_API_KEY w2) with (LATER_DEV_API_KEY w).
    rewrite Hkey. cbv beta iota.
    unfold bind at 1. rewrite Hrun. reflexivity.
  - cbn [committed set_committed txn set_txn]. subst post_id.
    assert (Hid2 : id post2 = id post) by (now injection Hcols).
    rewrite <- Hid2. subst T2. apply row_replace_row. rewrite Hid2.
    change (id post) with (id post1).
    subst T1. rewrite row_replace_row; [discriminate|].
    change (id post1) with (id post). rewrite Hrow. discriminate.
  - exact Hst.
  - exact Hr.
  - exact He.
  - reflexivity.
Qed.

Lemma missing_key_push_and_publish_witness :
  let no_key := LateApiError "Late API key not configured" in
  SchedulerService._sync_to_late pending_post keyless_world
  = (Raise no_key, keyless_world)
  /\ exists post' w',
       SchedulerService.publish_now 100 keyless_world = (Raise no_key, w')
       /\ row 100 (committed w') = Some post'
       /\ status post' = FAILED
       /\ retry_count post' = (retry_count pending_post + 1)%Z
       /\ error_message post' = Some "Late API key not configured"
       /\ late_calls w' = late_calls keyless_world.
Proof.
  refine (@missing_key_push_and_publish 100 pending_post keyless_world
            eq_refl _ eq_refl).
  discriminate.
Defined.

(** ** Batches, continued *)

(** X25.  A deferred batch.  When the content exists and every account
    of the list exists and is active, [schedule_multi] with
    [sync_immediately] off returns the batch identifier (a fresh token)
    and one post per entry, all [DRAFT]; they are committed, together
    with everything the session held, and nothing is sent to the remote
    service. *)
Theorem deferred_batch_is_all_drafts :
  forall (content_id : UUID) (content : ContentLibraryItem.t)
         (account_schedules : list ScheduleAccountConfig.t) (tz : string)
         (w : World),
    content_of w content_id = Some content ->
    forallb (account_ok w) account_schedules = true ->
    exists posts w',
      SchedulerService.schedule_multi content_id account_schedules tz false w
      = (Ok (str_UUID (next_uuid w), posts), w')
      /\ List.length posts = List.length account_schedules
      /\ Forall (fun p => status p = DRAFT /\ late_post_id p = None
                          /\ In p (committed w'))
           posts
      /\ committed w' = txn w'
      /\ List.length (txn w')
         = List.length (txn w) + List.length account_schedules
      /\ late_calls w' = late_calls w.
Proof.
  intros content_id content schedules tz w Hc Hoks.
  unfold content_of in Hc.
  set (w0 := set_next_uuid (S (next_uuid w)) w).
  destruct (schedule_multi_create_prefix content_id
              (str_UUID (next_uuid w)) tz false schedules [] [] w0 Hoks)
    as (created & w' & Hloop & Hmem & Hacc & Hin & _ & _ & Hlen & _
        & Hcalls & _ & _).
  rewrite app_nil_r in Hloop. cbn in Hloop.
  exists created,
    (set_log (log w' ++ [(INFO, "Multi-platform posts scheduled")])
       (set_committed (txn w') w')).
  split; [|split; [|split; [|split; [|split]]]].
  - unfold SchedulerService.schedule_multi, bind at 1,
      ContentLibraryRepository.get_by_id_with_media.
    rewrite Hc. unfold bind at 1, uuid4. fold w0.
    unfold bind at 1. rewrite Hloop.
    unfold ret at 1, bind, session_commit, logger, ret.
    unfold SchedulerService.post_to_dict. now rewrite map_id.
  - rewrite <- (length_map connected_account_id), Hacc.
    apply length_map.
  - rewrite Forall_forall in *. intros p Hp.
    destruct (Hmem p Hp) as (_ & _ & _ & Hst & Hl).
    destruct (Hin p Hp) as (Hrow & _). auto.
  - reflexivity.
  - exact Hlen.
  - exact Hcalls.
Qed.

Lemma deferred_batch_is_all_drafts_witness :
  exists posts w',
    SchedulerService.schedule_multi 10 [entry 1 50%Z; entry 2 60%Z] "UTC"
      false empty_world
    = (Ok (str_UUID (next_uuid empty_world), posts), w')
    /\ List.length posts = List.length [entry 1 50%Z; entry 2 60%Z]
    /\ Forall (fun p => status p = DRAFT /\ late_post_id p = None
                        /\ In p (committed w'))
         posts
    /\ committed w' = txn w'
    /\ List.length (txn w')
       = List.length (txn empty_world)
         + List.length [entry 1 50%Z; entry 2 60%Z]
    /\ late_calls w' = late_calls empty_world.
Proof.
  exact (@deferred_batch_is_all_drafts 10 sample_content
           [entry 1 50%Z; entry 2 60%Z] "UTC" empty_world eq_refl eq_refl).
Defined.

(** X26.  A batch is committed before it is pushed, and the push of its
    first post raises.  With [sync_immediately] on (what the route asks
    for), when the content exists and every account of a non-empty list
    exists and is active, [schedule_multi] creates one post per entry in
    [PENDING_SYNC] and commits them; the push of the first post then
    raises before a request is sent ([TypeError] with an API key,
    [LateApiError] without one), and so does [schedule_multi].  The whole
    batch stays committed in [PENDING_SYNC]; no post of it was pushed. *)
Theorem batch_is_committed_before_pushing :
  forall (content_id : UUID) (content : ContentLibraryItem.t)
         (schedule : ScheduleAccountConfig.t)
         (more : list ScheduleAccountConfig.t) (tz : string) (w : World),
    content_of w content_id = Some content ->
    forallb (account_ok w) (schedule :: more) = true ->
    fresh_keys w ->
    exists posts w',
      SchedulerService.schedule_multi content_id (schedule :: more) tz true w
      = (Raise (if truthy (LATER_DEV_API_KEY w) then TypeError
                else LateApiError "Late API key not configured"), w')
      /\ txn w' = txn w ++ posts
      /\ committed w' = txn w'
      /\ late_calls w' = late_calls w
      /\ map connected_account_id posts
         = map ScheduleAccountConfig.connected_account_id (schedule :: more)
      /\ Forall (fun p => status p = PENDING_SYNC
                          /\ late_post_id p = None
                          /\ batch_id p = Some (str_UUID (next_uuid w)))
           posts.
Proof.
  intros content_id content schedule more tz w Hc Hoks Hfresh.
  set (batch := str_UUID (next_uuid w)).
  set (w0 := set_next_uuid (S (next_uuid w)) w).
  assert (Hfresh0 : fresh_keys w0).
  { unfold fresh_keys, w0. cbn [txn next_uuid set_next_uuid].
    eapply Forall_impl; [|exact Hfresh]. intros r Hr. simpl in Hr. lia. }
  destruct (@schedule_multi_create_rows content_id batch tz true
              (schedule :: more) [] w0 Hfresh0)
    as (created & r & w1 & Hloop & Htxn & Hmem & Hmap & _ & Hres & Hall
        & Hcalls & Henv).
  assert (Hoks0 : forallb (account_ok w0) (schedule :: more) = true)
    by exact Hoks.
  rewrite (Hall Hoks0) in *. cbn [app] in Hloop.
  destruct Hres as [(_ & Hlen) | (msg & Hr)]; [|discriminate Hr].
  destruct created as [|first others]; [discriminate Hlen|].
  set (w2 := set_committed (txn w1) w1).
  assert (Hall_map : map connected_account_id (first :: others)
                     = map ScheduleAccountConfig.connected_account_id
                         (schedule :: more)).
  { rewrite Hmap, Hlen,
      <- (length_map ScheduleAccountConfig.connected_account_id).
    apply firstn_all. }
  assert (Herr : push_error w2 first
                 = (if truthy (LATER_DEV_API_KEY w) then TypeError
                    else LateApiError "Late API key not configured")).
  { destruct Henv as (Eacc & Econt & _ & Ekey & _).
    apply Forall_inv in Hmem. destruct Hmem as (_ & _ & Hcid & _).
    injection Hall_map as Hacc _.
    unfold push_error, content_of, account_of, w2.
    cbn [LATER_DEV_API_KEY contents accounts set_committed].
    rewrite Ekey, Econt, Eacc, Hcid, Hacc.
    unfold w0. cbn [LATER_DEV_API_KEY contents accounts set_next_uuid].
    unfold content_of in Hc. rewrite Hc.
    cbn [forallb] in Hoks. apply andb_true_iff in Hoks.
    destruct Hoks as (Hs & _). unfold account_ok in Hs.
    destruct (find (fun a => Nat.eqb (ConnectedAccount.id a)
                       (ScheduleAccountConfig.connected_account_id schedule))
                (accounts w)); [reflexivity|discriminate Hs]. }
  exists (first :: others), w2.
  split; [|split; [exact Htxn|split; [reflexivity|split;
    [exact Hcalls|split; [exact Hall_map|]]]]].
  - unfold SchedulerService.schedule_multi, bind at 1,
      ContentLibraryRepository.get_by_id_with_media.
    unfold content_of in Hc. rewrite Hc. unfold bind at 1, uuid4.
    fold w0. fold batch. unfold bind at 1. rewrite Hloop.
    unfold bind at 1, session_commit at 1. fold w2.
    unfold bind at 1. rewrite schedule_multi_sync_run, Herr. reflexivity.
  - eapply Forall_impl; [|exact Hmem].
    intros p (Hb & _ & _ & Hst & Hl). auto.
Qed.

Lemma batch_is_committed_before_pushing_witness :
  exists posts w',
    SchedulerService.schedule_multi 10 (entry 1 50%Z :: [entry 2 60%Z])
      "UTC" true empty_world
    = (Raise TypeError, w')
    /\ txn w' = txn empty_world ++ posts
    /\ committed w' = txn w'
    /\ late_calls w' = late_calls empty_world
    /\ map connected_account_id posts
       = map ScheduleAccountConfig.connected_account_id
           (entry 1 50%Z :: [entry 2 60%Z])
    /\ Forall (fun p => status p = PENDING_SYNC
                        /\ late_post_id p = None
                        /\ batch_id p
                           = Some (str_UUID (next_uuid empty_world)))
         posts.
Proof.
  refine (@batch_is_committed_before_pushing 10 sample_content
            (entry 1 50%Z) [entry 2 60%Z] "UTC" empty_world
            eq_refl eq_refl _).
  constructor.
Defined.

(** ** The client: [LateApiClient._request] *)

Ltac request_cases sc :=
  unfold LateApiClientRequest._request, LateApiClientRequest.json_or,
    LateApiClientRequest.get_error;
  cbn [LateResponse.status_code LateResponse.body
       LateResponse.rate_limit_remaining LateResponse.retry_after];
  destruct (Nat.eqb_spec sc 401); [|
  destruct (Nat.eqb_spec sc 429); [|
  destruct (Nat.eqb_spec sc 404); [|
  destruct (Nat.eqb_spec sc 400); [|
  destruct (Nat.leb_spec 400 sc); [|
  destruct (Nat.eqb_spec sc 204)]]]]].

(** X27.  A response with an error status never yields data.  For a
    status of 400 or more, [_request] raises; when what it raises is a
    Late error, the [status_code] of the error is the status of the
    response, also for the statuses that have a class of their own. *)
Theorem error_status_never_returns :
  forall (endpoint : string) (response : LateResponse.t),
    400 <= LateResponse.status_code response ->
    (forall data,
        LateApiClientRequest._request endpoint (Some response)
        <> returns data)
    /\ (forall e,
          LateApiClientRequest._request endpoint (Some response) = raises e ->
          LateError_status_code e
          = Some (LateResponse.status_code response)).
Proof.
  intros endpoint [sc body rl ra] Hsc.
  cbn [LateResponse.status_code] in *.
  split; [intros data | intros e];
    request_cases sc; subst; try lia;
    destruct rl, ra, body as [|[| | | | |members]|]; try discriminate;
    try (destruct (JSON.lookup "error" members)); try discriminate;
    intro Hret; injection Hret as <-; reflexivity.
Qed.

Lemma error_status_never_returns_witness :
  (forall data,
      LateApiClientRequest._request "/posts"
        (Some (LateResponse.mk 503 LateResponse.no_content
                 LateResponse.no_header LateResponse.no_header))
      <> returns data)
  /\ (forall e,
        LateApiClientRequest._request "/posts"
          (Some (LateResponse.mk 503 LateResponse.no_content
                   LateResponse.no_header LateResponse.no_header))
        = raises e ->
        LateError_status_code e = Some 503).
Proof.
  refine (@error_status_never_returns "/posts"
            (LateResponse.mk 503 LateResponse.no_content
               LateResponse.no_header LateResponse.no_header) _).
  simpl. lia.
Defined.

(** X28.  When [_request] returns.  It returns [data] exactly when the
    exchange succeeded, the rate-limit header is readable, the status is
    below 400 and either the status is 204 and [data] is the empty
    object, whatever the body, or the body decodes and [data] is the
    decoded value, which is returned unchecked: it need not be an
    object. *)
Theorem request_returns_iff :
  forall (endpoint : string) (response : option LateResponse.t)
         (data : JSON.t),
    LateApiClientRequest._request endpoint response = returns data
    <-> exists r,
          response = Some r
          /\ LateResponse.rate_limit_remaining r <> LateResponse.malformed
          /\ LateResponse.status_code r < 400
          /\ ((LateResponse.status_code r = 204 /\ data = JSON.object [])
              \/ (LateResponse.status_code r <> 204
                  /\ LateResponse.body r = LateResponse.json data)).
Proof.
  intros endpoint [[sc body rl ra]|] data; split.
  - request_cases sc; subst;
      destruct rl, ra, body as [|[| | | | |members]|]; try discriminate;
      try (destruct (JSON.lookup "error" members)); try discriminate;
      intro Hret; injection Hret as <-;
      (eexists; split; [reflexivity|]; split; [discriminate|];
       split; [cbn; lia|]; cbn;
       first [ left; split; reflexivity
             | right; split; [assumption|reflexivity] ]).
  - intros (r & Hr & Hrl & Hlt & Hcases). injection Hr as <-.
    cbn [LateResponse.status_code LateResponse.body
         LateResponse.rate_limit_remaining] in *.
    request_cases sc; subst; try lia;
      destruct rl; try congruence;
      destruct Hcases as [(H204 & ->) | (H204 & ->)];
      try lia; try congruence; reflexivity.
  - discriminate.
  - intros (r & Hr & _). discriminate.
Qed.

(** Runs of [_request]: a 200 whose body is a JSON array returns the
    array, and a 400 with such a body ends in the [AttributeError] of
    [data.get]. *)
Example request_with_array_body :
  LateApiClientRequest._request "/posts"
    (Some (LateResponse.mk 200 (LateResponse.json (JSON.array []))
             LateResponse.no_header LateResponse.no_header))
  = returns (JSON.array [])
  /\ LateApiClientRequest._request "/posts"
       (Some (LateResponse.mk 400 (LateResponse.json (JSON.array []))
                LateResponse.no_header LateResponse.no_header))
     = raises_AttributeError.
Proof. split; reflexivity. Qed.

(** X29.  What escapes as [ValueError].  When the rate-limit header is
    not a number, or the body cannot be decoded and the status is not a
    204 below the error statuses, [_request] ends with the [ValueError]
    of [int()] or [response.json()], whatever the status: no Late error
    is raised, not even for 401, 404 or 429. *)
Theorem undecodable_response_raises_value_error :
  forall (endpoint : string) (response : LateResponse.t),
    LateResponse.rate_limit_remaining response = LateResponse.malformed
    \/ (LateResponse.body response = LateResponse.not_json
        /\ LateResponse.status_code response <> 204) ->
    LateApiClientRequest._request endpoint (Some response)
    = raises_ValueError.
Proof.
  intros endpoint [sc body rl ra].
  cbn [LateResponse.status_code LateResponse.body
       LateResponse.rate_limit_remaining].
  intros [-> | (-> & Hsc)]; [reflexivity|].
  request_cases sc; subst; try lia; destruct rl, ra; try reflexivity.
Qed.

Lemma undecodable_response_raises_value_error_witness :
  LateApiClientRequest._request "/posts"
    (Some (LateResponse.mk 401 LateResponse.not_json
             LateResponse.no_header LateResponse.no_header))
  = raises_ValueError.
Proof.
  refine (@undecodable_response_raises_value_error "/posts"
            (LateResponse.mk 401 LateResponse.not_json
               LateResponse.no_header LateResponse.no_header) _).
  right. split; [reflexivity | discriminate].
Defined.
